(** * dcgmi diag: result classification, report rendering and run supervision

    A shallow embedding of [dcgmi/Diag.cpp] (class [Diag], the signal
    handler and the remote executor loop) together with the properties of
    the diagnostic orchestrator that its design document states.

    Conventions.
    - [std::string] and NUL-terminated [char] buffers are [list ascii]
      ([str]); the operations of [std::string] that the source calls are in
      module [StdString], with [out_of_range] as an explicit exception.
    - [unsigned int] and [size_t] counters are [nat]: every counter of the
      source is bounded by a capacity or a string size, so none wraps.
    - a fixed-capacity C array [T a[N]] is a total function [nat -> T]
      ([array T]); the loops of the source bound the indices they read.
    - [while] loops run on fuel computed from the size of their input; the
      development proves that the fuel is never exhausted. *)

From Stdlib Require Import List Arith ZArith Bool Lia Ascii String.
From Stdlib Require Import Numbers.DecimalString.
Import ListNotations.

Set Implicit Arguments.

(** ** Strings *)

Definition str : Type := list ascii.

(** A string literal of the source. *)
Definition lit (s : string) : str := list_ascii_of_string s.

(** ** Results of fallible code *)

Inductive exn : Type :=
| out_of_range.

(** [Ok a]: normal return.  [Throw e]: a C++ exception escaped.
    [OutOfFuel]: the loop budget of the model ran out.
    [Waiting]: the recorded schedule of the environment ended while the
    code was still waiting for it. *)
Inductive res (A : Type) : Type :=
| Ok (a : A)
| Throw (e : exn)
| OutOfFuel
| Waiting.

Arguments Ok {A} a.
Arguments Throw {A} e.
Arguments OutOfFuel {A}.
Arguments Waiting {A}.

Definition rbind {A B : Type} (m : res A) (k : A -> res B) : res B :=
  match m with
  | Ok a => k a
  | Throw e => Throw e
  | OutOfFuel => OutOfFuel
  | Waiting => Waiting
  end.

Declare Scope res_scope.
Delimit Scope res_scope with res.
Notation "x <- m ;; k" := (rbind m (fun x => k))
  (at level 61, m at next level, right associativity) : res_scope.
Notation "' pat <- m ;; k" := (rbind m (fun x => match x with pat => k end))
  (at level 61, pat pattern, m at next level, right associativity) : res_scope.

(** ** The part of [std::string] that Diag.cpp uses *)

Module StdString.

Definition size (s : str) : nat := List.length s.

(** [s.at(i)]: bounds-checked access. *)
Definition at_ (s : str) (i : nat) : res ascii :=
  match nth_error s i with
  | Some c => Ok c
  | None => Throw out_of_range
  end.

(** [s.substr(pos)]: throws when [pos > size]. *)
Definition substr_from (s : str) (pos : nat) : res str :=
  if pos <=? size s then Ok (skipn pos s) else Throw out_of_range.

(** [s.substr(pos, n)]: at most [n] characters from [pos]. *)
Definition substr (s : str) (pos n : nat) : res str :=
  if pos <=? size s then Ok (firstn n (skipn pos s)) else Throw out_of_range.

(** [s.erase(pos)]: drops everything from [pos] on. *)
Definition erase_from (s : str) (pos : nat) : res str :=
  if pos <=? size s then Ok (firstn pos s) else Throw out_of_range.

(** [pat] is a prefix of [s]. *)
Fixpoint starts_with (pat s : str) : bool :=
  match pat, s with
  | [], _ => true
  | _ :: _, [] => false
  | p :: pat', c :: s' => Ascii.eqb p c && starts_with pat' s'
  end.

(** [s.find(pat)]: the lowest position at which [pat] occurs, [None] for
    [npos]. *)
Fixpoint find (pat s : str) : option nat :=
  if starts_with pat s then Some 0
  else match s with
       | [] => None
       | _ :: s' => option_map S (find pat s')
       end.

(** [s.rfind(pat)]: the highest position at which [pat] occurs.  Diag.cpp
    does not call it; it states what "the last occurrence" means. *)
Fixpoint rfind (pat s : str) : option nat :=
  match s with
  | [] => if starts_with pat [] then Some 0 else None
  | _ :: s' =>
      match rfind pat s' with
      | Some p => Some (S p)
      | None => if starts_with pat s then Some 0 else None
      end
  end.

End StdString.

(** ** Message clean-up: [Diag::isWhitespace], [Diag::Sanitize] *)

Local Open Scope char_scope.

Definition isWhitespace (c : ascii) : bool :=
  if Ascii.eqb c " " then true
  else if Ascii.eqb c "010" then true       (* '\n' *)
  else if Ascii.eqb c "009" then true       (* '\t' *)
  else if Ascii.eqb c "013" then true       (* '\r' *)
  else if Ascii.eqb c "012" then true       (* '\f' *)
  else false.

Local Close Scope char_scope.

Local Open Scope res_scope.

(** The first [while] of [Diag::Sanitize]:
    [while (size > 0 && isWhitespace(at(size - 1))) erase(size - 1)]. *)
Fixpoint Sanitize_trailing (fuel : nat) (sanitized : str) : res str :=
  match fuel with
  | 0 => OutOfFuel
  | S fuel' =>
      if 0 <? StdString.size sanitized then
        c <- StdString.at_ sanitized (StdString.size sanitized - 1) ;;
        if isWhitespace c then
          sanitized' <- StdString.erase_from sanitized (StdString.size sanitized - 1) ;;
          Sanitize_trailing fuel' sanitized'
        else Ok sanitized
      else Ok sanitized
  end.

(** The second [while]:
    [while (size > 0 && isWhitespace(at(pos))) pos++]. *)
Fixpoint Sanitize_leading (fuel : nat) (sanitized : str) (pos : nat) : res nat :=
  match fuel with
  | 0 => OutOfFuel
  | S fuel' =>
      if 0 <? StdString.size sanitized then
        c <- StdString.at_ sanitized pos ;;
        if isWhitespace c then Sanitize_leading fuel' sanitized (pos + 1)
        else Ok pos
      else Ok pos
  end.

Definition Sanitize (toOutput : str) : res str :=
  sanitized <- match StdString.find (lit "***") toOutput with
               | Some pos => StdString.substr_from toOutput (pos + 3)
               | None => Ok toOutput
               end ;;
  sanitized <- Sanitize_trailing (S (StdString.size sanitized)) sanitized ;;
  pos <- Sanitize_leading (S (StdString.size sanitized)) sanitized 0 ;;
  StdString.substr_from sanitized pos.

(** *** The clean-up rule as the design document words it *)

Fixpoint strip_leading (s : str) : str :=
  match s with
  | [] => []
  | c :: s' => if isWhitespace c then strip_leading s' else s
  end.

(** Leading and trailing whitespace removed. *)
Definition strip_ws (s : str) : str :=
  rev (strip_leading (rev (strip_leading s))).

(** The text after the last ["***"], the whole text when there is none. *)
Definition after_last_delim (s : str) : str :=
  match StdString.rfind (lit "***") s with
  | Some p => skipn (p + 3) s
  | None => s
  end.

Definition Sanitize_as_documented (s : str) : str :=
  strip_ws (after_last_delim s).

(** [pat] occurs in [s] at position [p]. *)
Definition occurs_at (pat s : str) (p : nat) : Prop :=
  exists pre post, s = pre ++ pat ++ post /\ List.length pre = p.

Definition all_ws (l : str) : Prop :=
  Forall (fun c => isWhitespace c = true) l.

(** Neither the first nor the last character is whitespace. *)
Definition trimmed (s : str) : Prop :=
  (forall c s', s = c :: s' -> isWhitespace c = false) /\
  (forall c s', s = s' ++ [c] -> isWhitespace c = false).

(** ** Data model *)

(** A fixed-capacity C array. *)
Definition array (T : Type) : Type := nat -> T.

(** [a[i] = v]. *)
Definition array_set {T : Type} (a : array T) (i : nat) (v : T) : array T :=
  fun k => if k =? i then v else a k.

(** Modelled from the spec: [dcgmDiagResult_t] of [dcgm_structs.h], the
    closed set of cell statuses (not-run, pass, warn, fail, skip), under
    the names that Diag.cpp uses. *)
Inductive dcgmDiagResult_t : Type :=
| DCGM_DIAG_RESULT_PASS
| DCGM_DIAG_RESULT_SKIP
| DCGM_DIAG_RESULT_WARN
| DCGM_DIAG_RESULT_FAIL
| DCGM_DIAG_RESULT_NOT_RUN.

Definition dcgmDiagResult_eqb (a b : dcgmDiagResult_t) : bool :=
  match a, b with
  | DCGM_DIAG_RESULT_PASS, DCGM_DIAG_RESULT_PASS
  | DCGM_DIAG_RESULT_SKIP, DCGM_DIAG_RESULT_SKIP
  | DCGM_DIAG_RESULT_WARN, DCGM_DIAG_RESULT_WARN
  | DCGM_DIAG_RESULT_FAIL, DCGM_DIAG_RESULT_FAIL
  | DCGM_DIAG_RESULT_NOT_RUN, DCGM_DIAG_RESULT_NOT_RUN => true
  | _, _ => false
  end.

(** Modelled from the spec: [dcgmReturn_t] of [dcgm_structs.h].  The return
    codes that Diag.cpp names are constructors; [DCGM_ST_other c] is a
    return code that it does not name, [c] telling such codes apart. *)
Inductive dcgmReturn_t : Type :=
| DCGM_ST_OK
| DCGM_ST_GROUP_INCOMPATIBLE
| DCGM_ST_NOT_SUPPORTED
| DCGM_ST_PAUSED
| DCGM_ST_TIMEOUT
| DCGM_ST_NVVS_ERROR
| DCGM_ST_NVVS_ISOLATE_ERROR
| DCGM_ST_NVVS_KILLED
| DCGM_ST_other (code : nat).

Definition is_OK (r : dcgmReturn_t) : bool :=
  match r with DCGM_ST_OK => true | _ => false end.

(** Modelled from the spec: the priority tier to which
    [dcgmErrorGetPriorityByCode] of [dcgm_errors.h] resolves an error
    code.  The classifier tells [DCGM_ERROR_ISOLATE] from all the other
    tiers, [DCGM_ERROR_tier t]. *)
Inductive dcgmErrorSeverity_t : Type :=
| DCGM_ERROR_ISOLATE
| DCGM_ERROR_tier (t : nat).

Definition is_ISOLATE (p : dcgmErrorSeverity_t) : bool :=
  match p with DCGM_ERROR_ISOLATE => true | DCGM_ERROR_tier _ => false end.

(** Modelled from the spec: [dcgmDiagErrorDetail_v2] of [dcgm_structs.h],
    one error entry with the fields that Diag.cpp reads ([err_gpuId] is
    its [gpuId], an [int]).  A [char] buffer holds the text up to its
    first NUL, so [msg[0] != '\0'] reads [msg <> []]. *)
Record dcgmDiagErrorDetail_v2 : Type := {
  msg : str;
  err_gpuId : Z;
  code : nat;
  category : nat;
  severity : nat
}.

(** Modelled from the spec: [dcgmDiagTestResult_v3], one cell: a status,
    [DCGM_MAX_ERRORS] error entries and a note. *)
Record dcgmDiagTestResult_v3 : Type := {
  status : dcgmDiagResult_t;
  error : array dcgmDiagErrorDetail_v2;
  info : str
}.

(** Modelled from the spec: [dcgmDiagResponsePerGpu_v5], one per-GPU slot
    with its [DCGM_PER_GPU_TEST_COUNT_V8] cells. *)
Record dcgmDiagResponsePerGpu_v5 : Type := {
  gpuId : nat;
  hwDiagnosticReturn : nat;
  results : array dcgmDiagTestResult_v3
}.

(** Modelled from the spec: [dcgmDiagResponse_t], the result record, with
    the fields that Diag.cpp reads. *)
Record dcgmDiagResponse_t : Type := {
  version : nat;
  gpuCount : nat;
  levelOneTestCount : nat;
  levelOneResults : array dcgmDiagTestResult_v3;
  perGpuResponses : array dcgmDiagResponsePerGpu_v5;
  systemError : dcgmDiagErrorDetail_v2;
  devIds : array str;
  devSerials : array str;
  dcgmVersion : str;
  driverVersion : str
}.

(** Modelled from the spec: [dcgmRunDiag_t], the run request, with the
    fields that Diag.cpp reads or writes ([testNames0] is
    [testNames[0]]). *)
Record dcgmRunDiag_t : Type := {
  groupId : nat;
  gpuList : str;
  testNames0 : str;
  flags : nat;
  totalIterations : nat;
  currentIteration : nat
}.

Definition set_totalIterations (n : nat) (drd : dcgmRunDiag_t) : dcgmRunDiag_t :=
  {| groupId := groupId drd; gpuList := gpuList drd; testNames0 := testNames0 drd;
     flags := flags drd; totalIterations := n;
     currentIteration := currentIteration drd |}.

Definition set_currentIteration (i : nat) (drd : dcgmRunDiag_t) : dcgmRunDiag_t :=
  {| groupId := groupId drd; gpuList := gpuList drd; testNames0 := testNames0 drd;
     flags := flags drd; totalIterations := totalIterations drd;
     currentIteration := i |}.

(** ** What the headers outside Diag.cpp declare

    The capacities, enumerators, macros and library functions that
    Diag.cpp takes from [dcgm_structs.h], [dcgm_errors.h],
    [PluginStrings.h], [DcgmStringHelpers.h] and [DcgmBuildInfo.hpp].
    The development is parametric in them. *)
Class DcgmHeaders : Type := {
  DCGM_MAX_NUM_DEVICES : nat;
  DCGM_MAX_ERRORS : nat;
  DCGM_PER_GPU_TEST_COUNT_V8 : nat;
  (* dcgmPerGpuTestIndices_t *)
  DCGM_MEMORY_INDEX : nat;
  DCGM_DIAGNOSTIC_INDEX : nat;
  DCGM_PCI_INDEX : nat;
  DCGM_SM_STRESS_INDEX : nat;
  DCGM_TARGETED_STRESS_INDEX : nat;
  DCGM_TARGETED_POWER_INDEX : nat;
  DCGM_MEMORY_BANDWIDTH_INDEX : nat;
  DCGM_MEMTEST_INDEX : nat;
  DCGM_PULSE_TEST_INDEX : nat;
  DCGM_EUD_TEST_INDEX : nat;
  DCGM_CONTEXT_CREATE_INDEX : nat;
  DCGM_SWTEST_CUDA_RUNTIME_LIBRARY : nat;
  DCGM_RUN_FLAGS_VERBOSE : nat;
  DCGM_STR_BLANK : str;
  dcgmDiagResponse_version : nat;
  (* the status whose enumerator is 0, which [memset] leaves in a cell *)
  dcgmDiagResult_zero : dcgmDiagResult_t;
  (* PluginStrings.h *)
  CTXCREATE_PLUGIN_NAME : str;
  DIAGNOSTIC_PLUGIN_NAME : str;
  PULSE_TEST_PLUGIN_NAME : str;
  PCIE_PLUGIN_NAME : str;
  SMSTRESS_PLUGIN_NAME : str;
  TS_PLUGIN_NAME : str;
  TP_PLUGIN_NAME : str;
  MEMBW_PLUGIN_NAME : str;
  MEMTEST_PLUGIN_NAME : str;
  EUD_PLUGIN_NAME : str;
  (* functions *)
  dcgmErrorGetPriorityByCode : nat -> dcgmErrorSeverity_t;
  errorString : dcgmReturn_t -> str;
  dcgmReturn_value : dcgmReturn_t -> str;     (* [ostream << result] *)
  dcgmTokenizeString : str -> str -> list str;
  strtol_10 : str -> nat;                     (* [strtol(s, NULL, 10)] as stored in an [unsigned int] *)
  GetVersion : str                            (* [DcgmBuildInfo().GetVersion()] *)
}.

(** ** Structured documents: the part of [Json::Value] that Diag.cpp uses *)

(** The member names of [NvvsJsonStrings.h], one constructor per macro: the
    macros stand for pairwise different strings. *)
Inductive nvvs_key : Type :=
| NVVS_NAME | NVVS_VERSION_STR | NVVS_RUNTIME_ERROR | NVVS_ITERATIONS
| NVVS_RESULT | NVVS_WARNING | NVVS_WARNINGS | NVVS_HEADER | NVVS_HEADERS
| NVVS_TESTS | NVVS_TEST_NAME | NVVS_STATUS | NVVS_GPU_ID | NVVS_RESULTS
| NVVS_INFO | NVVS_ERROR_ID | NVVS_ERROR_CATEGORY | NVVS_ERROR_SEVERITY
| NVVS_DRIVER_VERSION | NVVS_GPU_SERIALS | NVVS_GPU_DEV_IDS.

Definition nvvs_key_index (k : nvvs_key) : nat :=
  match k with
  | NVVS_NAME => 0 | NVVS_VERSION_STR => 1 | NVVS_RUNTIME_ERROR => 2
  | NVVS_ITERATIONS => 3 | NVVS_RESULT => 4 | NVVS_WARNING => 5
  | NVVS_WARNINGS => 6 | NVVS_HEADER => 7 | NVVS_HEADERS => 8
  | NVVS_TESTS => 9 | NVVS_TEST_NAME => 10 | NVVS_STATUS => 11
  | NVVS_GPU_ID => 12 | NVVS_RESULTS => 13 | NVVS_INFO => 14
  | NVVS_ERROR_ID => 15 | NVVS_ERROR_CATEGORY => 16
  | NVVS_ERROR_SEVERITY => 17 | NVVS_DRIVER_VERSION => 18
  | NVVS_GPU_SERIALS => 19 | NVVS_GPU_DEV_IDS => 20
  end.

(** A member name: a macro of the header or a computed string. *)
Inductive jkey : Type :=
| Macro (k : nvvs_key)
| Named (s : str).

Definition str_eqb (a b : str) : bool :=
  if list_eq_dec Ascii.ascii_dec a b then true else false.

Definition jkey_eqb (a b : jkey) : bool :=
  match a, b with
  | Macro k, Macro k' => nvvs_key_index k =? nvvs_key_index k'
  | Named s, Named s' => str_eqb s s'
  | _, _ => false
  end.

#[local] Unset Elimination Schemes.
Inductive Json : Type :=
| JNull
| JStr (s : str)
| JNum (n : nat)
| JInt (z : Z)
| JArr (elems : list Json)
| JObj (members : list (jkey * Json)).
#[local] Set Elimination Schemes.

(** One step of a [Json::Value] access path: [v[key]] or [v[index]]. *)
Inductive selector : Type :=
| K (k : nvvs_key)
| Kn (s : str)
| At (i : nat).

Module JsonValue.

Definition members_of (v : Json) : list (jkey * Json) :=
  match v with JObj m => m | _ => [] end.

Definition elems_of (v : Json) : list Json :=
  match v with JArr l => l | _ => [] end.

Fixpoint member (k : jkey) (m : list (jkey * Json)) : Json :=
  match m with
  | [] => JNull
  | (k', v) :: m' => if jkey_eqb k k' then v else member k m'
  end.

Fixpoint put_member (k : jkey) (x : Json) (m : list (jkey * Json))
  : list (jkey * Json) :=
  match m with
  | [] => [(k, x)]
  | (k', v) :: m' =>
      if jkey_eqb k k' then (k', x) :: m' else (k', v) :: put_member k x m'
  end.

(** Writing index [i] of an array grows it with nulls up to [i]. *)
Fixpoint put_elem (i : nat) (x : Json) (l : list Json) : list Json :=
  match i, l with
  | 0, [] => [x]
  | 0, _ :: l' => x :: l'
  | S i', [] => JNull :: put_elem i' x []
  | S i', v :: l' => v :: put_elem i' x l'
  end.

(** [v[p1][p2]...[pn]]: reading (a missing member reads as null). *)
Fixpoint get (path : list selector) (v : Json) : Json :=
  match path with
  | [] => v
  | K k :: path' => get path' (member (Macro k) (members_of v))
  | Kn s :: path' => get path' (member (Named s) (members_of v))
  | At i :: path' => get path' (nth i (elems_of v) JNull)
  end.

(** [v[p1][p2]...[pn] = x]: null values on the way become objects or
    arrays as the selector asks. *)
Fixpoint set (path : list selector) (x : Json) (v : Json) : Json :=
  match path with
  | [] => x
  | K k :: path' =>
      JObj (put_member (Macro k)
              (set path' x (member (Macro k) (members_of v))) (members_of v))
  | Kn s :: path' =>
      JObj (put_member (Named s)
              (set path' x (member (Named s) (members_of v))) (members_of v))
  | At i :: path' =>
      JArr (put_elem i (set path' x (nth i (elems_of v) JNull)) (elems_of v))
  end.

End JsonValue.

(** ** What reaches standard output *)

(** Modelled from the spec: the report is a two-column layout (label,
    value).  A [Row] is what one [cmdView.display()] of the
    [CommandOutputController] shows after the two [addDisplayParameter]
    calls that set [DATA_NAME_TAG] and [DATA_INFO_TAG]. *)
Inductive out_item : Type :=
| Text (s : str)               (* [std::cout << s] *)
| Row (name info : str)        (* one [cmdView.display()] of the two-column stencil *)
| Styled (doc : Json).         (* [std::cout << doc.toStyledString()] *)

(** [ostream << n] for an unsigned number. *)
Definition dec (n : nat) : str :=
  list_ascii_of_string (NilEmpty.string_of_uint (Nat.to_uint n)).

(** [std::setfill('0') << std::setw(w) << n]. *)
Definition dec_padded (w n : nat) : str :=
  repeat "0"%char (w - List.length (dec n)) ++ dec n.

(** Fixed strings of Diag.cpp. *)
Definition DIAG_HEADER : str := lit
"+---------------------------+------------------------------------------------+
| Diagnostic                | Result                                         |
+===========================+================================================+
".
Definition DIAG_INFO : str := lit
"|-----  Metadata  ----------+------------------------------------------------|
".
Definition DIAG_FOOTER : str := lit
"+---------------------------+------------------------------------------------+
".
Definition DIAG_DEPLOYMENT : str := lit
"|-----  Deployment  --------+------------------------------------------------|
".
Definition DIAG_HARDWARE : str := lit
"+-----  Hardware  ----------+------------------------------------------------+
".
Definition DIAG_INTEGRATION : str := lit
"+-----  Integration  -------+------------------------------------------------+
".
Definition DIAG_STRESS : str := lit
"+-----  Stress  ------------+------------------------------------------------+
".

Definition DISPLAY_DEPLOYMENT : str := lit "Deployment".
Definition DISPLAY_HARDWARE : str := lit "Hardware".
Definition DISPLAY_INTEGRATION : str := lit "Integration".
Definition DISPLAY_STRESS : str := lit "Stress".

Definition DISPLAY_DENYLIST : str := lit "Denylist".
Definition DISPLAY_NVML_LIB : str := lit "NVML Library".
Definition DISPLAY_CUDA_MAIN_LIB : str := lit "CUDA Main Library".
Definition DISPLAY_CUDA_TOOLKIT : str := lit "CUDA Toolkit Library".
Definition DISPLAY_PERMISSIONS : str := lit "Permissions and OS Blocks".
Definition DISPLAY_PERSISTENCE : str := lit "Persistence Mode".
Definition DISPLAY_ENVIRONMENT : str := lit "Environment Variables".
Definition DISPLAY_PAGE_RETIREMENT : str := lit "Page Retirement/Row Remap".
Definition DISPLAY_GRAPHICS : str := lit "Graphics Processes".
Definition DISPLAY_INFOROM : str := lit "Inforom".

(** [levelOneTests[]]; the source reads it below [levelOneTestCount]. *)
Definition levelOneTests (i : nat) : str :=
  nth i [DISPLAY_DENYLIST; DISPLAY_NVML_LIB; DISPLAY_CUDA_MAIN_LIB;
         DISPLAY_CUDA_TOOLKIT; DISPLAY_PERMISSIONS; DISPLAY_PERSISTENCE;
         DISPLAY_ENVIRONMENT; DISPLAY_PAGE_RETIREMENT; DISPLAY_GRAPHICS;
         DISPLAY_INFOROM] [].

Definition DISPLAY_MEMORY : str := lit "GPU Memory".
Definition DISPLAY_CTXCREATE : str := lit "Context Create".
Definition DISPLAY_SM_STRESS : str := lit "SM Stress".
Definition DISPLAY_TP : str := lit "Targeted Power".
Definition DISPLAY_TS : str := lit "Targeted Stress".
Definition DISPLAY_DIAGNOSTIC : str := lit "Diagnostic".
Definition DISPLAY_PCIE : str := lit "PCIe".
Definition DISPLAY_MEMBW : str := lit "Memory Bandwidth".
Definition DISPLAY_MEMTEST : str := lit "Memtest".
Definition DISPLAY_PULSE_TEST : str := lit "Pulse Test".
Definition DISPLAY_EUD_TEST : str := lit "EUD Test".

(** [DATA_INFO_TAG_LEN]: the room of the value column. *)
Definition DATA_INFO_TAG_LEN : nat := 45.

(** [!strcasecmp(a, b)]: equal up to the case of ASCII letters. *)
Definition tolower (c : ascii) : ascii :=
  let n := nat_of_ascii c in
  if (65 <=? n) && (n <=? 90) then ascii_of_nat (n + 32) else c.

Definition strcasecmp_eq (a b : str) : bool :=
  str_eqb (map tolower a) (map tolower b).

(** ** Loops with an early exit *)

(** What a loop body hands back: leave the enclosing function with a value,
    or go on with the next iteration. *)
Inductive flow (R S : Type) : Type :=
| Return (r : R)
| Next (s : S).

Arguments Return {R S} r.
Arguments Next {R S} s.

(** [for (i : indices) body], the state threaded through. *)
Fixpoint for_each {Ix R S : Type} (indices : list Ix)
    (body : Ix -> S -> flow R S) (s : S) : flow R S :=
  match indices with
  | [] => Next s
  | i :: rest =>
      match body i s with
      | Return r => Return r
      | Next s' => for_each rest body s'
      end
  end.

(** [for (unsigned i = 0; i < n; i++) body]. *)
Definition for_upto {R S : Type} (n : nat) (body : nat -> S -> flow R S) (s : S)
  : flow R S :=
  for_each (seq 0 n) body s.

(** ** The message column: [Diag::DisplayVerboseInfo] *)

(** [for (pos = 0; pos < info.size(); pos += DATA_INFO_TAG_LEN)]: each turn
    displays one row, labelled only on the first line. *)
Fixpoint DisplayVerboseInfo_loop (fuel : nat) (name info : str) (pos : nat)
  : res (list out_item) :=
  match fuel with
  | 0 => OutOfFuel
  | S fuel' =>
      if pos <? StdString.size info then
        let label := if pos =? 0 then name else lit "" in
        fragment <- StdString.substr info pos DATA_INFO_TAG_LEN ;;
        rows <- DisplayVerboseInfo_loop fuel' name info (pos + DATA_INFO_TAG_LEN) ;;
        Ok (Row label fragment :: rows)
      else Ok []
  end.

Definition DisplayVerboseInfo (name info : str) : res (list out_item) :=
  DisplayVerboseInfo_loop (S (StdString.size info)) name info 0.

(** The value column of the rows, in order. *)
Definition fragments (rows : list out_item) : list str :=
  flat_map (fun r => match r with Row _ v => [v] | _ => [] end) rows.

(** The label column of the rows, in order. *)
Definition labels (rows : list out_item) : list str :=
  flat_map (fun r => match r with Row l _ => [l] | _ => [] end) rows.

(** ** Status names: [Diag::HelperDisplayDiagResult] *)

Definition HelperDisplayDiagResult (val : dcgmDiagResult_t) : str :=
  if dcgmDiagResult_eqb val DCGM_DIAG_RESULT_PASS then lit "Pass"
  else if dcgmDiagResult_eqb val DCGM_DIAG_RESULT_SKIP then lit "Skip"
  else lit "Fail".

(** Sequencing for code that writes rows and may throw. *)
Definition emit_then (first : res (list out_item)) (rest : res (list out_item))
  : res (list out_item) :=
  a <- first ;; b <- rest ;; Ok (a ++ b).

Fixpoint emit_all (parts : list (res (list out_item))) : res (list out_item) :=
  match parts with
  | [] => Ok []
  | p :: parts' => emit_then p (emit_all parts')
  end.

Section Diag.

Context {headers : DcgmHeaders}.

(** ** Classification: [Diag::GetFailureResult] *)

(** The innermost loop over the error slots of one failing cell. *)
Definition GetFailureResult_errors (cell : dcgmDiagTestResult_v3)
    (ret : dcgmReturn_t) : flow dcgmReturn_t dcgmReturn_t :=
  for_upto DCGM_MAX_ERRORS
    (fun j _ =>
       if is_ISOLATE (dcgmErrorGetPriorityByCode (code (error cell j)))
       then Return DCGM_ST_NVVS_ISOLATE_ERROR
       else Next DCGM_ST_NVVS_ERROR)
    ret.

Definition GetFailureResult_cell (cell : dcgmDiagTestResult_v3)
    (ret : dcgmReturn_t) : flow dcgmReturn_t dcgmReturn_t :=
  if dcgmDiagResult_eqb (status cell) DCGM_DIAG_RESULT_FAIL
  then GetFailureResult_errors cell ret
  else Next ret.

Definition GetFailureResult (diagResult : dcgmDiagResponse_t) : dcgmReturn_t :=
  let ret := DCGM_ST_OK in
  match for_upto (levelOneTestCount diagResult)
          (fun i ret => GetFailureResult_cell (levelOneResults diagResult i) ret)
          ret with
  | Return r => r
  | Next ret =>
      (* need to search through all devices because results are written to
         gpu indexes *)
      match for_upto DCGM_MAX_NUM_DEVICES
              (fun i ret =>
                 for_upto DCGM_PER_GPU_TEST_COUNT_V8
                   (fun j ret =>
                      GetFailureResult_cell
                        (results (perGpuResponses diagResult i) j) ret)
                   ret)
              ret with
      | Return r => r
      | Next ret => ret
      end
  end.

(** ** The GPU working set: [Diag::PopulateGpuList] *)

(** The inner loop with its [break]: did any test of slot [i] run? *)
Definition someTestRan (slot : dcgmDiagResponsePerGpu_v5) : bool :=
  match for_upto DCGM_PER_GPU_TEST_COUNT_V8
          (fun j (_ : unit) =>
             if negb (dcgmDiagResult_eqb (status (results slot j))
                        DCGM_DIAG_RESULT_NOT_RUN)
             then Return true
             else Next tt)
          tt with
  | Return b => b
  | Next _ => false
  end.

(** The loop guard is [i < DCGM_MAX_NUM_DEVICES && gpuVec.size() <
    diagResult.gpuCount]; leaving the loop is the [Return]. *)
Definition PopulateGpuList (diagResult : dcgmDiagResponse_t)
    (gpuVec : list nat) : list nat :=
  match for_upto DCGM_MAX_NUM_DEVICES
          (fun i gpuVec =>
             if List.length gpuVec <? gpuCount diagResult then
               if negb (gpuId (perGpuResponses diagResult i) =? DCGM_MAX_NUM_DEVICES)
               then
                 if someTestRan (perGpuResponses diagResult i)
                 then Next (gpuVec ++ [i])
                 else Next gpuVec
               else Next gpuVec
             else Return gpuVec)
          gpuVec with
  | Return v => v
  | Next v => v
  end.

(** ** [Diag::InitializeDiagResponse] *)

Definition zero_error : dcgmDiagErrorDetail_v2 :=
  {| msg := []; err_gpuId := 0%Z; code := 0; category := 0; severity := 0 |}.

Definition zero_result : dcgmDiagTestResult_v3 :=
  {| status := dcgmDiagResult_zero; error := fun _ => zero_error; info := [] |}.

Definition zero_slot : dcgmDiagResponsePerGpu_v5 :=
  {| gpuId := 0; hwDiagnosticReturn := 0; results := fun _ => zero_result |}.

(** [memset(&diagResult, 0, sizeof(diagResult))]. *)
Definition zero_response : dcgmDiagResponse_t :=
  {| version := 0; gpuCount := 0; levelOneTestCount := 0;
     levelOneResults := fun _ => zero_result;
     perGpuResponses := fun _ => zero_slot;
     systemError := zero_error;
     devIds := fun _ => []; devSerials := fun _ => [];
     dcgmVersion := []; driverVersion := [] |}.

Definition set_version (v : nat) (r : dcgmDiagResponse_t) : dcgmDiagResponse_t :=
  {| version := v; gpuCount := gpuCount r;
     levelOneTestCount := levelOneTestCount r;
     levelOneResults := levelOneResults r;
     perGpuResponses := perGpuResponses r;
     systemError := systemError r; devIds := devIds r;
     devSerials := devSerials r; dcgmVersion := dcgmVersion r;
     driverVersion := driverVersion r |}.

Definition set_slot_gpuId (i g : nat) (r : dcgmDiagResponse_t) : dcgmDiagResponse_t :=
  let slot := perGpuResponses r i in
  {| version := version r; gpuCount := gpuCount r;
     levelOneTestCount := levelOneTestCount r;
     levelOneResults := levelOneResults r;
     perGpuResponses :=
       array_set (perGpuResponses r) i
         {| gpuId := g; hwDiagnosticReturn := hwDiagnosticReturn slot;
            results := results slot |};
     systemError := systemError r; devIds := devIds r;
     devSerials := devSerials r; dcgmVersion := dcgmVersion r;
     driverVersion := driverVersion r |}.

Definition InitializeDiagResponse : dcgmDiagResponse_t :=
  let diagResult := set_version dcgmDiagResponse_version zero_response in
  (* Initialize the gpu id to one we know won't exist *)
  fold_left (fun diagResult i => set_slot_gpuId i DCGM_MAX_NUM_DEVICES diagResult)
    (seq 0 DCGM_MAX_NUM_DEVICES) diagResult.

(** ** The [Diag] object *)

Record Diag : Type := {
  m_drd : dcgmRunDiag_t;
  m_jsonOutput : bool;
  m_iterations : nat;
  m_hostname : str;
  m_jsonTmpValue : Json
}.

Definition set_m_drd (drd : dcgmRunDiag_t) (d : Diag) : Diag :=
  {| m_drd := drd; m_jsonOutput := m_jsonOutput d;
     m_iterations := m_iterations d; m_hostname := m_hostname d;
     m_jsonTmpValue := m_jsonTmpValue d |}.

Definition set_m_jsonTmpValue (v : Json) (d : Diag) : Diag :=
  {| m_drd := m_drd d; m_jsonOutput := m_jsonOutput d;
     m_iterations := m_iterations d; m_hostname := m_hostname d;
     m_jsonTmpValue := v |}.

(** ** Text report *)

(** [Diag::HelperDisplayDeploymentResult]. *)
Definition HelperDisplayDeploymentResult (nameTag : str)
    (result : dcgmDiagTestResult_v3) : res (list out_item) :=
  if negb (dcgmDiagResult_eqb (status result) DCGM_DIAG_RESULT_NOT_RUN) then
    emit_all
      ([Ok [Row nameTag (HelperDisplayDiagResult (status result))]]
       ++ map (fun i =>
                 if negb (str_eqb (msg (error result i)) [])
                 then DisplayVerboseInfo (lit "Error") (msg (error result i))
                 else Ok [])
              (seq 0 DCGM_MAX_ERRORS)
       ++ [if negb (str_eqb (info result) [])
           then DisplayVerboseInfo (lit "Info") (info result)
           else Ok []])
  else Ok [].

(** [Diag::HelperDisplayVersionAndDevIds]. *)
Definition HelperDisplayVersionAndDevIds (diagResult : dcgmDiagResponse_t)
  : list out_item :=
  let ss :=
    fold_left (fun ss i =>
                 if i =? 0 then ss ++ devIds diagResult i
                 else ss ++ lit "," ++ devIds diagResult i)
      (seq 0 (gpuCount diagResult)) [] in
  [ Text DIAG_INFO;
    Row (lit "DCGM Version") (dcgmVersion diagResult);
    Row (lit "Driver Version Detected") (driverVersion diagResult);
    Row (lit "GPU Device IDs Detected") ss ].

(** [Diag::HelperDisplayDeployment]. *)
Definition HelperDisplayDeployment (diagResult : dcgmDiagResponse_t)
  : res (list out_item) :=
  emit_all
    (Ok [Text DIAG_DEPLOYMENT]
     :: map (fun i =>
               HelperDisplayDeploymentResult (levelOneTests i)
                 (levelOneResults diagResult i))
            (seq 0 (levelOneTestCount diagResult))).

(** [Diag::HelperGetPluginName]: the [switch], first matching label. *)
Definition HelperGetPluginName (d : Diag) (index : nat) : str :=
  if index =? DCGM_MEMORY_INDEX then
    if strcasecmp_eq (testNames0 (m_drd d)) CTXCREATE_PLUGIN_NAME
    then DISPLAY_CTXCREATE else DISPLAY_MEMORY
  else if index =? DCGM_DIAGNOSTIC_INDEX then DISPLAY_DIAGNOSTIC
  else if index =? DCGM_PCI_INDEX then DISPLAY_PCIE
  else if index =? DCGM_SM_STRESS_INDEX then DISPLAY_SM_STRESS
  else if index =? DCGM_TARGETED_STRESS_INDEX then DISPLAY_TS
  else if index =? DCGM_TARGETED_POWER_INDEX then DISPLAY_TP
  else if index =? DCGM_MEMORY_BANDWIDTH_INDEX then DISPLAY_MEMBW
  else if index =? DCGM_MEMTEST_INDEX then DISPLAY_MEMTEST
  else if index =? DCGM_PULSE_TEST_INDEX then DISPLAY_PULSE_TEST
  else if index =? DCGM_EUD_TEST_INDEX then DISPLAY_EUD_TEST
  else if index =? DCGM_CONTEXT_CREATE_INDEX then DISPLAY_CTXCREATE
  else lit "".

(** [Diag::HelperDisplayDetails]. *)
Definition HelperDisplayDetails (d : Diag) (forceVerbose : bool)
    (gpuIndices : list nat) (testIndex : nat)
    (diagResults : array dcgmDiagResponsePerGpu_v5) : res (list out_item) :=
  let verbose := negb (Nat.land (flags (m_drd d)) DCGM_RUN_FLAGS_VERBOSE =? 0) in
  let displayInfo := if verbose then true else forceVerbose in
  let displayWarnings := if verbose then true else forceVerbose in
  emit_then
    (if displayWarnings then
       emit_all
         (map (fun gpuIndex =>
                 emit_all
                   (map (fun j =>
                           let m := msg (error (results (diagResults gpuIndex) testIndex) j) in
                           if negb (str_eqb m []) then
                             text <- Sanitize m ;;
                             DisplayVerboseInfo (lit "Warning") text
                           else Ok [])
                      (seq 0 DCGM_MAX_ERRORS)))
            gpuIndices)
     else Ok [])
    (if displayInfo then
       emit_all
         (map (fun gpuIndex =>
                 let i := info (results (diagResults gpuIndex) testIndex) in
                 if negb (str_eqb i []) then
                   text <- Sanitize i ;;
                   DisplayVerboseInfo (lit "Info") text
                 else Ok [])
            gpuIndices)
     else Ok []).

(** The four [std::list<unsigned int>] of [Diag::HelperDisplayGpuResults]. *)
Record buckets : Type := {
  passed : list nat;
  failed : list nat;
  skipped : list nat;
  warned : list nat
}.

Definition no_buckets : buckets :=
  {| passed := []; failed := []; skipped := []; warned := [] |}.

(** One turn of the bucketing loop: the [if / else if] chain on the status
    of the cell of [gpuIndex]. *)
Definition bucket_one (testIndex : nat)
    (diagResults : array dcgmDiagResponsePerGpu_v5) (b : buckets)
    (gpuIndex : nat) : buckets :=
  let st := status (results (diagResults gpuIndex) testIndex) in
  let id := gpuId (diagResults gpuIndex) in
  if dcgmDiagResult_eqb st DCGM_DIAG_RESULT_PASS then
    {| passed := passed b ++ [id]; failed := failed b;
       skipped := skipped b; warned := warned b |}
  else if dcgmDiagResult_eqb st DCGM_DIAG_RESULT_SKIP then
    {| passed := passed b; failed := failed b;
       skipped := skipped b ++ [id]; warned := warned b |}
  else if dcgmDiagResult_eqb st DCGM_DIAG_RESULT_WARN then
    {| passed := passed b; failed := failed b;
       skipped := skipped b; warned := warned b ++ [id] |}
  else if dcgmDiagResult_eqb st DCGM_DIAG_RESULT_FAIL then
    {| passed := passed b; failed := failed b ++ [id];
       skipped := skipped b; warned := warned b |}
  else b.

(** The index that the loop reads: context create is stored in index 0. *)
Definition effective_testIndex (testIndex : nat) : nat :=
  if testIndex =? DCGM_CONTEXT_CREATE_INDEX then 0 else testIndex.

(** The bucketing loop of [Diag::HelperDisplayGpuResults], with the
    [testIndex] that the caller passes. *)
Definition HelperDisplayGpuResults_buckets (testIndex : nat)
    (diagResults : array dcgmDiagResponsePerGpu_v5) (gpuIndices : list nat)
  : buckets :=
  fold_left (bucket_one (effective_testIndex testIndex) diagResults)
    gpuIndices no_buckets.

(** [ss << *it << (last ? "   " : ", ")] over a bucket. *)
Fixpoint gpu_list_text (l : list nat) : str :=
  match l with
  | [] => []
  | [g] => dec g ++ lit "   "
  | g :: rest => dec g ++ lit ", " ++ gpu_list_text rest
  end.

Definition summary_text (word : string) (l : list nat) : str :=
  lit word ++ lit " - GPU" ++ (if List.length l =? 1 then lit ": " else lit "s: ")
    ++ gpu_list_text l.

(** [Diag::HelperDisplayGpuResults]. *)
Definition HelperDisplayGpuResults (d : Diag) (dataName : str) (testIndex : nat)
    (diagResults : array dcgmDiagResponsePerGpu_v5) (gpuIndices : list nat)
  : res (list out_item) :=
  let numGpus := List.length gpuIndices in
  let displayName := HelperGetPluginName d testIndex in
  let b := HelperDisplayGpuResults_buckets testIndex diagResults gpuIndices in
  let testIndex := effective_testIndex testIndex in
  if List.length (passed b) =? numGpus then
    emit_then (Ok [Row displayName (lit "Pass - All")])
      (HelperDisplayDetails d false gpuIndices testIndex diagResults)
  else if List.length (skipped b) =? numGpus then
    emit_then (Ok [Row displayName (lit "Skip - All")])
      (HelperDisplayDetails d true gpuIndices testIndex diagResults)
  else if List.length (failed b) =? numGpus then
    emit_then (Ok [Row displayName (lit "Fail - All")])
      (HelperDisplayDetails d true gpuIndices testIndex diagResults)
  else if List.length (warned b) =? numGpus then
    emit_all
      [ Ok [Row displayName (lit "Warn - All")];
        HelperDisplayDetails d true gpuIndices testIndex diagResults;
        (* special case for the diagnostic case to show the return code *)
        if str_eqb dataName (lit "Diagnostic")
        then Ok [Row (lit "")
                   (lit "  Code: (" ++ dec_padded 12 (hwDiagnosticReturn (diagResults 0))
                      ++ lit ")")]
        else Ok [] ]
  else
    let isDisplayedFirst := true in
    let showWarnings := false in
    let '(rows1, isDisplayedFirst) :=
      if 0 <? List.length (passed b)
      then ([Row displayName (summary_text "Pass" (passed b))], false)
      else ([], isDisplayedFirst) in
    let '(rows2, isDisplayedFirst, showWarnings) :=
      if 0 <? List.length (failed b)
      then ([Row (if isDisplayedFirst then displayName else lit "")
               (summary_text "Fail" (failed b))], false, true)
      else ([], isDisplayedFirst, showWarnings) in
    let '(rows3, isDisplayedFirst, showWarnings) :=
      if 0 <? List.length (warned b)
      then ([Row (if isDisplayedFirst then displayName else lit "")
               (summary_text "Warn" (warned b))], false, true)
      else ([], isDisplayedFirst, showWarnings) in
    let '(rows4, showWarnings) :=
      if 0 <? List.length (skipped b)
      then ([Row (if isDisplayedFirst then displayName else lit "")
               (summary_text "Skip" (skipped b))], true)
      else ([], showWarnings) in
    emit_then (Ok (rows1 ++ rows2 ++ rows3 ++ rows4))
      (HelperDisplayDetails d showWarnings gpuIndices testIndex diagResults).

(** [Diag::HelperDisplayHardware]. *)
Definition HelperDisplayHardware (d : Diag)
    (diagResults : array dcgmDiagResponsePerGpu_v5) (gpuIndices : list nat)
  : res (list out_item) :=
  (* Don't show the hardware diagnostic if it skipped *)
  let skipped :=
    forallb (fun g =>
               dcgmDiagResult_eqb
                 (status (results (diagResults g) DCGM_DIAGNOSTIC_INDEX))
                 DCGM_DIAG_RESULT_SKIP)
      gpuIndices in
  emit_all
    [ Ok [Text DIAG_HARDWARE];
      if strcasecmp_eq (testNames0 (m_drd d)) CTXCREATE_PLUGIN_NAME
      then HelperDisplayGpuResults d DISPLAY_CTXCREATE DCGM_CONTEXT_CREATE_INDEX
             diagResults gpuIndices
      else HelperDisplayGpuResults d DISPLAY_MEMORY DCGM_MEMORY_INDEX
             diagResults gpuIndices;
      if negb skipped
      then HelperDisplayGpuResults d DIAGNOSTIC_PLUGIN_NAME DCGM_DIAGNOSTIC_INDEX
             diagResults gpuIndices
      else Ok [];
      HelperDisplayGpuResults d PULSE_TEST_PLUGIN_NAME DCGM_PULSE_TEST_INDEX
        diagResults gpuIndices ].

(** [Diag::HelperDisplayIntegration]. *)
Definition HelperDisplayIntegration (d : Diag)
    (diagResults : array dcgmDiagResponsePerGpu_v5) (gpuIndices : list nat)
  : res (list out_item) :=
  emit_all
    [ Ok [Text DIAG_INTEGRATION];
      HelperDisplayGpuResults d PCIE_PLUGIN_NAME DCGM_PCI_INDEX diagResults gpuIndices ].

(** [Diag::HelperDisplayPerformance]. *)
Definition HelperDisplayPerformance (d : Diag)
    (diagResults : array dcgmDiagResponsePerGpu_v5) (gpuIndices : list nat)
  : res (list out_item) :=
  emit_all
    [ Ok [Text DIAG_STRESS];
      HelperDisplayGpuResults d SMSTRESS_PLUGIN_NAME DCGM_SM_STRESS_INDEX diagResults gpuIndices;
      HelperDisplayGpuResults d TS_PLUGIN_NAME DCGM_TARGETED_STRESS_INDEX diagResults gpuIndices;
      HelperDisplayGpuResults d TP_PLUGIN_NAME DCGM_TARGETED_POWER_INDEX diagResults gpuIndices;
      HelperDisplayGpuResults d MEMBW_PLUGIN_NAME DCGM_MEMORY_BANDWIDTH_INDEX diagResults gpuIndices;
      HelperDisplayGpuResults d MEMTEST_PLUGIN_NAME DCGM_MEMTEST_INDEX diagResults gpuIndices;
      HelperDisplayGpuResults d EUD_PLUGIN_NAME DCGM_EUD_TEST_INDEX diagResults gpuIndices ].

(** ** Structured report *)

Definition endl : str := ["010"%char].

(** The [warningEntry] of one error slot; [text_key] is the member that
    receives the message. *)
Definition warningEntry_of (text_key : nvvs_key) (e : dcgmDiagErrorDetail_v2) : Json :=
  JsonValue.set [K NVVS_ERROR_SEVERITY] (JNum (severity e))
    (JsonValue.set [K NVVS_ERROR_CATEGORY] (JNum (category e))
       (JsonValue.set [K NVVS_ERROR_ID] (JNum (code e))
          (JsonValue.set [K text_key] (JStr (msg e)) JNull))).

(** One turn of the loop of [Diag::HelperJsonAddBasicTests], on the
    category under construction.  [adjustment] is the amount subtracted
    from the array index: 0, or 1 for the -1 of the source (which it takes
    only after the index of the CUDA runtime test, so the subtraction is
    exact). *)
Definition HelperJsonAddBasicTests_turn (diagResult : dcgmDiagResponse_t)
    (acc : Json * nat) (testIndex : nat) : Json * nat :=
  let '(category, adjustment) := acc in
  let cell := levelOneResults diagResult testIndex in
  (* Skip the Cuda Runtime library test when it is not run *)
  if (testIndex =? DCGM_SWTEST_CUDA_RUNTIME_LIBRARY)
     && dcgmDiagResult_eqb (status cell) DCGM_DIAG_RESULT_NOT_RUN
  then (category, 1)
  else
    let category :=
      JsonValue.set [K NVVS_TESTS; At (testIndex - adjustment); K NVVS_TEST_NAME]
        (JStr (levelOneTests testIndex)) category in
    let resultEntry :=
      JsonValue.set [K NVVS_STATUS]
        (JStr (HelperDisplayDiagResult (status cell))) JNull in
    let resultEntry :=
      fold_left
        (fun resultEntry i =>
           if negb (str_eqb (msg (error cell i)) []) then
             let resultEntry :=
               JsonValue.set [K NVVS_GPU_ID]
                 (JInt (err_gpuId (error cell i))) resultEntry in
             JsonValue.set [K NVVS_WARNINGS; At i]
               (warningEntry_of NVVS_WARNINGS (error cell i)) resultEntry
           else resultEntry)
        (seq 0 DCGM_MAX_ERRORS) resultEntry in
    (JsonValue.set [K NVVS_TESTS; At (testIndex - adjustment); K NVVS_RESULTS; At 0]
       resultEntry category,
     adjustment).

(** [Diag::HelperJsonAddBasicTests]. *)
Definition HelperJsonAddBasicTests (output : Json) (categoryIndex : nat)
    (diagResult : dcgmDiagResponse_t) : Json * nat :=
  let category := JsonValue.set [K NVVS_HEADER] (JStr DISPLAY_DEPLOYMENT) JNull in
  let adjustment := 0 in
  let '(category, _) :=
    fold_left (HelperJsonAddBasicTests_turn diagResult)
      (seq 0 (levelOneTestCount diagResult)) (category, adjustment) in
  (JsonValue.set [K NVVS_NAME; K NVVS_HEADERS; At categoryIndex] category output,
   categoryIndex + 1).

(** [snprintf(buf, sizeof(buf), "%u", gpuIndex)] with [char buf[10]]. *)
Definition gpuIndex_buf (gpuIndex : nat) : str := firstn 9 (dec gpuIndex).

(** [Diag::HelperJsonAddResult]: the flag returned, and [testEntry] as the
    call leaves it. *)
Definition HelperJsonAddResult (gpuResult : dcgmDiagResponsePerGpu_v5)
    (testEntry : Json) (gpuIndex testIndex i : nat) : bool * Json :=
  let cell := results gpuResult testIndex in
  (* Don't record an entry for tests that weren't run *)
  if dcgmDiagResult_eqb (status cell) DCGM_DIAG_RESULT_NOT_RUN then (false, testEntry)
  else
    let resultEntry := JsonValue.set [K NVVS_GPU_ID] (JStr (gpuIndex_buf gpuIndex)) JNull in
    let resultEntry :=
      JsonValue.set [K NVVS_STATUS]
        (JStr (HelperDisplayDiagResult (status cell))) resultEntry in
    let resultEntry :=
      fold_left
        (fun resultEntry j =>
           if negb (str_eqb (msg (error cell j)) []) then
             JsonValue.set [K NVVS_WARNINGS; At j]
               (warningEntry_of NVVS_WARNING (error cell j)) resultEntry
           else resultEntry)
        (seq 0 DCGM_MAX_ERRORS) resultEntry in
    let resultEntry :=
      if negb (str_eqb (info cell) [])
      then JsonValue.set [K NVVS_INFO] (JStr (info cell)) resultEntry
      else resultEntry in
    (true, JsonValue.set [K NVVS_RESULTS; At i] resultEntry testEntry).

(** [Diag::HelperJsonAddPlugin]. *)
Definition HelperJsonAddPlugin (category : Json) (pluginCount : nat)
    (testEntry : Json) : Json * nat :=
  (JsonValue.set [K NVVS_TESTS; At pluginCount] testEntry category, pluginCount + 1).

(** [Diag::HelperJsonAddCategory]. *)
Definition HelperJsonAddCategory (output : Json) (categoryIndex : nat)
    (category : Json) (categoryCount : nat) : Json * nat :=
  if 0 <? categoryCount
  then (JsonValue.set [K NVVS_NAME; K NVVS_HEADERS; At categoryIndex] category output,
        categoryIndex + 1)
  else (output, categoryIndex).

(** The three category documents under construction and their counters. *)
Record categories : Type := {
  hardware : Json; hardwarePluginCount : nat;
  integration : Json; integrationPluginCount : nat;
  stress : Json; stressPluginCount : nat
}.

(** The [switch (pluginIndex)] of [Diag::HelperJsonBuildOutput]. *)
Definition file_plugin (pluginIndex : nat) (testEntry : Json) (c : categories)
  : categories :=
  if (pluginIndex =? DCGM_MEMORY_INDEX) || (pluginIndex =? DCGM_DIAGNOSTIC_INDEX)
     || (pluginIndex =? DCGM_PULSE_TEST_INDEX) || (pluginIndex =? DCGM_EUD_TEST_INDEX)
  then
    let '(h, n) := HelperJsonAddPlugin (hardware c) (hardwarePluginCount c) testEntry in
    {| hardware := h; hardwarePluginCount := n;
       integration := integration c; integrationPluginCount := integrationPluginCount c;
       stress := stress c; stressPluginCount := stressPluginCount c |}
  else if pluginIndex =? DCGM_PCI_INDEX then
    let '(g, n) := HelperJsonAddPlugin (integration c) (integrationPluginCount c) testEntry in
    {| hardware := hardware c; hardwarePluginCount := hardwarePluginCount c;
       integration := g; integrationPluginCount := n;
       stress := stress c; stressPluginCount := stressPluginCount c |}
  else if (pluginIndex =? DCGM_SM_STRESS_INDEX) || (pluginIndex =? DCGM_TARGETED_STRESS_INDEX)
          || (pluginIndex =? DCGM_TARGETED_POWER_INDEX)
          || (pluginIndex =? DCGM_MEMORY_BANDWIDTH_INDEX)
          || (pluginIndex =? DCGM_MEMTEST_INDEX)
  then
    let '(s, n) := HelperJsonAddPlugin (stress c) (stressPluginCount c) testEntry in
    {| hardware := hardware c; hardwarePluginCount := hardwarePluginCount c;
       integration := integration c; integrationPluginCount := integrationPluginCount c;
       stress := s; stressPluginCount := n |}
  else c.

(** The positions [0 .. size - 1] of a vector with its elements. *)
Definition indexed {A : Type} (l : list A) : list (nat * A) :=
  combine (seq 0 (List.length l)) l.

(** [Diag::HelperJsonBuildOutput]. *)
Definition HelperJsonBuildOutput (d : Diag) (output : Json)
    (diagResult : dcgmDiagResponse_t) (gpuIndices : list nat) : Json :=
  let categoryIndex := 0 in
  let c := {| hardware := JsonValue.set [K NVVS_HEADER] (JStr DISPLAY_HARDWARE) JNull;
              hardwarePluginCount := 0;
              integration := JsonValue.set [K NVVS_HEADER] (JStr DISPLAY_INTEGRATION) JNull;
              integrationPluginCount := 0;
              stress := JsonValue.set [K NVVS_HEADER] (JStr DISPLAY_STRESS) JNull;
              stressPluginCount := 0 |} in
  let output := JsonValue.set [K NVVS_VERSION_STR] (JStr (dcgmVersion diagResult)) output in
  let output := JsonValue.set [K NVVS_DRIVER_VERSION] (JStr (driverVersion diagResult)) output in
  let output :=
    fold_left
      (fun output i =>
         if negb (str_eqb (devSerials diagResult i) DCGM_STR_BLANK)
         then JsonValue.set [K NVVS_GPU_SERIALS; Kn (dec i)]
                (JStr (devSerials diagResult i)) output
         else output)
      (seq 0 DCGM_MAX_NUM_DEVICES) output in
  let output :=
    fold_left
      (fun output i =>
         JsonValue.set [K NVVS_GPU_DEV_IDS; At i] (JStr (devIds diagResult i)) output)
      (seq 0 (gpuCount diagResult)) output in
  let '(output, categoryIndex) := HelperJsonAddBasicTests output categoryIndex diagResult in
  (* Now get each of the other test's results *)
  let c :=
    fold_left
      (fun c pluginIndex =>
         let testEntry :=
           JsonValue.set [K NVVS_TEST_NAME] (JStr (HelperGetPluginName d pluginIndex)) JNull in
         let '(testEntry, pluginRan) :=
           fold_left
             (fun '(testEntry, pluginRan) '(i, gpuIndex) =>
                let '(added, testEntry) :=
                  HelperJsonAddResult (perGpuResponses diagResult gpuIndex)
                    testEntry gpuIndex pluginIndex i in
                (testEntry, if added then true else pluginRan))
             (indexed gpuIndices) (testEntry, false) in
         if pluginRan then file_plugin pluginIndex testEntry c else c)
      (seq 0 DCGM_PER_GPU_TEST_COUNT_V8) c in
  let '(output, categoryIndex) :=
    HelperJsonAddCategory output categoryIndex (integration c) (integrationPluginCount c) in
  let '(output, categoryIndex) :=
    HelperJsonAddCategory output categoryIndex (hardware c) (hardwarePluginCount c) in
  let '(output, categoryIndex) :=
    HelperJsonAddCategory output categoryIndex (stress c) (stressPluginCount c) in
  output.

(** [Diag::HelperDisplayAsJson]: the return code, the object and what is
    printed. *)
Definition HelperDisplayAsJson (d : Diag) (diagResult : dcgmDiagResponse_t)
    (gpuIndices : list nat) : dcgmReturn_t * Diag * list out_item :=
  let result := DCGM_ST_OK in
  let output := HelperJsonBuildOutput d JNull diagResult gpuIndices in
  if m_iterations d <=? 1
  then (result, d, [Styled output])
  else (result, set_m_jsonTmpValue output d, []).

(** [Diag::HelperDisplayFailureMessage] (the log line left out). *)
Definition HelperDisplayFailureMessage (d : Diag) (errMsg : str) : list out_item :=
  if m_jsonOutput d then
    let output := JsonValue.set [K NVVS_NAME; K NVVS_VERSION_STR] (JStr GetVersion) JNull in
    let output := JsonValue.set [K NVVS_NAME; K NVVS_RUNTIME_ERROR] (JStr errMsg) output in
    [Styled output; Text endl]
  else [Text errMsg; Text endl].

(** ** The process and its environment *)

(** What the environment does, in the order in which it happens.
    - [EvSignal]: one of SIGHUP, SIGINT, SIGQUIT, SIGTERM is delivered and
      [handle_signal_during_diag] runs to completion ([RunDiagOnce]
      installs the handler before it calls the supervisor, whose schedule
      this is).
    - [EvExit]: the thread of the [RemoteDiagExecutor] finishes the remote
      call with this return code and response.
    - [EvRun]: the supervising thread runs up to its next access to a
      shared flag or to the executor. *)
Inductive event : Type :=
| EvSignal (signum : nat)
| EvExit (result : dcgmReturn_t) (response : dcgmDiagResponse_t)
| EvRun.

(** The [RemoteDiagExecutor] as its owner sees it. *)
Inductive executor_state : Type :=
| Idle
| Running
| Exited (result : dcgmReturn_t) (response : dcgmDiagResponse_t).

(** Requests that leave the process. *)
Inductive remote_call : Type :=
| ActionValidate (drd : dcgmRunDiag_t)     (* [dcgmActionValidate_v2] *)
| StopDiagnostic                            (* [dcgmStopDiagnostic] of RunDiagOnce *)
| Abort (hostname : str).                   (* [AbortDiag(hostname).Execute()] *)

Record World : Type := {
  g_signalExit : bool;
  diag_stopDiagOnSignal : bool;
  diag_installed_sig_handlers : bool;
  rde : executor_state;
  tape : list event;                 (* the events still to come *)
  calls : list remote_call;          (* the requests sent so far, oldest first *)
  stdout : list out_item;            (* what was printed so far, oldest first *)
  stop_result : dcgmReturn_t         (* what [dcgmStopDiagnostic] answers *)
}.

Definition set_g_signalExit (b : bool) (w : World) : World :=
  {| g_signalExit := b; diag_stopDiagOnSignal := diag_stopDiagOnSignal w;
     diag_installed_sig_handlers := diag_installed_sig_handlers w;
     rde := rde w; tape := tape w; calls := calls w; stdout := stdout w;
     stop_result := stop_result w |}.

Definition set_diag_stopDiagOnSignal (b : bool) (w : World) : World :=
  {| g_signalExit := g_signalExit w; diag_stopDiagOnSignal := b;
     diag_installed_sig_handlers := diag_installed_sig_handlers w;
     rde := rde w; tape := tape w; calls := calls w; stdout := stdout w;
     stop_result := stop_result w |}.

Definition set_diag_installed_sig_handlers (b : bool) (w : World) : World :=
  {| g_signalExit := g_signalExit w;
     diag_stopDiagOnSignal := diag_stopDiagOnSignal w;
     diag_installed_sig_handlers := b;
     rde := rde w; tape := tape w; calls := calls w; stdout := stdout w;
     stop_result := stop_result w |}.

Definition set_rde (e : executor_state) (w : World) : World :=
  {| g_signalExit := g_signalExit w;
     diag_stopDiagOnSignal := diag_stopDiagOnSignal w;
     diag_installed_sig_handlers := diag_installed_sig_handlers w;
     rde := e; tape := tape w; calls := calls w; stdout := stdout w;
     stop_result := stop_result w |}.

Definition set_tape (t : list event) (w : World) : World :=
  {| g_signalExit := g_signalExit w;
     diag_stopDiagOnSignal := diag_stopDiagOnSignal w;
     diag_installed_sig_handlers := diag_installed_sig_handlers w;
     rde := rde w; tape := t; calls := calls w; stdout := stdout w;
     stop_result := stop_result w |}.

(** A request goes out. *)
Definition call (c : remote_call) (w : World) : World :=
  {| g_signalExit := g_signalExit w;
     diag_stopDiagOnSignal := diag_stopDiagOnSignal w;
     diag_installed_sig_handlers := diag_installed_sig_handlers w;
     rde := rde w; tape := tape w; calls := calls w ++ [c]; stdout := stdout w;
     stop_result := stop_result w |}.

(** [std::cout << ...]. *)
Definition print (items : list out_item) (w : World) : World :=
  {| g_signalExit := g_signalExit w;
     diag_stopDiagOnSignal := diag_stopDiagOnSignal w;
     diag_installed_sig_handlers := diag_installed_sig_handlers w;
     rde := rde w; tape := tape w; calls := calls w; stdout := stdout w ++ items;
     stop_result := stop_result w |}.

(** ** The signal bridge *)

(** [handle_signal_during_diag]. *)
Definition handle_signal_during_diag (signum : nat) (w : World) : World :=
  if diag_stopDiagOnSignal w then set_g_signalExit true w else w.

(** [InstallSigHandlers]: the four [sigaction] calls happen once. *)
Definition InstallSigHandlers (w : World) : World :=
  if diag_installed_sig_handlers w then w
  else set_diag_installed_sig_handlers true w.

(** The executor thread finishes; void when no remote call is in flight. *)
Definition executor_exit (result : dcgmReturn_t) (response : dcgmDiagResponse_t)
    (w : World) : World :=
  match rde w with
  | Running => set_rde (Exited result response) w
  | _ => w
  end.

(** The environment acts until the supervising thread is scheduled. *)
Fixpoint await_events (t : list event) (w : World) : res World :=
  match t with
  | [] => Waiting
  | EvRun :: t' => Ok (set_tape t' w)
  | EvSignal signum :: t' => await_events t' (handle_signal_during_diag signum w)
  | EvExit result response :: t' => await_events t' (executor_exit result response w)
  end.

Definition await (w : World) : res World := await_events (tape w) w.

(** ** Supervision: [Diag::ExecuteDiagOnServer] *)

(** The [while (1)] loop.  [diagResult] is the caller's object, assigned
    only when the executor has exited. *)
Fixpoint ExecuteDiagOnServer_poll (fuel : nat) (d : Diag)
    (diagResult : dcgmDiagResponse_t) (w : World)
  : res (dcgmReturn_t * dcgmDiagResponse_t * World) :=
  match fuel with
  | 0 => OutOfFuel
  | S fuel' =>
      w <- await w ;;
      if g_signalExit w then
        (* AbortDiag ad(m_hostname); ad.Execute(); rde->Stop(); *)
        let w := call (Abort (m_hostname d)) w in
        let w := set_rde Idle w in
        Ok (DCGM_ST_NVVS_KILLED, diagResult, w)
      else
        w <- await w ;;
        match rde w with
        | Exited result response => Ok (result, response, w)
        | _ =>
            (* std::this_thread::sleep_for(100ms) *)
            ExecuteDiagOnServer_poll fuel' d diagResult w
        end
  end.

Definition ExecuteDiagOnServer (d : Diag) (diagResult : dcgmDiagResponse_t)
    (w : World) : res (dcgmReturn_t * dcgmDiagResponse_t * World) :=
  w <- await w ;;
  let w := set_diag_stopDiagOnSignal true w in
  (* Start the diagnostic *)
  let w := call (ActionValidate (m_drd d)) (set_rde Running w) in
  '(result, diagResult, w) <- ExecuteDiagOnServer_poll (S (List.length (tape w))) d diagResult w ;;
  w <- await w ;;
  (* Reset global flag so that the sig handler does not attempt to stop a
     diag when no diag is running. *)
  let w := set_diag_stopDiagOnSignal false w in
  Ok (result, diagResult, w).

(** ** One run: [Diag::RunDiagOnce] *)

(** The text report of a successful run. *)
Definition text_report (d : Diag) (diagResult : dcgmDiagResponse_t)
    (gpuVec : list nat) : res (list out_item) :=
  emit_all
    [ Ok [Text (lit "Successfully ran diagnostic for group."); Text endl];
      Ok [Text DIAG_HEADER];
      Ok (HelperDisplayVersionAndDevIds diagResult);
      HelperDisplayDeployment diagResult;
      if 0 <? List.length gpuVec then
        emit_all
          [ HelperDisplayIntegration d (perGpuResponses diagResult) gpuVec;
            HelperDisplayHardware d (perGpuResponses diagResult) gpuVec;
            HelperDisplayPerformance d (perGpuResponses diagResult) gpuVec ]
      else Ok [];
      Ok [Text DIAG_FOOTER] ].

(** The GPU working set of a successful run. *)
Definition derive_gpuVec (d : Diag) (diagResult : dcgmDiagResponse_t) : list nat :=
  if 0 <? List.length (gpuList (m_drd d))
  then map strtol_10 (dcgmTokenizeString (gpuList (m_drd d)) (lit ","))
  else PopulateGpuList diagResult [].

Definition RunDiagOnce (d : Diag) (w : World) : res (dcgmReturn_t * Diag * World) :=
  let diagResult := InitializeDiagResponse in
  (* Setup signal handlers *)
  let w := InstallSigHandlers w in
  '(result, diagResult, w) <- ExecuteDiagOnServer d diagResult w ;;
  match result with
  | DCGM_ST_GROUP_INCOMPATIBLE =>
      let w := print (HelperDisplayFailureMessage d (lit
        "Error: Diagnostic can only be performed on a homogeneous group of GPUs.")) w in
      Ok (result, d, w)
  | DCGM_ST_NOT_SUPPORTED =>
      let w := print (HelperDisplayFailureMessage d (lit
        "Error: Diagnostic could not be run because the Tesla recommended driver is not being used.")) w in
      Ok (result, d, w)
  | DCGM_ST_PAUSED =>
      let w := print (HelperDisplayFailureMessage d (lit
        "Error: Diagnostic could not be run while DCGM is paused.")) w in
      Ok (result, d, w)
  | DCGM_ST_OK =>
      if negb (m_jsonOutput d) && negb (str_eqb (msg (systemError diagResult)) []) then
        let errMsg := lit "Error: " ++ msg (systemError diagResult) ++ endl in
        let w := print (HelperDisplayFailureMessage d errMsg) w in
        Ok (DCGM_ST_NVVS_ERROR, d, w)
      else
        let gpuVec := derive_gpuVec d diagResult in
        '(result, d, w) <-
          (if m_jsonOutput d then
             let '(result, d, printed) := HelperDisplayAsJson d diagResult gpuVec in
             Ok (result, d, print printed w)
           else
             printed <- text_report d diagResult gpuVec ;;
             Ok (result, d, print printed w)) ;;
        let result := if is_OK result then GetFailureResult diagResult else result in
        Ok (result, d, w)
  | _ =>
      let errMsg :=
        if negb (str_eqb (msg (systemError diagResult)) [])
        then msg (systemError diagResult)
        else lit "Error: Unable to complete diagnostic for group "
               ++ dec (groupId (m_drd d)) ++ lit ". Return: ("
               ++ dcgmReturn_value result ++ lit ") " ++ errorString result ++ lit "." in
      let '(errMsg, w) :=
        match result with
        | DCGM_ST_TIMEOUT =>
            (* If there was a timeout, we attempt to stop the launched
               diagnostic before returning. *)
            let w := call StopDiagnostic w in
            let ret := stop_result w in
            if negb (is_OK ret)
            then (errMsg ++ endl ++ lit "Error: Could not stop the launched diagnostic.", w)
            else (errMsg, w)
        | _ => (errMsg, w)
        end in
      let w := print (HelperDisplayFailureMessage d errMsg) w in
      Ok (result, d, w)
  end.

(** ** Iterations: [Diag::RunStartDiag] *)

(** The line that announces iteration [i] in text mode. *)
Definition iteration_banner (d : Diag) (i : nat) (w : World) : World :=
  if negb (m_jsonOutput d)
  then print [Text (endl ++ lit "Running iteration " ++ dec (i + 1) ++ lit " of "
                      ++ dec (m_iterations d) ++ lit "..." ++ endl)] w
  else w.

(** The [for] loop with its [break]; [output] is the document of the
    iterations.  What comes back is [overallRet] with the objects as the
    loop leaves them. *)
Fixpoint RunStartDiag_loop (indices : list nat) (overallRet : dcgmReturn_t)
    (output : Json) (d : Diag) (w : World)
  : res (dcgmReturn_t * Json * Diag * World) :=
  match indices with
  | [] => Ok (overallRet, output, d, w)
  | i :: rest =>
      let w := iteration_banner d i w in
      let d := set_m_drd (set_currentIteration i (m_drd d)) d in
      '(ret, d, w) <- RunDiagOnce d w ;;
      let output := JsonValue.set [K NVVS_ITERATIONS; At i] (m_jsonTmpValue d) output in
      if negb (is_OK ret) then
        let overallRet := ret in
        (* Break out of the loop due to a failure *)
        let output :=
          if m_jsonOutput d
          then JsonValue.set [K NVVS_WARNING] (JStr (errorString ret))
                 (JsonValue.set [K NVVS_RESULT] (JStr (lit "Fail")) output)
          else output in
        Ok (overallRet, output, d, w)
      else RunStartDiag_loop rest overallRet output d w
  end.

Definition RunStartDiag (d : Diag) (w : World) : res (dcgmReturn_t * Diag * World) :=
  if m_iterations d <=? 1 then RunDiagOnce d w
  else
    let output := JNull in
    let overallRet := DCGM_ST_OK in
    let d := set_m_drd (set_totalIterations (m_iterations d) (m_drd d)) d in
    '(overallRet, output, d, w) <-
      RunStartDiag_loop (seq 0 (m_iterations d)) overallRet output d w ;;
    let w :=
      if m_jsonOutput d then
        let output :=
          if is_OK overallRet
          then JsonValue.set [K NVVS_RESULT] (JStr (lit "Pass")) output
          else output in
        print [Styled output; Text endl] w
      else if is_OK overallRet then
        print [Text (lit "Passed all " ++ dec (m_iterations d)
                       ++ lit " runs of the diagnostic"); Text endl] w
      else
        print [Text (lit "Aborting the iterative runs of the diagnostic due to failure: "
                       ++ errorString overallRet); Text endl] w in
    Ok (overallRet, d, w).

End Diag.

(** ** Auxiliary notions for the statements *)

(** Trailing whitespace removed: what the first loop of [Sanitize] computes. *)
Definition strip_trailing (s : str) : str := rev (strip_leading (rev s)).

(** The text that [Sanitize] keeps before stripping. *)
Definition Sanitize_body (s : str) : str :=
  match StdString.find (lit "***") s with
  | Some pos => skipn (pos + 3) s
  | None => s
  end.

(** Space, tab, newline, carriage return, form-feed. *)
Definition whitespace_characters : list ascii :=
  [" "; "009"; "010"; "013"; "012"]%char.

Section ClassifierNotions.

Context {headers : DcgmHeaders}.

(** The cells that [GetFailureResult] scans: the level-one results below
    [levelOneTestCount] and the whole per-GPU matrix. *)
Definition scanned (diagResult : dcgmDiagResponse_t) (cell : dcgmDiagTestResult_v3)
  : Prop :=
  (exists i, i < levelOneTestCount diagResult /\ cell = levelOneResults diagResult i)
  \/ (exists i j, i < DCGM_MAX_NUM_DEVICES /\ j < DCGM_PER_GPU_TEST_COUNT_V8 /\
                  cell = results (perGpuResponses diagResult i) j).

Definition failing (cell : dcgmDiagTestResult_v3) : Prop :=
  status cell = DCGM_DIAG_RESULT_FAIL.

(** One of the error slots of the cell resolves to the isolate tier. *)
Definition carries_isolate (cell : dcgmDiagTestResult_v3) : Prop :=
  exists k, k < DCGM_MAX_ERRORS /\
            dcgmErrorGetPriorityByCode (code (error cell k)) = DCGM_ERROR_ISOLATE.

(** The same two notions as tests. *)
Definition carries_isolateb (cell : dcgmDiagTestResult_v3) : bool :=
  existsb (fun k => is_ISOLATE (dcgmErrorGetPriorityByCode (code (error cell k))))
    (seq 0 DCGM_MAX_ERRORS).

Definition failingb (cell : dcgmDiagTestResult_v3) : bool :=
  dcgmDiagResult_eqb (status cell) DCGM_DIAG_RESULT_FAIL.

(** What one cell contributes to the scan. *)
Definition cell_isolate (cell : dcgmDiagTestResult_v3) : bool :=
  failingb cell && carries_isolateb cell.

Definition cell_fails (cell : dcgmDiagTestResult_v3) : bool :=
  failingb cell && (0 <? DCGM_MAX_ERRORS).

(** The two scans as tests over the whole response. *)
Definition any_cell (p : dcgmDiagTestResult_v3 -> bool) (r : dcgmDiagResponse_t) : bool :=
  existsb (fun i => p (levelOneResults r i)) (seq 0 (levelOneTestCount r))
  || existsb (fun i =>
                existsb (fun j => p (results (perGpuResponses r i) j))
                  (seq 0 DCGM_PER_GPU_TEST_COUNT_V8))
       (seq 0 DCGM_MAX_NUM_DEVICES).

(** The id of slot [i] is not the sentinel any more. *)
Definition overwritten (diagResult : dcgmDiagResponse_t) (i : nat) : bool :=
  negb (gpuId (perGpuResponses diagResult i) =? DCGM_MAX_NUM_DEVICES).

(** Slot [i] was overwritten and holds a test that ran. *)
Definition participated (diagResult : dcgmDiagResponse_t) (i : nat) : bool :=
  overwritten diagResult i && someTestRan (perGpuResponses diagResult i).

(** The status of the cell that the bucketing loop reads for [gpuIndex]. *)
Definition bucket_status (testIndex : nat)
    (diagResults : array dcgmDiagResponsePerGpu_v5) (gpuIndex : nat)
  : dcgmDiagResult_t :=
  status (results (diagResults gpuIndex) (effective_testIndex testIndex)).

(** The bucket that a status selects holds the ids of the slots of the
    input indices with that status, in input order. *)
Definition bucket_of (st : dcgmDiagResult_t) (testIndex : nat)
    (diagResults : array dcgmDiagResponsePerGpu_v5) (gpuIndices : list nat)
  : list nat :=
  map (fun g => gpuId (diagResults g))
    (filter (fun g => dcgmDiagResult_eqb (bucket_status testIndex diagResults g) st)
       gpuIndices).

End ClassifierNotions.

(** ** A concrete set of header values, on which the examples run *)

Definition sample_headers : DcgmHeaders := {|
  DCGM_MAX_NUM_DEVICES := 32;
  DCGM_MAX_ERRORS := 5;
  DCGM_PER_GPU_TEST_COUNT_V8 := 13;
  DCGM_MEMORY_INDEX := 0;
  DCGM_DIAGNOSTIC_INDEX := 1;
  DCGM_PCI_INDEX := 2;
  DCGM_SM_STRESS_INDEX := 3;
  DCGM_TARGETED_STRESS_INDEX := 4;
  DCGM_TARGETED_POWER_INDEX := 5;
  DCGM_MEMORY_BANDWIDTH_INDEX := 6;
  DCGM_MEMTEST_INDEX := 7;
  DCGM_PULSE_TEST_INDEX := 8;
  DCGM_EUD_TEST_INDEX := 9;
  DCGM_CONTEXT_CREATE_INDEX := 15;
  DCGM_SWTEST_CUDA_RUNTIME_LIBRARY := 3;
  DCGM_RUN_FLAGS_VERBOSE := 1;
  DCGM_STR_BLANK := lit "<<<NULL>>>";
  dcgmDiagResponse_version := 10;
  dcgmDiagResult_zero := DCGM_DIAG_RESULT_PASS;
  CTXCREATE_PLUGIN_NAME := lit "context_create";
  DIAGNOSTIC_PLUGIN_NAME := lit "diagnostic";
  PULSE_TEST_PLUGIN_NAME := lit "pulse_test";
  PCIE_PLUGIN_NAME := lit "pcie";
  SMSTRESS_PLUGIN_NAME := lit "sm_stress";
  TS_PLUGIN_NAME := lit "targeted_stress";
  TP_PLUGIN_NAME := lit "targeted_power";
  MEMBW_PLUGIN_NAME := lit "memory_bandwidth";
  MEMTEST_PLUGIN_NAME := lit "memtest";
  EUD_PLUGIN_NAME := lit "eud";
  (* code 95 stands for an error of the isolate tier *)
  dcgmErrorGetPriorityByCode := fun c => if c =? 95 then DCGM_ERROR_ISOLATE else DCGM_ERROR_tier 1;
  errorString := fun r =>
    match r with
    | DCGM_ST_OK => lit "Success"
    | DCGM_ST_NVVS_KILLED => lit "The NVVS process was killed by a signal"
    | _ => lit "Error"
    end;
  dcgmReturn_value := fun r =>
    match r with
    | DCGM_ST_OK => lit "0"
    | _ => lit "-1"
    end;
  dcgmTokenizeString := fun s _ => [s];
  strtol_10 := fun _ => 0;
  GetVersion := lit "0.0.0"
|}.

(** A cell with the given status and no error or note. *)
Definition plain_cell (st : dcgmDiagResult_t) : dcgmDiagTestResult_v3 :=
  {| status := st;
     error := fun _ => {| msg := []; err_gpuId := 0%Z; code := 0;
                          category := 0; severity := 0 |};
     info := [] |}.

(** A cell that failed with one error of the given code. *)
Definition failed_cell (c : nat) : dcgmDiagTestResult_v3 :=
  {| status := DCGM_DIAG_RESULT_FAIL;
     error := fun k =>
       if k =? 0
       then {| msg := lit "failure"; err_gpuId := 0%Z; code := c;
               category := 0; severity := 0 |}
       else {| msg := []; err_gpuId := 0%Z; code := 0; category := 0; severity := 0 |};
     info := [] |}.

(** A response for [k] GPUs: slot [i < k] has id [i] and its cells are given
    by [cells i]; the other slots keep the sentinel (32 in the sample
    headers) and did not run; no level-one test is reported. *)
Definition sample_response (k : nat) (cells : nat -> nat -> dcgmDiagTestResult_v3)
  : dcgmDiagResponse_t :=
  {| version := 10; gpuCount := k; levelOneTestCount := 0;
     levelOneResults := fun _ => plain_cell DCGM_DIAG_RESULT_NOT_RUN;
     perGpuResponses := fun i =>
       if i <? k
       then {| gpuId := i; hwDiagnosticReturn := 0; results := cells i |}
       else {| gpuId := 32; hwDiagnosticReturn := 0;
               results := fun _ => plain_cell DCGM_DIAG_RESULT_NOT_RUN |};
     systemError := {| msg := []; err_gpuId := 0%Z; code := 0;
                       category := 0; severity := 0 |};
     devIds := fun _ => lit "20B0"; devSerials := fun _ => lit "<<<NULL>>>";
     dcgmVersion := lit "3.3.9"; driverVersion := lit "550.54" |}.

(** Two GPUs: slot 0 fails test 1 with the ordinary code 7, slot 1 fails
    test 2 with code [c], every other cell passes. *)
Definition two_failures (c : nat) : dcgmDiagResponse_t :=
  sample_response 2
    (fun i j =>
       if (i =? 0) && (j =? 1) then failed_cell 7
       else if (i =? 1) && (j =? 2) then failed_cell c
       else plain_cell DCGM_DIAG_RESULT_PASS).

(** Two GPUs, every cell passes. *)
Definition all_pass : dcgmDiagResponse_t :=
  sample_response 2 (fun _ _ => plain_cell DCGM_DIAG_RESULT_PASS).

(** One GPU whose slot carries id 0 and in which no test ran. *)
Definition idle_gpu : dcgmDiagResponse_t :=
  sample_response 1 (fun _ _ => plain_cell DCGM_DIAG_RESULT_NOT_RUN).

(** Two GPUs: GPU 0 passes everything, GPU 1 fails test 2 with code [c]. *)
Definition one_failure (c : nat) : dcgmDiagResponse_t :=
  sample_response 2
    (fun i j =>
       if (i =? 1) && (j =? 2) then failed_cell c
       else plain_cell DCGM_DIAG_RESULT_PASS).

(** A request without GPU filter, for [n] iterations. *)
Definition sample_request : dcgmRunDiag_t :=
  {| groupId := 0; gpuList := []; testNames0 := lit "pcie"; flags := 0;
     totalIterations := 0; currentIteration := 0 |}.

Definition sample_Diag (json : bool) (n : nat) : Diag :=
  {| m_drd := sample_request; m_jsonOutput := json; m_iterations := n;
     m_hostname := lit "localhost"; m_jsonTmpValue := JNull |}.

(** One GPU whose PCIe cell (test 2 of the sample headers) has status warn
    and whose other cells pass. *)
Definition warned_pcie : dcgmDiagResponse_t :=
  sample_response 1
    (fun _ j => if j =? 2 then plain_cell DCGM_DIAG_RESULT_WARN
                else plain_cell DCGM_DIAG_RESULT_PASS).

(** ** Auxiliary notions on schedules *)

(** What the environment does to the process while the supervising thread
    is not scheduled. *)
Definition absorb_event (w : World) (e : event) : World :=
  match e with
  | EvSignal signum => handle_signal_during_diag signum w
  | EvExit result response => executor_exit result response w
  | EvRun => w
  end.

Definition absorb (events : list event) (w : World) : World :=
  fold_left absorb_event events w.

Definition is_EvRun (e : event) : bool :=
  match e with EvRun => true | _ => false end.

(** One turn of the poll loop in which nothing happens: the flag is tested,
    then the executor. *)
Definition idle_round : list event := [EvRun; EvRun].

(** The requests to run a diagnostic among the requests sent. *)
Definition dispatched (cs : list remote_call) : list dcgmRunDiag_t :=
  flat_map (fun c => match c with ActionValidate drd => [drd] | _ => [] end) cs.

(** The abort requests among the requests sent. *)
Definition aborts (cs : list remote_call) : nat :=
  List.length (filter (fun c => match c with Abort _ => true | _ => false end) cs).

(** A process in which no diagnostic runs, with the schedule [t] ahead. *)
Definition quiet_world (t : list event) : World :=
  {| g_signalExit := false; diag_stopDiagOnSignal := false;
     diag_installed_sig_handlers := false; rde := Idle; tape := t;
     calls := []; stdout := []; stop_result := DCGM_ST_OK |}.

(** The same process once [RunDiagOnce] has installed the handlers, as the
    supervisor receives it. *)
Definition supervised_world (t : list event) : World :=
  InstallSigHandlers (quiet_world t).

(** The schedule of one run that nothing disturbs: the supervisor arms and
    starts, goes through one idle round, the executor finishes with
    [result] and [response], the supervisor sees it and disarms. *)
Definition plain_run (result : dcgmReturn_t) (response : dcgmDiagResponse_t)
  : list event :=
  [EvRun] ++ idle_round ++ [EvRun; EvExit result response; EvRun; EvRun].

(** The code came back, or is still waiting for the environment: it
    neither threw nor exhausted a loop budget. *)
Definition settled {A : Type} (m : res A) : Prop :=
  match m with
  | Ok _ | Waiting => True
  | Throw _ | OutOfFuel => False
  end.

Section IterationNotions.

Context {headers : DcgmHeaders}.

(** The request as iteration [i] of [n] sends it. *)
Definition stamped (n i : nat) (drd : dcgmRunDiag_t) : dcgmRunDiag_t :=
  set_currentIteration i (set_totalIterations n drd).

(** [trace] lists, for consecutive iterations from index [i] on, what
    [RunDiagOnce] returned and the objects as it left them, each iteration
    starting where the one before ended. *)
Fixpoint runs_in_sequence (i : nat) (d : Diag) (w : World)
    (trace : list (dcgmReturn_t * Diag * World)) : Prop :=
  match trace with
  | [] => True
  | (ret, d', w') :: rest =>
      RunDiagOnce (set_m_drd (set_currentIteration i (m_drd d)) d)
        (iteration_banner d i w) = Ok (ret, d', w')
      /\ runs_in_sequence (S i) d' w' rest
  end.

End IterationNotions.

(** The engine answers OK but reports a system error. *)
Definition engine_trouble : dcgmDiagResponse_t :=
  {| version := 10; gpuCount := 1; levelOneTestCount := 0;
     levelOneResults := fun _ => plain_cell DCGM_DIAG_RESULT_NOT_RUN;
     perGpuResponses := perGpuResponses all_pass;
     systemError := {| msg := lit "nvvs binary not found"; err_gpuId := (-1)%Z;
                       code := 0; category := 0; severity := 0 |};
     devIds := fun _ => lit "20B0"; devSerials := fun _ => lit "<<<NULL>>>";
     dcgmVersion := lit "3.3.9"; driverVersion := lit "550.54" |}.

(** ** The rest of the [Diag] interface *)

(** [memset(&this->m_drd, 0, sizeof(this->m_drd))]. *)
Definition zero_request : dcgmRunDiag_t :=
  {| groupId := 0; gpuList := []; testNames0 := []; flags := 0;
     totalIterations := 0; currentIteration := 0 |}.

(** [Diag::Diag]; the default [Json::Value] of [m_jsonTmpValue] is null. *)
Definition Diag_new (iterations : nat) (hostname : str) : Diag :=
  {| m_drd := zero_request; m_jsonOutput := false; m_iterations := iterations;
     m_hostname := hostname; m_jsonTmpValue := JNull |}.

(** [Diag::setDcgmRunDiag]: the request is copied into the object. *)
Definition setDcgmRunDiag (drd : dcgmRunDiag_t) (d : Diag) : Diag :=
  set_m_drd drd d.

(** [Diag::setJsonOutput]. *)
Definition setJsonOutput (jsonOutput : bool) (d : Diag) : Diag :=
  {| m_drd := m_drd d; m_jsonOutput := jsonOutput;
     m_iterations := m_iterations d; m_hostname := m_hostname d;
     m_jsonTmpValue := m_jsonTmpValue d |}.

(** ** Further notions for the statements *)

(** The number of rows that a message of [n] characters takes in the value
    column. *)
Definition rows_needed (n : nat) : nat :=
  (n + (DATA_INFO_TAG_LEN - 1)) / DATA_INFO_TAG_LEN.

(** Row [k] of a message: its [k]-th slice of [DATA_INFO_TAG_LEN]
    characters, labelled on the first row only. *)
Definition message_row (name info : str) (k : nat) : out_item :=
  Row (if k =? 0 then name else lit "")
    (firstn DATA_INFO_TAG_LEN (skipn (DATA_INFO_TAG_LEN * k) info)).

(** The rows of a message under a label. *)
Definition message_rows (name text : str) : list out_item :=
  map (message_row name text) (seq 0 (rows_needed (List.length text))).

(** A message as [Sanitize] leaves it. *)
Definition clean (m : str) : str := strip_ws (Sanitize_body m).

(** The first value under the label, the others under a blank label. *)
Definition label_first (name : str) (values : list str) : list out_item :=
  match values with
  | [] => []
  | v :: vs => Row name v :: map (Row (lit "")) vs
  end.

(** The strings of the list with a comma between neighbours. *)
Definition comma_separated (l : list str) : str :=
  match l with
  | [] => []
  | a :: l' => a ++ flat_map (fun s => lit "," ++ s) l'
  end.

(** A row of the two-column layout, as opposed to a banner. *)
Definition is_Row (x : out_item) : Prop :=
  match x with Row _ _ => True | _ => False end.

(** Strictly ascending. *)
Fixpoint ascending (l : list nat) : Prop :=
  match l with
  | [] => True
  | a :: l' => Forall (fun b => a < b) l' /\ ascending l'
  end.

Section DisplayNotions.

Context {headers : DcgmHeaders}.

(** The request asks for verbose output. *)
Definition verbose (d : Diag) : bool :=
  negb (Nat.land (flags (m_drd d)) DCGM_RUN_FLAGS_VERBOSE =? 0).

(** The summary values of a test whose GPUs do not share one status: one
    per non-empty bucket, in the order pass, fail, warn, skip. *)
Definition summary_values (b : buckets) : list str :=
  map (fun wl => summary_text (fst wl) (snd wl))
    (filter (fun wl => 0 <? List.length (snd wl))
       [("Pass"%string, passed b); ("Fail"%string, failed b);
        ("Warn"%string, warned b); ("Skip"%string, skipped b)]).

(** The rows that the details of a test take: the error messages of the
    GPUs in the order of the list, slot by slot, under "Warning", then the
    notes under "Info", each message cleaned up. *)
Definition detail_rows (gpuIndices : list nat) (testIndex : nat)
    (diagResults : array dcgmDiagResponsePerGpu_v5) : list out_item :=
  flat_map (fun g =>
              flat_map (fun j =>
                          message_rows (lit "Warning")
                            (clean (msg (error (results (diagResults g) testIndex) j))))
                (seq 0 DCGM_MAX_ERRORS))
    gpuIndices
  ++ flat_map (fun g =>
                 message_rows (lit "Info")
                   (clean (info (results (diagResults g) testIndex))))
       gpuIndices.

(** The word of an "All" row. *)
Definition all_word (st : dcgmDiagResult_t) : string :=
  match st with
  | DCGM_DIAG_RESULT_PASS => "Pass - All"
  | DCGM_DIAG_RESULT_SKIP => "Skip - All"
  | DCGM_DIAG_RESULT_FAIL => "Fail - All"
  | DCGM_DIAG_RESULT_WARN => "Warn - All"
  | DCGM_DIAG_RESULT_NOT_RUN => ""
  end.

(** The rows of one level-one test in the Deployment section: none when
    the test did not run; else the status, then the error messages as they
    are under "Error", then the note under "Info". *)
Definition deployment_rows (nameTag : str) (cell : dcgmDiagTestResult_v3)
  : list out_item :=
  match status cell with
  | DCGM_DIAG_RESULT_NOT_RUN => []
  | st =>
      Row nameTag (HelperDisplayDiagResult st)
      :: flat_map (fun j => message_rows (lit "Error") (msg (error cell j)))
           (seq 0 DCGM_MAX_ERRORS)
      ++ message_rows (lit "Info") (info cell)
  end.

(** No test of the per-GPU matrix ran on any of the GPUs of the list. *)
Definition nothing_ran (diagResult : dcgmDiagResponse_t) (gpuIndices : list nat)
  : Prop :=
  forall g j, In g gpuIndices -> j < DCGM_PER_GPU_TEST_COUNT_V8 ->
    status (results (perGpuResponses diagResult g) j) = DCGM_DIAG_RESULT_NOT_RUN.

(** Test [p] of the per-GPU matrix ran on one of the GPUs of the list. *)
Definition ran_somewhere (diagResult : dcgmDiagResponse_t) (gpuIndices : list nat)
    (p : nat) : bool :=
  existsb
    (fun g =>
       negb (dcgmDiagResult_eqb (status (results (perGpuResponses diagResult g) p))
               DCGM_DIAG_RESULT_NOT_RUN))
    gpuIndices.

(** The tests that the [switch] of [HelperJsonBuildOutput] files under
    Hardware, under Integration and under Stress; a test index counts for
    the first of the three that names it. *)
Definition hardware_test (p : nat) : bool :=
  (p =? DCGM_MEMORY_INDEX) || (p =? DCGM_DIAGNOSTIC_INDEX)
  || (p =? DCGM_PULSE_TEST_INDEX) || (p =? DCGM_EUD_TEST_INDEX).

Definition integration_test (p : nat) : bool :=
  negb (hardware_test p) && (p =? DCGM_PCI_INDEX).

Definition stress_test (p : nat) : bool :=
  negb (hardware_test p) && negb (p =? DCGM_PCI_INDEX)
  && ((p =? DCGM_SM_STRESS_INDEX) || (p =? DCGM_TARGETED_STRESS_INDEX)
      || (p =? DCGM_TARGETED_POWER_INDEX) || (p =? DCGM_MEMORY_BANDWIDTH_INDEX)
      || (p =? DCGM_MEMTEST_INDEX)).

(** The tests of a category that ran on one of the GPUs of the list, by
    ascending index. *)
Definition tests_filed (in_category : nat -> bool) (diagResult : dcgmDiagResponse_t)
    (gpuIndices : list nat) : list nat :=
  filter (fun p => ran_somewhere diagResult gpuIndices p && in_category p)
    (seq 0 DCGM_PER_GPU_TEST_COUNT_V8).

(** The category document carries the header and lists the tests [tests],
    in this order, each under its display name. *)
Definition category_lists (d : Diag) (header : str) (category : Json)
    (tests : list nat) : Prop :=
  JsonValue.get [K NVVS_HEADER] category = JStr header /\
  map (JsonValue.get [K NVVS_TEST_NAME])
    (JsonValue.elems_of (JsonValue.get [K NVVS_TESTS] category))
  = map (fun p => JStr (HelperGetPluginName d p)) tests.

(** The three category documents under construction list the tests [hw],
    [ig] and [st], and their counters count them. *)
Definition categories_list (d : Diag) (c : categories) (hw ig st : list nat) : Prop :=
  (category_lists d DISPLAY_HARDWARE (hardware c) hw
   /\ hardwarePluginCount c = List.length hw) /\
  (category_lists d DISPLAY_INTEGRATION (integration c) ig
   /\ integrationPluginCount c = List.length ig) /\
  (category_lists d DISPLAY_STRESS (stress c) st
   /\ stressPluginCount c = List.length st).

(** The category, when it has a test to list. *)
Definition listed_if_any (category : Json) (tests : list nat) : list Json :=
  match tests with
  | [] => []
  | _ :: _ => [category]
  end.

(** The category, when it has a test. *)
Definition category_if_used (category : Json) (count : nat) : list Json :=
  if 0 <? count then [category] else [].

(** The CUDA runtime library test is among the level-one tests and did not
    run: [HelperJsonAddBasicTests] leaves it out. *)
Definition cuda_runtime_left_out (diagResult : dcgmDiagResponse_t) : bool :=
  (DCGM_SWTEST_CUDA_RUNTIME_LIBRARY <? levelOneTestCount diagResult)
  && dcgmDiagResult_eqb
       (status (levelOneResults diagResult DCGM_SWTEST_CUDA_RUNTIME_LIBRARY))
       DCGM_DIAG_RESULT_NOT_RUN.

(** The level-one test that position [idx] of the structured Deployment
    category holds. *)
Definition levelOne_at (diagResult : dcgmDiagResponse_t) (idx : nat) : nat :=
  if cuda_runtime_left_out diagResult
     && (DCGM_SWTEST_CUDA_RUNTIME_LIBRARY <=? idx)
  then idx + 1 else idx.

(** The remote calls of the consecutive iterations from index [i] on, for
    the object [d] in the process [w]: iteration [i] calls with the request
    of [d] in which [totalIterations] is the number of iterations and
    [currentIteration] is [i]; its call returns OK with the response
    listed, in which no test failed, and leaves the process as listed,
    where the next iteration starts. *)
Fixpoint answered_in_sequence (i : nat) (d : Diag) (w : World)
    (answers : list (dcgmDiagResponse_t * World)) : Prop :=
  match answers with
  | [] => True
  | (response, w1) :: rest =>
      ExecuteDiagOnServer
        {| m_drd := {| groupId := groupId (m_drd d);
                       gpuList := gpuList (m_drd d);
                       testNames0 := testNames0 (m_drd d);
                       flags := flags (m_drd d);
                       totalIterations := m_iterations d;
                       currentIteration := i |};
           m_jsonOutput := m_jsonOutput d; m_iterations := m_iterations d;
           m_hostname := m_hostname d; m_jsonTmpValue := m_jsonTmpValue d |}
        InitializeDiagResponse (InstallSigHandlers w)
      = Ok (DCGM_ST_OK, response, w1)
      /\ GetFailureResult response = DCGM_ST_OK
      /\ answered_in_sequence (S i) d w1 rest
  end.

End DisplayNotions.

(** The stop requests among the requests sent. *)
Definition stops (cs : list remote_call) : nat :=
  List.length (filter (fun c => match c with StopDiagnostic => true | _ => false end) cs).

(** The process once [RunDiagOnce] has asked to stop the diagnostic of a
    run that timed out. *)
Definition after_timeout (result : dcgmReturn_t) (w : World) : World :=
  match result with
  | DCGM_ST_TIMEOUT => call StopDiagnostic w
  | _ => w
  end.

(** Five level-one tests are reported and no GPU took part: the NVML
    library test (1) and the CUDA runtime library test (3 in the sample
    headers) did not run, the other three passed. *)
Definition deployment_only : dcgmDiagResponse_t :=
  {| version := 10; gpuCount := 0; levelOneTestCount := 5;
     levelOneResults := fun i =>
       if (i =? 1) || (i =? 3) then plain_cell DCGM_DIAG_RESULT_NOT_RUN
       else plain_cell DCGM_DIAG_RESULT_PASS;
     perGpuResponses := perGpuResponses idle_gpu;
     systemError := {| msg := []; err_gpuId := 0%Z; code := 0;
                       category := 0; severity := 0 |};
     devIds := fun _ => lit "20B0"; devSerials := fun _ => lit "<<<NULL>>>";
     dcgmVersion := lit "3.3.9"; driverVersion := lit "550.54" |}.

(** * Properties *)

(** ** Facts about [std::string] searching *)

Lemma starts_with_iff (pat s : str) :
  StdString.starts_with pat s = true <-> exists post, s = pat ++ post.
Proof.
  revert s; induction pat as [|p pat IH]; intros s; simpl.
  - split; [intros _; now exists s | reflexivity].
  - destruct s as [|c s]; simpl.
    + split; [discriminate | intros [post H]; discriminate].
    + rewrite andb_true_iff, Ascii.eqb_eq, IH. split.
      * intros [-> [post ->]]. now exists post.
      * intros [post H]. injection H as -> ->. split; [reflexivity | now exists post].
Qed.

Lemma occurs_at_0 (pat s : str) :
  occurs_at pat s 0 <-> StdString.starts_with pat s = true.
Proof.
  rewrite starts_with_iff. split.
  - intros (pre & post & -> & Hlen). destruct pre; [|discriminate]. now exists post.
  - intros [post ->]. now exists [], post.
Qed.

Lemma occurs_at_S (pat : str) c s p :
  occurs_at pat (c :: s) (S p) <-> occurs_at pat s p.
Proof.
  split.
  - intros (pre & post & H & Hlen). destruct pre as [|c' pre]; [discriminate|].
    simpl in H. injection H as -> ->. exists pre, post. split; [reflexivity|].
    simpl in Hlen. lia.
  - intros (pre & post & -> & Hlen). exists (c :: pre), post. split; [reflexivity|].
    simpl. lia.
Qed.

Lemma occurs_at_nil (pat : str) p : occurs_at pat [] (S p) -> False.
Proof. intros (pre & post & H & Hlen). destruct pre; discriminate. Qed.

(** [find] answers the lowest position of an occurrence. *)
Lemma find_Some (pat s : str) p :
  StdString.find pat s = Some p ->
  occurs_at pat s p /\ forall q, q < p -> ~ occurs_at pat s q.
Proof.
  revert p; induction s as [|c s IH]; intros p; simpl.
  - destruct (StdString.starts_with pat []) eqn:E; [|discriminate].
    intros [= <-]. split; [now apply occurs_at_0 | intros q Hq; lia].
  - destruct (StdString.starts_with pat (c :: s)) eqn:E.
    + intros [= <-]. split; [now apply occurs_at_0 | intros q Hq; lia].
    + destruct (StdString.find pat s) as [p'|] eqn:F; [|discriminate].
      simpl. intros [= <-]. destruct (IH p' eq_refl) as [Ho Hmin]. split.
      * now apply occurs_at_S.
      * intros [|q] Hq Hocc.
        -- apply occurs_at_0 in Hocc. congruence.
        -- apply occurs_at_S in Hocc. apply (Hmin q); [lia | assumption].
Qed.

Lemma find_None (pat s : str) :
  StdString.find pat s = None -> forall q, ~ occurs_at pat s q.
Proof.
  induction s as [|c s IH]; simpl.
  - destruct (StdString.starts_with pat []) eqn:E; [discriminate|].
    intros _ [|q] Hocc; [apply occurs_at_0 in Hocc; congruence | now apply occurs_at_nil in Hocc].
  - destruct (StdString.starts_with pat (c :: s)) eqn:E; [discriminate|].
    destruct (StdString.find pat s) as [p'|] eqn:F; [discriminate|].
    intros _ [|q] Hocc.
    + apply occurs_at_0 in Hocc. congruence.
    + apply occurs_at_S in Hocc. now apply (IH eq_refl q).
Qed.

Lemma occurs_at_split (pat s : str) p :
  occurs_at pat s p ->
  s = firstn p s ++ pat ++ skipn (p + List.length pat) s /\
  p + List.length pat <= List.length s.
Proof.
  intros (pre & post & -> & <-). split.
  - rewrite firstn_app, Nat.sub_diag, firstn_all. simpl. rewrite app_nil_r.
    f_equal. rewrite skipn_app, skipn_all2 by lia. simpl.
    replace (List.length pre + List.length pat - List.length pre) with (List.length pat) by lia.
    rewrite skipn_app, skipn_all, Nat.sub_diag. reflexivity.
  - rewrite !length_app. lia.
Qed.

(** ** Whitespace stripping *)

Lemma isWhitespace_iff (c : ascii) :
  isWhitespace c = true <-> In c whitespace_characters.
Proof.
  unfold isWhitespace, whitespace_characters.
  repeat match goal with
         | |- context [Ascii.eqb c ?x] =>
             destruct (Ascii.eqb_spec c x) as [->|?];
             [split; [intros _; cbn; tauto | reflexivity]|]
         end.
  split; [discriminate|].
  intros [H|[H|[H|[H|[H|[]]]]]]; congruence.
Qed.

Lemma strip_leading_split (s : str) :
  exists l, s = l ++ strip_leading s /\ all_ws l.
Proof.
  induction s as [|c s (l & Hl & Hws)]; simpl.
  - exists []. split; [reflexivity | constructor].
  - destruct (isWhitespace c) eqn:E.
    + exists (c :: l). split; [simpl; now f_equal | now constructor].
    + exists []. split; [reflexivity | constructor].
Qed.

Lemma strip_leading_head (s : str) c r :
  strip_leading s = c :: r -> isWhitespace c = false.
Proof.
  induction s as [|a s IH]; simpl; [discriminate|].
  destruct (isWhitespace a) eqn:E; [assumption|]. now intros [= <- _].
Qed.

Lemma strip_leading_ws_app (l s : str) :
  all_ws l -> strip_leading (l ++ s) = strip_leading s.
Proof.
  induction 1 as [|c l Hc _ IH]; simpl; [reflexivity|]. now rewrite Hc.
Qed.

Lemma strip_leading_fixed (s : str) :
  (forall c s', s = c :: s' -> isWhitespace c = false) -> strip_leading s = s.
Proof.
  destruct s as [|c s]; simpl; [reflexivity|]. intros H.
  now rewrite (H c s eq_refl).
Qed.

Lemma strip_leading_length (s : str) :
  List.length (strip_leading s) <= List.length s.
Proof.
  induction s as [|c s IH]; simpl; [lia|]. destruct (isWhitespace c); simpl; lia.
Qed.

Lemma strip_leading_skipn (s : str) :
  skipn (List.length s - List.length (strip_leading s)) s = strip_leading s.
Proof.
  destruct (strip_leading_split s) as (l & Hl & _).
  set (t := strip_leading s) in *. clearbody t. subst s.
  rewrite length_app.
  replace (List.length l + List.length t - List.length t) with (List.length l) by lia.
  rewrite skipn_app, skipn_all, Nat.sub_diag. reflexivity.
Qed.

Lemma all_ws_rev (l : str) : all_ws l -> all_ws (rev l).
Proof. unfold all_ws. rewrite !Forall_forall. intros H c Hc. apply H. now apply in_rev. Qed.

Lemma all_ws_strip (l : str) : all_ws l -> strip_leading l = [].
Proof. induction 1 as [|c l Hc _ IH]; simpl; [reflexivity|]. now rewrite Hc. Qed.

Lemma strip_trailing_ws_app (s r : str) :
  all_ws r -> strip_trailing (s ++ r) = strip_trailing s.
Proof.
  intros H. unfold strip_trailing. rewrite rev_app_distr.
  now rewrite strip_leading_ws_app by now apply all_ws_rev.
Qed.

Lemma strip_trailing_fixed (s : str) :
  (forall c s', s = s' ++ [c] -> isWhitespace c = false) -> strip_trailing s = s.
Proof.
  intros H. unfold strip_trailing. rewrite strip_leading_fixed; [apply rev_involutive|].
  intros c s' E. apply (H c (rev s')).
  rewrite <- (rev_involutive s), E. reflexivity.
Qed.

Lemma strip_trailing_last (s : str) c s' :
  strip_trailing s = s' ++ [c] -> isWhitespace c = false.
Proof.
  unfold strip_trailing. intros E.
  apply (f_equal (@rev ascii)) in E. rewrite rev_involutive, rev_app_distr in E.
  simpl in E. now apply strip_leading_head in E.
Qed.

Lemma strip_trailing_split (s : str) :
  exists r, s = strip_trailing s ++ r /\ all_ws r.
Proof.
  destruct (strip_leading_split (rev s)) as (l & Hl & Hws).
  exists (rev l). split; [|now apply all_ws_rev].
  unfold strip_trailing. rewrite <- rev_app_distr, <- Hl. symmetry. apply rev_involutive.
Qed.

(** The stripped text sits between two runs of whitespace and is trimmed. *)
Lemma strip_ws_decomposition (s : str) :
  exists l r, s = l ++ strip_ws s ++ r /\ all_ws l /\ all_ws r /\ trimmed (strip_ws s).
Proof.
  destruct (strip_leading_split s) as (l & Hl & Hwl).
  destruct (strip_trailing_split (strip_leading s)) as (r & Hr & Hwr).
  exists l, r. change (strip_ws s) with (strip_trailing (strip_leading s)).
  split; [now rewrite <- Hr|]. split; [assumption|]. split; [assumption|]. split.
  - intros c s' E. rewrite E in Hr. simpl in Hr. now apply strip_leading_head in Hr.
  - intros c s' E. now apply strip_trailing_last in E.
Qed.

(** Whatever the order in which the two ends are stripped, a text that
    sits trimmed between two runs of whitespace is what remains. *)
Lemma strip_unique (s l core r : str) :
  s = l ++ core ++ r -> all_ws l -> all_ws r -> trimmed core ->
  strip_leading (strip_trailing s) = core /\ strip_ws s = core.
Proof.
  intros -> Hl Hr [Hhd Hlast].
  change (strip_ws (l ++ core ++ r)) with (strip_trailing (strip_leading (l ++ core ++ r))).
  destruct core as [|c core].
  - simpl. rewrite strip_trailing_ws_app by assumption.
    assert (Hl' : strip_trailing l = []).
    { unfold strip_trailing. now rewrite all_ws_strip by now apply all_ws_rev. }
    rewrite Hl'. simpl. split; [reflexivity|].
    rewrite strip_leading_ws_app by assumption.
    rewrite all_ws_strip by assumption. reflexivity.
  - split.
    + rewrite app_assoc, strip_trailing_ws_app by assumption.
      rewrite strip_trailing_fixed.
      * rewrite strip_leading_ws_app by assumption. now apply strip_leading_fixed.
      * intros a s' E.
        destruct (exists_last (l:=c :: core)) as (x & b & Ex); [discriminate|].
        rewrite Ex, app_assoc in E. apply app_inj_tail in E as [_ <-].
        now apply (Hlast b x).
    + rewrite strip_leading_ws_app by assumption.
      rewrite strip_leading_fixed.
      * rewrite strip_trailing_ws_app by assumption. now apply strip_trailing_fixed.
      * intros a s' E. simpl in E. injection E as <- _. now apply (Hhd c core).
Qed.

Lemma strip_order (s : str) : strip_leading (strip_trailing s) = strip_ws s.
Proof.
  destruct (strip_ws_decomposition s) as (l & r & E & Hl & Hr & Ht).
  now destruct (strip_unique E Hl Hr Ht) as [-> _].
Qed.

(** ** The loops of [Sanitize] *)

Lemma at_last (s : str) c :
  StdString.at_ (s ++ [c]) (StdString.size (s ++ [c]) - 1) = Ok c.
Proof.
  unfold StdString.at_, StdString.size. rewrite length_app. simpl.
  replace (List.length s + 1 - 1) with (List.length s) by lia.
  rewrite nth_error_app2, Nat.sub_diag by lia. reflexivity.
Qed.

Lemma erase_last (s : str) c :
  StdString.erase_from (s ++ [c]) (StdString.size (s ++ [c]) - 1) = Ok s.
Proof.
  unfold StdString.erase_from, StdString.size. rewrite length_app. simpl.
  replace (List.length s + 1 - 1) with (List.length s) by lia.
  destruct (Nat.leb_spec (List.length s) (List.length s + 1)); [|lia].
  rewrite firstn_app, Nat.sub_diag, firstn_all. simpl. now rewrite app_nil_r.
Qed.

(** The first loop ends within its budget and strips the trailing
    whitespace. *)
Lemma Sanitize_trailing_eq (fuel : nat) (s : str) :
  List.length s < fuel -> Sanitize_trailing fuel s = Ok (strip_trailing s).
Proof.
  revert s; induction fuel as [|fuel IH]; intros s Hf; [lia|].
  destruct s as [|a s0] using rev_ind; [reflexivity|]. clear IHs0.
  cbn [Sanitize_trailing].
  assert (Hpos : (0 <? StdString.size (s0 ++ [a])) = true).
  { apply Nat.ltb_lt. unfold StdString.size. rewrite length_app. simpl. lia. }
  rewrite Hpos, at_last. cbn [rbind].
  unfold strip_trailing. rewrite rev_app_distr. simpl.
  destruct (isWhitespace a) eqn:E.
  - rewrite erase_last. cbn [rbind]. rewrite IH; [reflexivity|].
    rewrite length_app in Hf. simpl in Hf. lia.
  - simpl. now rewrite rev_involutive.
Qed.

Lemma at_middle (pre suf : str) c :
  StdString.at_ (pre ++ c :: suf) (List.length pre) = Ok c.
Proof.
  unfold StdString.at_. rewrite nth_error_app2, Nat.sub_diag by lia. reflexivity.
Qed.

(** The second loop, started at the end of [pre], stops at the first
    character of [suf] that is not whitespace, provided there is one. *)
Lemma Sanitize_leading_eq (suf pre : str) (fuel : nat) :
  List.length suf < fuel ->
  strip_leading suf <> [] \/ pre ++ suf = [] ->
  Sanitize_leading fuel (pre ++ suf) (List.length pre)
  = Ok (List.length pre + (List.length suf - List.length (strip_leading suf))).
Proof.
  revert pre fuel; induction suf as [|c suf IH]; intros pre fuel Hf HP.
  - destruct HP as [HP|HP]; [now contradiction HP|].
    rewrite HP. destruct fuel; [simpl in Hf; lia|]. simpl.
    apply app_eq_nil in HP as [-> _]. reflexivity.
  - destruct fuel as [|fuel]; [simpl in Hf; lia|].
    cbn [Sanitize_leading].
    assert (Hpos : (0 <? StdString.size (pre ++ c :: suf)) = true).
    { apply Nat.ltb_lt. unfold StdString.size. rewrite length_app. simpl. lia. }
    rewrite Hpos, at_middle. cbn [rbind]. simpl strip_leading.
    destruct (isWhitespace c) eqn:E.
    + replace (pre ++ c :: suf) with ((pre ++ [c]) ++ suf) by now rewrite <- app_assoc.
      replace (List.length pre + 1) with (List.length (pre ++ [c]))
        by (rewrite length_app; reflexivity).
      rewrite IH.
      * f_equal. rewrite length_app. cbn [List.length].
        pose proof (strip_leading_length suf). lia.
      * simpl in Hf. lia.
      * left. destruct HP as [HP|HP].
        -- simpl in HP. now rewrite E in HP.
        -- destruct pre; discriminate.
    + f_equal. cbn [List.length]. lia.
Qed.

Lemma strip_trailing_then_leading_ok (t : str) :
  strip_leading (strip_trailing t) <> [] \/ strip_trailing t = [].
Proof.
  destruct (strip_trailing t) as [|a u] eqn:E using rev_ind; [now right|]. clear IHu.
  left. apply strip_trailing_last in E.
  destruct (strip_leading_split (u ++ [a])) as (l & Hl & Hws). intros Hnil.
  rewrite Hnil, app_nil_r in Hl. subst l.
  unfold all_ws in Hws. rewrite Forall_forall in Hws.
  rewrite (Hws a) in E; [discriminate|]. apply in_or_app. right. now left.
Qed.

(** [Sanitize] always returns: the kept text with both ends stripped. *)
Lemma Sanitize_eq (s : str) : Sanitize s = Ok (strip_ws (Sanitize_body s)).
Proof.
  unfold Sanitize.
  assert (Hbody : match StdString.find (lit "***") s with
                  | Some pos => StdString.substr_from s (pos + 3)
                  | None => Ok s
                  end = Ok (Sanitize_body s)).
  { unfold Sanitize_body. destruct (StdString.find (lit "***") s) as [p|] eqn:F; [|reflexivity].
    apply find_Some in F as [Hocc _]. apply occurs_at_split in Hocc as [_ Hlen].
    unfold StdString.substr_from, StdString.size.
    change (List.length (lit "***")) with 3 in Hlen.
    destruct (Nat.leb_spec (p + 3) (List.length s)); [reflexivity | lia]. }
  rewrite Hbody. cbn [rbind].
  set (b := Sanitize_body s). unfold StdString.size at 1.
  rewrite Sanitize_trailing_eq by lia. cbn [rbind].
  set (t := strip_trailing b). unfold StdString.size at 1.
  change t with ([] ++ t) at 2. change 0 with (List.length (@nil ascii)).
  rewrite Sanitize_leading_eq; [| lia | apply strip_trailing_then_leading_ok].
  cbn [rbind]. simpl.
  unfold StdString.substr_from, StdString.size.
  destruct (Nat.leb_spec (List.length t - List.length (strip_leading t)) (List.length t)); [|lia].
  rewrite strip_leading_skipn. unfold t. now rewrite strip_order.
Qed.

(** ** The last occurrence, for comparison *)

Lemma rfind_spec (pat s : str) :
  match StdString.rfind pat s with
  | Some p => occurs_at pat s p /\ forall q, p < q -> ~ occurs_at pat s q
  | None => forall q, ~ occurs_at pat s q
  end.
Proof.
  induction s as [|c s IH]; simpl.
  - destruct (StdString.starts_with pat []) eqn:E.
    + split; [now apply occurs_at_0|]. intros [|q] Hq Hocc; [lia | now apply occurs_at_nil in Hocc].
    + intros [|q] Hocc; [apply occurs_at_0 in Hocc; congruence | now apply occurs_at_nil in Hocc].
  - destruct (StdString.rfind pat s) as [p|].
    + destruct IH as [Ho Hmax]. split; [now apply occurs_at_S|].
      intros [|q] Hq Hocc; [lia|]. apply occurs_at_S in Hocc. apply (Hmax q); [lia | assumption].
    + destruct (StdString.starts_with pat (c :: s)) eqn:E.
      * split; [now apply occurs_at_0|].
        intros [|q] Hq Hocc; [lia|]. apply occurs_at_S in Hocc. now apply (IH q).
      * intros [|q] Hocc; [apply occurs_at_0 in Hocc; congruence|].
        apply occurs_at_S in Hocc. now apply (IH q).
Qed.

Lemma strip_ws_trimmed_fixed (s : str) : trimmed s -> strip_ws s = s.
Proof.
  intros Ht.
  assert (E : s = [] ++ s ++ []) by now rewrite app_nil_r.
  now destruct (strip_unique E (Forall_nil _) (Forall_nil _) Ht) as [_ ->].
Qed.

Lemma strip_ws_length (s : str) : List.length (strip_ws s) <= List.length s.
Proof.
  destruct (strip_ws_decomposition s) as (l & r & E & _).
  rewrite E at 2. rewrite !length_app. lia.
Qed.

(** ** C5: what [Sanitize] returns *)

(** C5 (amended).  For every input string, [Sanitize] returns; what it
    returns is the text after the FIRST occurrence of the delimiter
    ["***"] when the delimiter is present (the whole string otherwise),
    with the whitespace (space, tab, newline, carriage return, form-feed)
    at both ends removed: the result is trimmed and sits in that text
    between two runs of whitespace. *)
Theorem Sanitize_after_first_delimiter :
  (forall c, isWhitespace c = true <-> In c whitespace_characters)
  /\ forall s,
      exists out body l r,
        Sanitize s = Ok out /\
        body = l ++ out ++ r /\ all_ws l /\ all_ws r /\ trimmed out /\
        ((exists pre, s = pre ++ lit "***" ++ body /\
                      forall q, q < List.length pre -> ~ occurs_at (lit "***") s q)
         \/ (body = s /\ forall q, ~ occurs_at (lit "***") s q)).
Proof.
  split; [exact isWhitespace_iff|]. intros s.
  destruct (strip_ws_decomposition (Sanitize_body s)) as (l & r & E & Hl & Hr & Ht).
  exists (strip_ws (Sanitize_body s)), (Sanitize_body s), l, r.
  split; [apply Sanitize_eq|]. repeat (split; [assumption|]).
  unfold Sanitize_body in *. destruct (StdString.find (lit "***") s) as [p|] eqn:F.
  - left. apply find_Some in F as [Hocc Hmin].
    exists (firstn p s). destruct (occurs_at_split Hocc) as [Hs Hlen]. split.
    + exact Hs.
    + intros q Hq. apply Hmin. rewrite length_firstn in Hq. lia.
  - right. split; [reflexivity | now apply find_None].
Qed.

(** C5 (counterexample).  On ["a***b***c"] the last delimiter is at
    position 5 and the text after it is ["c"], but [Sanitize] returns
    ["b***c"], the text after the first delimiter. *)
Lemma Sanitize_last_delimiter_counterexample :
  StdString.rfind (lit "***") (lit "a***b***c") = Some 5 /\
  Sanitize_as_documented (lit "a***b***c") = lit "c" /\
  Sanitize (lit "a***b***c") = Ok (lit "b***c") /\
  Sanitize (lit "a***b***c") <> Ok (Sanitize_as_documented (lit "a***b***c")).
Proof.
  repeat split; try reflexivity. vm_compute. discriminate.
Qed.

(** ** C6: applying [Sanitize] twice *)

(** C6 (amended).  [Sanitize] is idempotent on every string whose
    sanitized form holds no ["***"]: then sanitizing the result again
    gives the same result. *)
Theorem Sanitize_idempotent_without_delimiter (s out : str) :
  Sanitize s = Ok out ->
  StdString.find (lit "***") out = None ->
  rbind (Sanitize s) Sanitize = Sanitize s.
Proof.
  intros Hs Hnone. rewrite Hs. cbn [rbind].
  rewrite Sanitize_eq in Hs. injection Hs as Hout.
  rewrite Sanitize_eq. unfold Sanitize_body. rewrite Hnone. f_equal.
  apply strip_ws_trimmed_fixed. rewrite <- Hout.
  now destruct (strip_ws_decomposition (Sanitize_body s)) as (_ & _ & _ & _ & _ & Ht).
Qed.

Lemma Sanitize_idempotent_without_delimiter_witness :
  Sanitize (lit " log line *** GPU 0 failed  ") = Ok (lit "GPU 0 failed") /\
  rbind (Sanitize (lit " log line *** GPU 0 failed  ")) Sanitize
  = Sanitize (lit " log line *** GPU 0 failed  ").
Proof.
  split; [reflexivity|].
  apply (@Sanitize_idempotent_without_delimiter
           (lit " log line *** GPU 0 failed  ") (lit "GPU 0 failed"));
    reflexivity.
Defined.

(** The condition of C6 is sharp: a result that still holds the delimiter
    is shortened by the next pass. *)
Lemma Sanitize_not_idempotent_with_delimiter (s out : str) p :
  Sanitize s = Ok out ->
  StdString.find (lit "***") out = Some p ->
  rbind (Sanitize s) Sanitize <> Sanitize s.
Proof.
  intros Hs Hsome. rewrite Hs. cbn [rbind]. rewrite Sanitize_eq.
  unfold Sanitize_body. rewrite Hsome. intros [= E].
  pose proof (strip_ws_length (skipn (p + 3) out)) as Hlen.
  rewrite E, length_skipn in Hlen.
  apply find_Some in Hsome as [Hocc _]. apply occurs_at_split in Hocc as [_ Hle].
  change (List.length (lit "***")) with 3 in Hle. lia.
Qed.

(** C6 (counterexample).  ["x***a***b"] sanitizes to ["a***b"], which
    sanitizes to ["b"]. *)
Lemma Sanitize_idempotent_counterexample :
  Sanitize (lit "x***a***b") = Ok (lit "a***b") /\
  rbind (Sanitize (lit "x***a***b")) Sanitize = Ok (lit "b") /\
  rbind (Sanitize (lit "x***a***b")) Sanitize <> Sanitize (lit "x***a***b").
Proof.
  repeat split; try reflexivity. vm_compute. discriminate.
Qed.

(** ** C9: wrapping a message *)

Lemma DisplayVerboseInfo_loop_spec (name info : str) (fuel pos : nat) :
  List.length info - pos < fuel ->
  exists rows,
    DisplayVerboseInfo_loop fuel name info pos = Ok rows /\
    List.concat (fragments rows) = skipn pos info /\
    Forall (fun f => 0 < List.length f <= DATA_INFO_TAG_LEN) (fragments rows) /\
    labels rows = match rows with
                  | [] => []
                  | _ :: rows' =>
                      (if pos =? 0 then name else lit "") :: repeat (lit "") (List.length rows')
                  end.
Proof.
  revert pos; induction fuel as [|fuel IH]; intros pos Hf; [lia|].
  cbn [DisplayVerboseInfo_loop]. unfold StdString.size.
  destruct (Nat.ltb_spec pos (List.length info)) as [Hlt|Hge].
  - unfold StdString.substr, StdString.size.
    destruct (Nat.leb_spec pos (List.length info)); [|lia]. cbn [rbind].
    destruct (IH (pos + DATA_INFO_TAG_LEN)) as (rows & Hrows & Hcat & Hlen & Hlab).
    { unfold DATA_INFO_TAG_LEN. lia. }
    rewrite Hrows. cbn [rbind]. eexists. split; [reflexivity|].
    cbn [fragments flat_map app List.concat]. fold (fragments rows). rewrite Hcat.
    split; [|split].
    + rewrite Nat.add_comm, <- skipn_skipn. apply firstn_skipn.
    + constructor; [|assumption]. rewrite length_firstn, length_skipn.
      unfold DATA_INFO_TAG_LEN. lia.
    + cbn [labels flat_map app]. fold (labels rows). rewrite Hlab. f_equal.
      destruct rows as [|row rows']; [reflexivity|].
      replace (pos + DATA_INFO_TAG_LEN =? 0) with false
        by (symmetry; apply Nat.eqb_neq; unfold DATA_INFO_TAG_LEN; lia).
      reflexivity.
  - exists []. split; [reflexivity|]. split; [|split].
    + now rewrite skipn_all2 by lia.
    + constructor.
    + reflexivity.
Qed.

(** [DisplayVerboseInfo] always returns. *)
Lemma DisplayVerboseInfo_total (name info : str) :
  exists rows, DisplayVerboseInfo name info = Ok rows.
Proof.
  destruct (@DisplayVerboseInfo_loop_spec name info (S (StdString.size info)) 0)
    as (rows & H & _); [unfold StdString.size; lia|].
  now exists rows.
Qed.

(** C9.  For every message, [DisplayVerboseInfo] returns, and the
    fragments that it emits, concatenated in order, are the message; each
    is within the room of 45 characters. *)
Theorem DisplayVerboseInfo_round_trip (name info : str) :
  exists rows,
    DisplayVerboseInfo name info = Ok rows /\
    List.concat (fragments rows) = info /\
    Forall (fun f => 0 < List.length f <= 45) (fragments rows).
Proof.
  destruct (@DisplayVerboseInfo_loop_spec name info (S (StdString.size info)) 0)
    as (rows & H & Hcat & Hlen & _); [unfold StdString.size; lia|].
  exists rows. repeat split; assumption.
Qed.

(** ** C1: the overall classification *)

(** A scan whose body either leaves with [r0] or marks the state with
    [s1]: it leaves as soon as one index asks for it, and the mark stays. *)
Lemma for_each_verdict {Ix R S : Type} (iso fail : Ix -> bool) (r0 : R) (s1 : S)
    (body : Ix -> S -> flow R S) (l : list Ix) (s : S) :
  (forall i s, body i s = if iso i then Return r0 else Next (if fail i then s1 else s)) ->
  for_each l body s
  = if existsb iso l then Return r0 else Next (if existsb fail l then s1 else s).
Proof.
  intros Hbody. revert s; induction l as [|i l IH]; intros s; simpl; [reflexivity|].
  rewrite Hbody. destruct (iso i); simpl; [reflexivity|].
  rewrite IH. destruct (existsb iso l); [reflexivity|].
  destruct (fail i), (existsb fail l); reflexivity.
Qed.

Lemma existsb_const_true {A : Type} (l : list A) :
  existsb (fun _ => true) l = negb (List.length l =? 0).
Proof. destruct l; reflexivity. Qed.

Section Classification.

Context {headers : DcgmHeaders}.

Lemma GetFailureResult_errors_eq (cell : dcgmDiagTestResult_v3) (ret : dcgmReturn_t) :
  GetFailureResult_errors cell ret
  = if carries_isolateb cell then Return DCGM_ST_NVVS_ISOLATE_ERROR
    else Next (if 0 <? DCGM_MAX_ERRORS then DCGM_ST_NVVS_ERROR else ret).
Proof.
  unfold GetFailureResult_errors, for_upto, carries_isolateb.
  rewrite (@for_each_verdict _ _ _
             (fun k => is_ISOLATE (dcgmErrorGetPriorityByCode (code (error cell k))))
             (fun _ => true) DCGM_ST_NVVS_ISOLATE_ERROR DCGM_ST_NVVS_ERROR)
    by reflexivity.
  rewrite existsb_const_true, length_seq.
  destruct DCGM_MAX_ERRORS; reflexivity.
Qed.

Lemma GetFailureResult_cell_eq (cell : dcgmDiagTestResult_v3) (ret : dcgmReturn_t) :
  GetFailureResult_cell cell ret
  = if cell_isolate cell then Return DCGM_ST_NVVS_ISOLATE_ERROR
    else Next (if cell_fails cell then DCGM_ST_NVVS_ERROR else ret).
Proof.
  unfold GetFailureResult_cell, cell_isolate, cell_fails, failingb.
  destruct (dcgmDiagResult_eqb (status cell) DCGM_DIAG_RESULT_FAIL); simpl; [|reflexivity].
  apply GetFailureResult_errors_eq.
Qed.

Lemma any_cell_iff (p : dcgmDiagTestResult_v3 -> bool) (r : dcgmDiagResponse_t) :
  any_cell p r = true <-> exists cell, scanned r cell /\ p cell = true.
Proof.
  unfold any_cell, scanned. rewrite orb_true_iff, !existsb_exists. split.
  - intros [(i & Hi & Hp) | (i & Hi & Hex)].
    + apply in_seq in Hi. exists (levelOneResults r i). split; [left; exists i; split; [lia | reflexivity] | assumption].
    + apply existsb_exists in Hex as (j & Hj & Hp). apply in_seq in Hi, Hj.
      exists (results (perGpuResponses r i) j). split; [|assumption].
      right. exists i, j. repeat split; lia.
  - intros (cell & [(i & Hi & ->) | (i & j & Hi & Hj & ->)] & Hp).
    + left. exists i. split; [apply in_seq; lia | assumption].
    + right. exists i. split; [apply in_seq; lia|].
      apply existsb_exists. exists j. split; [apply in_seq; lia | assumption].
Qed.

(** [GetFailureResult] as a decision on the two tests. *)
Lemma GetFailureResult_eq (r : dcgmDiagResponse_t) :
  GetFailureResult r
  = if any_cell cell_isolate r then DCGM_ST_NVVS_ISOLATE_ERROR
    else if any_cell cell_fails r then DCGM_ST_NVVS_ERROR
    else DCGM_ST_OK.
Proof.
  unfold GetFailureResult, for_upto, any_cell.
  rewrite (@for_each_verdict _ _ _
             (fun i => cell_isolate (levelOneResults r i))
             (fun i => cell_fails (levelOneResults r i))
             DCGM_ST_NVVS_ISOLATE_ERROR DCGM_ST_NVVS_ERROR)
    by (intros; apply GetFailureResult_cell_eq).
  destruct (existsb (fun i => cell_isolate (levelOneResults r i)) _); [reflexivity|].
  cbn [orb].
  rewrite (@for_each_verdict _ _ _
             (fun i => existsb (fun j => cell_isolate (results (perGpuResponses r i) j))
                         (seq 0 DCGM_PER_GPU_TEST_COUNT_V8))
             (fun i => existsb (fun j => cell_fails (results (perGpuResponses r i) j))
                         (seq 0 DCGM_PER_GPU_TEST_COUNT_V8))
             DCGM_ST_NVVS_ISOLATE_ERROR DCGM_ST_NVVS_ERROR).
  - destruct (existsb _ (seq 0 DCGM_MAX_NUM_DEVICES)); [reflexivity|].
    destruct (existsb (fun i => cell_fails (levelOneResults r i)) _); cbn [orb].
    + destruct (existsb _ (seq 0 DCGM_MAX_NUM_DEVICES)); reflexivity.
    + destruct (existsb _ (seq 0 DCGM_MAX_NUM_DEVICES)); reflexivity.
  - intros i s.
    apply (@for_each_verdict _ _ _
             (fun j => cell_isolate (results (perGpuResponses r i) j))
             (fun j => cell_fails (results (perGpuResponses r i) j))).
    intros; apply GetFailureResult_cell_eq.
Qed.

Lemma failingb_iff (cell : dcgmDiagTestResult_v3) : failingb cell = true <-> failing cell.
Proof.
  unfold failingb, failing. destruct (status cell); simpl; split; congruence.
Qed.

Lemma carries_isolateb_iff (cell : dcgmDiagTestResult_v3) :
  carries_isolateb cell = true <-> carries_isolate cell.
Proof.
  unfold carries_isolateb, carries_isolate. rewrite existsb_exists. split.
  - intros (k & Hk & Hp). apply in_seq in Hk. exists k. split; [lia|].
    destruct (dcgmErrorGetPriorityByCode (code (error cell k))); [reflexivity | discriminate].
  - intros (k & Hk & Hp). exists k. split; [apply in_seq; lia | now rewrite Hp].
Qed.

(** C1.  If a scanned cell with failing status carries an error of the
    isolate tier, the outcome is the isolate error, wherever the cell sits
    and whatever else failed; if some scanned cell fails and no failing
    cell carries an isolate error, the outcome is the generic diagnostic
    error (a cell has at least one error slot); with no failing cell the
    outcome is OK. *)
Theorem GetFailureResult_classification (diagResult : dcgmDiagResponse_t) :
  ((exists cell, scanned diagResult cell /\ failing cell /\ carries_isolate cell) ->
   GetFailureResult diagResult = DCGM_ST_NVVS_ISOLATE_ERROR)
  /\ (0 < DCGM_MAX_ERRORS ->
      (exists cell, scanned diagResult cell /\ failing cell) ->
      (forall cell, scanned diagResult cell -> failing cell -> ~ carries_isolate cell) ->
      GetFailureResult diagResult = DCGM_ST_NVVS_ERROR)
  /\ ((forall cell, scanned diagResult cell -> ~ failing cell) ->
      GetFailureResult diagResult = DCGM_ST_OK).
Proof.
  rewrite GetFailureResult_eq. split; [|split].
  - intros (cell & Hs & Hf & Hi).
    replace (any_cell cell_isolate diagResult) with true; [reflexivity|].
    symmetry. apply any_cell_iff. exists cell. split; [assumption|].
    unfold cell_isolate. apply andb_true_iff. split.
    + now apply failingb_iff.
    + now apply carries_isolateb_iff.
  - intros Hcap (cell & Hs & Hf) Hnone.
    destruct (any_cell cell_isolate diagResult) eqn:E.
    + apply any_cell_iff in E as (c & Hsc & Hc). unfold cell_isolate in Hc.
      apply andb_true_iff in Hc as [Hcf Hci].
      apply failingb_iff in Hcf. apply carries_isolateb_iff in Hci.
      now elim (Hnone c Hsc Hcf).
    + replace (any_cell cell_fails diagResult) with true; [reflexivity|].
      symmetry. apply any_cell_iff. exists cell. split; [assumption|].
      unfold cell_fails. apply andb_true_iff. split.
      * now apply failingb_iff.
      * now apply Nat.ltb_lt.
  - intros Hnone.
    destruct (any_cell cell_isolate diagResult) eqn:E.
    + apply any_cell_iff in E as (c & Hsc & Hc). unfold cell_isolate in Hc.
      apply andb_true_iff in Hc as [Hcf _]. apply failingb_iff in Hcf.
      now elim (Hnone c Hsc).
    + destruct (any_cell cell_fails diagResult) eqn:E'; [|reflexivity].
      apply any_cell_iff in E' as (c & Hsc & Hc). unfold cell_fails in Hc.
      apply andb_true_iff in Hc as [Hcf _]. apply failingb_iff in Hcf.
      now elim (Hnone c Hsc).
Qed.

End Classification.

Lemma two_failures_scanned (c : nat) (cell : dcgmDiagTestResult_v3) :
  scanned (headers := sample_headers) (two_failures c) cell ->
  cell = failed_cell 7 \/ cell = failed_cell c \/ cell = plain_cell DCGM_DIAG_RESULT_PASS
  \/ cell = plain_cell DCGM_DIAG_RESULT_NOT_RUN.
Proof.
  intros [(i & Hi & _) | (i & j & _ & _ & ->)]; [simpl in Hi; lia|].
  cbn [two_failures sample_response perGpuResponses].
  destruct (i <? 2); cbn [results]; [|now right; right; right].
  destruct ((i =? 0) && (j =? 1)); [now left|].
  destruct ((i =? 1) && (j =? 2)); [now right; left | now right; right; left].
Qed.

Lemma failed_cell_not_isolate (c : nat) :
  c <> 95 -> ~ carries_isolate (headers := sample_headers) (failed_cell c).
Proof.
  intros Hc (k & _ & Hk). cbn in Hk. destruct (k =? 0); cbn in Hk.
  - apply Nat.eqb_neq in Hc. rewrite Hc in Hk. discriminate.
  - discriminate.
Qed.

Lemma GetFailureResult_classification_witness :
  GetFailureResult (headers := sample_headers) (two_failures 95) = DCGM_ST_NVVS_ISOLATE_ERROR
  /\ GetFailureResult (headers := sample_headers) (two_failures 7) = DCGM_ST_NVVS_ERROR
  /\ GetFailureResult (headers := sample_headers) all_pass = DCGM_ST_OK.
Proof.
  split; [|split].
  - apply (GetFailureResult_classification (headers := sample_headers) (two_failures 95)).
    exists (failed_cell 95). split; [|split].
    + right. exists 1, 2. cbn. repeat split; lia.
    + reflexivity.
    + exists 0. split; [cbn; lia | reflexivity].
  - apply (GetFailureResult_classification (headers := sample_headers) (two_failures 7)).
    + cbn. lia.
    + exists (failed_cell 7). split; [|reflexivity].
      right. exists 0, 1. cbn. repeat split; lia.
    + intros cell Hs Hf.
      destruct (two_failures_scanned Hs) as [-> | [-> | [-> | ->]]];
        try discriminate Hf; apply failed_cell_not_isolate; lia.
  - apply (GetFailureResult_classification (headers := sample_headers) all_pass).
    intros cell [(i & Hi & _) | (i & j & _ & _ & ->)]; [simpl in Hi; lia|].
    unfold failing. cbn [all_pass sample_response perGpuResponses].
    destruct (i <? 2); cbn; discriminate.
Defined.

(** ** C3: the derived GPU set *)

Section GpuSet.

Context {headers : DcgmHeaders}.

Lemma someTestRan_eq (slot : dcgmDiagResponsePerGpu_v5) :
  someTestRan slot
  = existsb (fun j => negb (dcgmDiagResult_eqb (status (results slot j))
                              DCGM_DIAG_RESULT_NOT_RUN))
      (seq 0 DCGM_PER_GPU_TEST_COUNT_V8).
Proof.
  unfold someTestRan, for_upto.
  rewrite (@for_each_verdict _ _ _
             (fun j => negb (dcgmDiagResult_eqb (status (results slot j))
                               DCGM_DIAG_RESULT_NOT_RUN))
             (fun _ => false) true tt).
  - now destruct (existsb _ _).
  - intros j []. reflexivity.
Qed.

Lemma someTestRan_iff (slot : dcgmDiagResponsePerGpu_v5) :
  someTestRan slot = true <->
  exists j, j < DCGM_PER_GPU_TEST_COUNT_V8 /\
            status (results slot j) <> DCGM_DIAG_RESULT_NOT_RUN.
Proof.
  rewrite someTestRan_eq, existsb_exists. split.
  - intros (j & Hj & Hp). apply in_seq in Hj. exists j. split; [lia|].
    intros E. rewrite E in Hp. discriminate.
  - intros (j & Hj & Hp). exists j. split; [apply in_seq; lia|].
    destruct (status (results slot j)); try reflexivity. now elim Hp.
Qed.

Lemma participated_iff (r : dcgmDiagResponse_t) (i : nat) :
  participated r i = true <->
  gpuId (perGpuResponses r i) <> DCGM_MAX_NUM_DEVICES /\
  exists j, j < DCGM_PER_GPU_TEST_COUNT_V8 /\
            status (results (perGpuResponses r i) j) <> DCGM_DIAG_RESULT_NOT_RUN.
Proof.
  unfold participated, overwritten.
  rewrite andb_true_iff, negb_true_iff, Nat.eqb_neq, someTestRan_iff. reflexivity.
Qed.

(** The scan over the slots, started with [gpuVec] already collected. *)
Lemma PopulateGpuList_scan (r : dcgmDiagResponse_t) (indices gpuVec : list nat) :
  match for_each indices
          (fun i gpuVec =>
             if List.length gpuVec <? gpuCount r then
               if negb (gpuId (perGpuResponses r i) =? DCGM_MAX_NUM_DEVICES)
               then
                 if someTestRan (perGpuResponses r i)
                 then Next (gpuVec ++ [i])
                 else Next gpuVec
               else Next gpuVec
             else Return (S := list nat) gpuVec)
          gpuVec with
  | Return v => v
  | Next v => v
  end
  = gpuVec ++ firstn (gpuCount r - List.length gpuVec) (filter (participated r) indices).
Proof.
  revert gpuVec; induction indices as [|i indices IH]; intros gpuVec.
  - simpl. now rewrite firstn_nil, app_nil_r.
  - cbn [for_each filter]. unfold participated at 1, overwritten.
    destruct (Nat.ltb_spec (List.length gpuVec) (gpuCount r)) as [Hlt|Hge].
    + destruct (negb (gpuId (perGpuResponses r i) =? DCGM_MAX_NUM_DEVICES)); cbn [andb].
      * destruct (someTestRan (perGpuResponses r i)).
        -- rewrite IH, length_app, <- app_assoc. cbn [List.length app]. f_equal.
           replace (gpuCount r - List.length gpuVec)
             with (S (gpuCount r - (List.length gpuVec + 1))) by lia.
           reflexivity.
        -- apply IH.
      * apply IH.
    + replace (gpuCount r - List.length gpuVec) with 0 by lia.
      now rewrite firstn_O, app_nil_r.
Qed.

Lemma PopulateGpuList_eq (r : dcgmDiagResponse_t) :
  PopulateGpuList r []
  = firstn (gpuCount r) (filter (participated r) (seq 0 DCGM_MAX_NUM_DEVICES)).
Proof.
  unfold PopulateGpuList, for_upto. rewrite PopulateGpuList_scan.
  cbn [List.length app]. now rewrite Nat.sub_0_r.
Qed.

(** C3 (amended).  With an empty GPU filter, the derived GPU set is made of
    the first slots, in slot order and at most [gpuCount] of them, whose
    sentinel id was overwritten AND in which at least one test has a status
    other than not-run: every selected index is such a slot, there are at
    most [gpuCount] of them, and when no more than [gpuCount] slots
    qualify every one of them is selected. *)
Theorem PopulateGpuList_selects_participants (d : Diag) (r : dcgmDiagResponse_t) :
  gpuList (m_drd d) = [] ->
  derive_gpuVec d r = PopulateGpuList r []
  /\ PopulateGpuList r []
     = firstn (gpuCount r) (filter (participated r) (seq 0 DCGM_MAX_NUM_DEVICES))
  /\ List.length (PopulateGpuList r []) <= gpuCount r
  /\ (forall i, In i (PopulateGpuList r []) ->
        i < DCGM_MAX_NUM_DEVICES /\
        gpuId (perGpuResponses r i) <> DCGM_MAX_NUM_DEVICES /\
        exists j, j < DCGM_PER_GPU_TEST_COUNT_V8 /\
                  status (results (perGpuResponses r i) j) <> DCGM_DIAG_RESULT_NOT_RUN)
  /\ (List.length (filter (participated r) (seq 0 DCGM_MAX_NUM_DEVICES)) <= gpuCount r ->
      forall i, i < DCGM_MAX_NUM_DEVICES ->
        gpuId (perGpuResponses r i) <> DCGM_MAX_NUM_DEVICES ->
        (exists j, j < DCGM_PER_GPU_TEST_COUNT_V8 /\
                   status (results (perGpuResponses r i) j) <> DCGM_DIAG_RESULT_NOT_RUN) ->
        In i (PopulateGpuList r [])).
Proof.
  intros Hfilter. split.
  { unfold derive_gpuVec. now rewrite Hfilter. }
  rewrite PopulateGpuList_eq. split; [reflexivity|]. split; [|split].
  - rewrite length_firstn. lia.
  - intros i Hi.
    assert (Hin : In i (filter (participated r) (seq 0 DCGM_MAX_NUM_DEVICES))).
    { rewrite <- (firstn_skipn (gpuCount r)). apply in_or_app. now left. }
    clear Hi. apply filter_In in Hin as [Hi Hp].
    apply in_seq in Hi. apply participated_iff in Hp as [Hid Hran].
    split; [lia|]. split; assumption.
  - intros Hfew i Hi Hid Hran. rewrite firstn_all2 by assumption.
    apply filter_In. split; [apply in_seq; lia|].
    apply participated_iff. split; assumption.
Qed.

End GpuSet.

Lemma PopulateGpuList_selects_participants_witness :
  derive_gpuVec (headers := sample_headers) (sample_Diag false 1) (one_failure 7) = [0; 1].
Proof.
  destruct (@PopulateGpuList_selects_participants sample_headers
              (sample_Diag false 1) (one_failure 7) eq_refl) as (E1 & E2 & _).
  rewrite E1, E2. reflexivity.
Defined.

(** C3 (counterexample).  One GPU is reported and the id of slot 0 was
    overwritten (it is 0, the sentinel being 32), so the overwritten slots
    are exactly [[0]]; but no test ran in the slot, and the derived set is
    empty. *)
Lemma PopulateGpuList_overwritten_counterexample :
  gpuCount idle_gpu = 1 /\
  gpuList (m_drd (sample_Diag false 1)) = [] /\
  filter (overwritten (headers := sample_headers) idle_gpu)
    (seq 0 (DCGM_MAX_NUM_DEVICES (DcgmHeaders := sample_headers))) = [0] /\
  derive_gpuVec (headers := sample_headers) (sample_Diag false 1) idle_gpu = [] /\
  derive_gpuVec (headers := sample_headers) (sample_Diag false 1) idle_gpu
  <> filter (overwritten (headers := sample_headers) idle_gpu)
       (seq 0 (DCGM_MAX_NUM_DEVICES (DcgmHeaders := sample_headers))).
Proof. repeat split. vm_compute. discriminate. Qed.

(** ** C4: the four buckets *)

Section Buckets.

Context {headers : DcgmHeaders}.

Lemma bucket_fold (t : nat) (R : array dcgmDiagResponsePerGpu_v5)
    (l : list nat) (b : buckets) :
  let sel st :=
    map (fun g => gpuId (R g))
      (filter (fun g => dcgmDiagResult_eqb (status (results (R g) t)) st) l) in
  let b' := fold_left (bucket_one t R) l b in
  passed b' = passed b ++ sel DCGM_DIAG_RESULT_PASS /\
  failed b' = failed b ++ sel DCGM_DIAG_RESULT_FAIL /\
  warned b' = warned b ++ sel DCGM_DIAG_RESULT_WARN /\
  skipped b' = skipped b ++ sel DCGM_DIAG_RESULT_SKIP.
Proof.
  revert b; induction l as [|g l IH]; intros b; cbn zeta.
  - simpl. now rewrite !app_nil_r.
  - cbn [fold_left filter]. specialize (IH (bucket_one t R b g)). cbn zeta in IH.
    destruct IH as (Hp & Hf & Hw & Hs). rewrite Hp, Hf, Hw, Hs.
    unfold bucket_one.
    destruct (status (results (R g) t)); cbn [dcgmDiagResult_eqb map passed failed warned skipped];
      rewrite <- ?app_assoc; repeat split; reflexivity.
Qed.

Lemma status_classes (f : nat -> dcgmDiagResult_t) (l : list nat) :
  List.length (filter (fun g => dcgmDiagResult_eqb (f g) DCGM_DIAG_RESULT_PASS) l)
  + List.length (filter (fun g => dcgmDiagResult_eqb (f g) DCGM_DIAG_RESULT_FAIL) l)
  + List.length (filter (fun g => dcgmDiagResult_eqb (f g) DCGM_DIAG_RESULT_WARN) l)
  + List.length (filter (fun g => dcgmDiagResult_eqb (f g) DCGM_DIAG_RESULT_SKIP) l)
  + List.length (filter (fun g => dcgmDiagResult_eqb (f g) DCGM_DIAG_RESULT_NOT_RUN) l)
  = List.length l.
Proof.
  induction l as [|g l IH]; [reflexivity|].
  cbn [filter]. destruct (f g); cbn [dcgmDiagResult_eqb List.length]; lia.
Qed.

(** The four lists that the loop leaves. *)
Lemma HelperDisplayGpuResults_buckets_eq (testIndex : nat)
    (diagResults : array dcgmDiagResponsePerGpu_v5) (gpuIndices : list nat) :
  HelperDisplayGpuResults_buckets testIndex diagResults gpuIndices
  = {| passed := bucket_of DCGM_DIAG_RESULT_PASS testIndex diagResults gpuIndices;
       failed := bucket_of DCGM_DIAG_RESULT_FAIL testIndex diagResults gpuIndices;
       skipped := bucket_of DCGM_DIAG_RESULT_SKIP testIndex diagResults gpuIndices;
       warned := bucket_of DCGM_DIAG_RESULT_WARN testIndex diagResults gpuIndices |}.
Proof.
  unfold HelperDisplayGpuResults_buckets.
  destruct (bucket_fold (effective_testIndex testIndex) diagResults gpuIndices no_buckets)
    as (Hp & Hf & Hw & Hs).
  cbn [no_buckets passed failed warned skipped app] in Hp, Hf, Hw, Hs.
  destruct (fold_left _ gpuIndices no_buckets) as [p f s w].
  cbn [passed failed warned skipped] in Hp, Hf, Hw, Hs. subst. reflexivity.
Qed.

(** C4 (amended).  Each bucket holds, in input order, the slot ids of the
    input GPU indices whose cell for the test has the status of the
    bucket; an index whose cell is not-run goes to no bucket.  So every
    input index is counted in exactly one of five classes: the four
    buckets and the indices left out because their cell did not run. *)
Theorem HelperDisplayGpuResults_buckets_by_status (testIndex : nat)
    (diagResults : array dcgmDiagResponsePerGpu_v5) (gpuIndices : list nat) :
  let b := HelperDisplayGpuResults_buckets testIndex diagResults gpuIndices in
  passed b = bucket_of DCGM_DIAG_RESULT_PASS testIndex diagResults gpuIndices /\
  failed b = bucket_of DCGM_DIAG_RESULT_FAIL testIndex diagResults gpuIndices /\
  warned b = bucket_of DCGM_DIAG_RESULT_WARN testIndex diagResults gpuIndices /\
  skipped b = bucket_of DCGM_DIAG_RESULT_SKIP testIndex diagResults gpuIndices /\
  List.length (passed b) + List.length (failed b) + List.length (warned b)
  + List.length (skipped b)
  + List.length (bucket_of DCGM_DIAG_RESULT_NOT_RUN testIndex diagResults gpuIndices)
  = List.length gpuIndices.
Proof.
  cbn zeta. rewrite HelperDisplayGpuResults_buckets_eq.
  cbn [passed failed warned skipped].
  repeat (split; [reflexivity|]).
  unfold bucket_of, bucket_status. rewrite !length_map.
  apply (status_classes
           (fun g => status (results (diagResults g) (effective_testIndex testIndex)))).
Qed.

End Buckets.

(** C4 (counterexample).  GPU 0 is in the input set and its cell for the
    PCIe test did not run: the four buckets are empty, GPU 0 is in none. *)
Lemma HelperDisplayGpuResults_buckets_counterexample :
  let b := HelperDisplayGpuResults_buckets (headers := sample_headers)
             (DCGM_PCI_INDEX (DcgmHeaders := sample_headers))
             (perGpuResponses idle_gpu) [0] in
  gpuId (perGpuResponses idle_gpu 0) = 0 /\
  b = no_buckets /\
  ~ In 0 (passed b ++ failed b ++ warned b ++ skipped b).
Proof.
  cbn zeta. split; [reflexivity|]. split; [reflexivity|]. vm_compute. tauto.
Qed.

(** ** Rows and documents: auxiliary facts *)

Lemma emit_all_cons_ok (a : list out_item) (parts : list (res (list out_item)))
    (rest : list out_item) :
  emit_all parts = Ok rest -> emit_all (Ok a :: parts) = Ok (a ++ rest).
Proof. intros H. cbn [emit_all]. unfold emit_then. cbn [rbind]. now rewrite H. Qed.

Lemma emit_all_ok (parts : list (res (list out_item))) :
  Forall (fun p => exists rows, p = Ok rows) parts ->
  exists rows, emit_all parts = Ok rows.
Proof.
  induction 1 as [|p parts [a ->] _ [rest IH]].
  - now exists [].
  - exists (a ++ rest). now apply emit_all_cons_ok.
Qed.

Lemma emit_then_ok (p q : res (list out_item)) :
  (exists a, p = Ok a) -> (exists b, q = Ok b) -> exists rows, emit_then p q = Ok rows.
Proof. intros [a ->] [b ->]. now exists (a ++ b). Qed.

Lemma Sanitize_total (s : str) : exists out, Sanitize s = Ok out.
Proof. eexists. apply Sanitize_eq. Qed.

Lemma Sanitized_display_total (name m : str) :
  exists rows, (text <- Sanitize m ;; DisplayVerboseInfo name text)%res = Ok rows.
Proof.
  destruct (Sanitize_total m) as [out ->]. cbn [rbind]. apply DisplayVerboseInfo_total.
Qed.

Module JsonFacts.

Import JsonValue.

Lemma jkey_eqb_refl (k : jkey) : jkey_eqb k k = true.
Proof.
  destruct k as [k|s]; simpl.
  - apply Nat.eqb_refl.
  - unfold str_eqb. destruct (list_eq_dec ascii_dec s s); congruence.
Qed.

Lemma member_put_same (k : jkey) (x : Json) (m : list (jkey * Json)) :
  member k (put_member k x m) = x.
Proof.
  induction m as [|[k' v] m IH]; simpl.
  - now rewrite jkey_eqb_refl.
  - destruct (jkey_eqb k k') eqn:E; simpl; now rewrite E.
Qed.

Lemma member_put_other (k k' : jkey) (x : Json) (m : list (jkey * Json)) :
  jkey_eqb k k' = false ->
  (forall k'', jkey_eqb k' k'' = true -> jkey_eqb k k'' = false) ->
  member k (put_member k' x m) = member k m.
Proof.
  intros Hne Htrans. induction m as [|[k'' v] m IH]; simpl.
  - now rewrite Hne.
  - destruct (jkey_eqb k' k'') eqn:E; simpl.
    + now rewrite (Htrans k'' E).
    + now rewrite IH.
Qed.

Lemma macro_other (k k' : nvvs_key) :
  nvvs_key_index k <> nvvs_key_index k' ->
  jkey_eqb (Macro k) (Macro k') = false /\
  forall k'', jkey_eqb (Macro k') k'' = true -> jkey_eqb (Macro k) k'' = false.
Proof.
  intros Hne. split; [now apply Nat.eqb_neq|].
  intros [k''|s]; simpl; [|discriminate].
  intros E. apply Nat.eqb_eq in E. apply Nat.eqb_neq. congruence.
Qed.

Lemma nth_put_same (i : nat) (x : Json) (l : list Json) :
  nth i (put_elem i x l) JNull = x.
Proof.
  revert l; induction i as [|i IH]; intros [|v l]; simpl; auto.
Qed.

(** Reading below a path that was just written reads in what was
    written. *)
Lemma get_set_prefix (p q : list selector) (x v : Json) :
  get (p ++ q) (set p x v) = get q x.
Proof.
  revert v; induction p as [|[k|s|i] p IH]; intros v; simpl.
  - reflexivity.
  - now rewrite member_put_same.
  - now rewrite member_put_same.
  - now rewrite nth_put_same.
Qed.

(** Writing under one member leaves the other members as they were. *)
Lemma get_set_other (k k' : nvvs_key) (q p : list selector) (x v : Json) :
  nvvs_key_index k <> nvvs_key_index k' ->
  get (K k :: q) (set (K k' :: p) x v) = get (K k :: q) v.
Proof.
  intros Hne. destruct (macro_other k k' Hne) as [H1 H2]. simpl.
  now rewrite member_put_other.
Qed.

End JsonFacts.


(** *** The level-one tests in the structured report *)

Lemma nth_put_other (i j : nat) (x : Json) (l : list Json) :
  i <> j -> nth i (JsonValue.put_elem j x l) JNull = nth i l JNull.
Proof.
  revert i l; induction j as [|j IH]; intros [|i] [|v l] Hne; simpl; try lia; auto;
    try (now destruct i); try (rewrite IH by lia; now destruct i); apply IH; lia.
Qed.

(** Writing an element of the array of tests leaves the other elements as
    they were. *)
Lemma get_test_other (i j : nat) (q p : list selector) (x v : Json) :
  i <> j ->
  JsonValue.get (K NVVS_TESTS :: At i :: q) (JsonValue.set (K NVVS_TESTS :: At j :: p) x v)
  = JsonValue.get (K NVVS_TESTS :: At i :: q) v.
Proof.
  intros Hne.
  cbn [JsonValue.get JsonValue.set JsonValue.members_of].
  rewrite JsonFacts.member_put_same. cbn [JsonValue.elems_of].
  now rewrite nth_put_other.
Qed.

Section BasicTests.

Context {headers : DcgmHeaders}.

(** The entries written after a test do not touch the entry of the test:
    their positions are beyond it. *)
Lemma later_turns_keep (r : dcgmDiagResponse_t) (idx : nat) (q : list selector)
    (m a adjustment : nat) (category : Json) :
  idx < a - adjustment -> adjustment <= 1 ->
  JsonValue.get (K NVVS_TESTS :: At idx :: q)
    (fst (fold_left (HelperJsonAddBasicTests_turn r) (seq a m) (category, adjustment)))
  = JsonValue.get (K NVVS_TESTS :: At idx :: q) category.
Proof.
  revert a adjustment category; induction m as [|m IH]; intros a adjustment category Hidx Hadj;
    [reflexivity|].
  cbn [seq fold_left]. unfold HelperJsonAddBasicTests_turn at 2.
  destruct ((a =? DCGM_SWTEST_CUDA_RUNTIME_LIBRARY) && _).
  - rewrite IH; [reflexivity | lia | lia].
  - rewrite IH; [| lia | lia].
    rewrite get_test_other by lia. apply get_test_other. lia.
Qed.

Lemma HelperJsonAddBasicTests_turn_adjustment (r : dcgmDiagResponse_t)
    (l : list nat) (category : Json) (adjustment : nat) :
  adjustment <= 1 ->
  snd (fold_left (HelperJsonAddBasicTests_turn r) l (category, adjustment)) <= 1.
Proof.
  revert category adjustment; induction l as [|t l IH]; intros category adjustment H;
    [exact H|].
  cbn [fold_left]. unfold HelperJsonAddBasicTests_turn at 2.
  destruct ((t =? DCGM_SWTEST_CUDA_RUNTIME_LIBRARY) && _); apply IH; lia.
Qed.

(** An adjustment of 1 is taken at a test index, so the indices after it
    are positive. *)
Lemma HelperJsonAddBasicTests_turn_positive (r : dcgmDiagResponse_t)
    (n : nat) (category : Json) :
  snd (fold_left (HelperJsonAddBasicTests_turn r) (seq 0 n) (category, 0)) <= n.
Proof.
  induction n as [|n IH]; [cbn; lia|].
  rewrite seq_S, fold_left_app. cbn [Nat.add fold_left].
  destruct (fold_left _ (seq 0 n) (category, 0)) as [c adj]. cbn [snd] in IH.
  unfold HelperJsonAddBasicTests_turn.
  destruct ((n =? DCGM_SWTEST_CUDA_RUNTIME_LIBRARY) && _); cbn [snd]; lia.
Qed.

(** What the document holds for test [t] is what the turn of [t] wrote. *)
Lemma HelperJsonAddBasicTests_entry (output : Json) (categoryIndex : nat)
    (r : dcgmDiagResponse_t) (t : nat) :
  t < levelOneTestCount r ->
  exists category adjustment,
    forall q,
      JsonValue.get
        ([K NVVS_NAME; K NVVS_HEADERS; At categoryIndex]
           ++ K NVVS_TESTS :: At (t - adjustment) :: q)
        (fst (HelperJsonAddBasicTests output categoryIndex r))
      = JsonValue.get (K NVVS_TESTS :: At (t - adjustment) :: q)
          (fst (HelperJsonAddBasicTests_turn r (category, adjustment) t))
      \/ ((t =? DCGM_SWTEST_CUDA_RUNTIME_LIBRARY)
          && dcgmDiagResult_eqb (status (levelOneResults r t)) DCGM_DIAG_RESULT_NOT_RUN
          = true).
Proof.
  intros Ht. unfold HelperJsonAddBasicTests. cbn zeta.
  set (category0 := JsonValue.set [K NVVS_HEADER] (JStr DISPLAY_DEPLOYMENT) JNull).
  replace (seq 0 (levelOneTestCount r))
    with (seq 0 t ++ t :: seq (S t) (levelOneTestCount r - S t)).
  2:{ replace (levelOneTestCount r) with (t + S (levelOneTestCount r - S t)) at 2 by lia.
      rewrite seq_app. reflexivity. }
  rewrite fold_left_app. cbn [fold_left].
  pose proof (HelperJsonAddBasicTests_turn_positive r t category0) as Hpos.
  pose proof (@HelperJsonAddBasicTests_turn_adjustment r (seq 0 t) category0 0 (le_S _ _ (le_n 0)))
    as Hadj.
  destruct (fold_left _ (seq 0 t) (category0, 0)) as [category adjustment].
  cbn [snd] in Hpos, Hadj.
  exists category, adjustment. intros q.
  destruct ((t =? DCGM_SWTEST_CUDA_RUNTIME_LIBRARY)
            && dcgmDiagResult_eqb (status (levelOneResults r t)) DCGM_DIAG_RESULT_NOT_RUN)
    eqn:Hkept; [now right | left].
  assert (Hsnd : snd (HelperJsonAddBasicTests_turn r (category, adjustment) t) = adjustment).
  { unfold HelperJsonAddBasicTests_turn. now rewrite Hkept. }
  destruct (HelperJsonAddBasicTests_turn r (category, adjustment) t) as [category1 adj1].
  cbn [snd fst] in Hsnd |- *. subst adj1.
  pose proof (@later_turns_keep r (t - adjustment) q (levelOneTestCount r - S t) (S t)
                adjustment category1) as Hlater.
  destruct (fold_left _ (seq (S t) _) (category1, adjustment)) as [category2 adj2].
  cbn [fst] in Hlater |- *.
  rewrite JsonFacts.get_set_prefix. apply Hlater; lia.
Qed.

(** Every level-one test that the loop does not skip has an entry in the
    Deployment category, under its name, whose status is named by
    [HelperDisplayDiagResult]. *)
Lemma HelperJsonAddBasicTests_status (output : Json) (categoryIndex : nat)
    (r : dcgmDiagResponse_t) (t : nat) :
  t < levelOneTestCount r ->
  (t =? DCGM_SWTEST_CUDA_RUNTIME_LIBRARY)
  && dcgmDiagResult_eqb (status (levelOneResults r t)) DCGM_DIAG_RESULT_NOT_RUN = false ->
  exists idx,
    JsonValue.get
      [K NVVS_NAME; K NVVS_HEADERS; At categoryIndex; K NVVS_TESTS; At idx; K NVVS_TEST_NAME]
      (fst (HelperJsonAddBasicTests output categoryIndex r))
    = JStr (levelOneTests t) /\
    JsonValue.get
      [K NVVS_NAME; K NVVS_HEADERS; At categoryIndex; K NVVS_TESTS; At idx;
       K NVVS_RESULTS; At 0; K NVVS_STATUS]
      (fst (HelperJsonAddBasicTests output categoryIndex r))
    = JStr (HelperDisplayDiagResult (status (levelOneResults r t))).
Proof.
  intros Ht Hkept.
  destruct (@HelperJsonAddBasicTests_entry output categoryIndex r t Ht)
    as (category & adjustment & Hentry).
  exists (t - adjustment). split.
  - destruct (Hentry [K NVVS_TEST_NAME]) as [E | E]; [|congruence].
    cbn [app] in E. rewrite E. clear E Hentry.
    unfold HelperJsonAddBasicTests_turn. rewrite Hkept. cbn [fst].
    cbn [JsonValue.get JsonValue.set JsonValue.members_of JsonValue.elems_of].
    rewrite !JsonFacts.member_put_same. cbn [JsonValue.elems_of].
    rewrite !JsonFacts.nth_put_same. cbn [JsonValue.members_of].
    rewrite JsonFacts.member_put_other; [| reflexivity | ].
    + now rewrite JsonFacts.member_put_same.
    + intros [k|s]; cbn; [|discriminate]. destruct k; cbn; congruence.
  - destruct (Hentry [K NVVS_RESULTS; At 0; K NVVS_STATUS]) as [E | E]; [|congruence].
    cbn [app] in E. rewrite E. clear E Hentry.
    unfold HelperJsonAddBasicTests_turn. rewrite Hkept. cbn [fst].
    change [K NVVS_TESTS; At (t - adjustment); K NVVS_RESULTS; At 0; K NVVS_STATUS]
      with ([K NVVS_TESTS; At (t - adjustment); K NVVS_RESULTS; At 0] ++ [K NVVS_STATUS]).
    rewrite JsonFacts.get_set_prefix.
    match goal with
    | |- JsonValue.get _ (fold_left ?f0 _ _) = _ =>
        assert (Hfold : forall js entry,
                   JsonValue.get [K NVVS_STATUS] (fold_left f0 js entry)
                   = JsonValue.get [K NVVS_STATUS] entry)
    end.
    { intros js; induction js as [|j js IH]; intros entry; [reflexivity|].
      cbn [fold_left]. rewrite IH. destruct (negb _); [|reflexivity].
      rewrite JsonFacts.get_set_other by (cbn; lia).
      apply JsonFacts.get_set_other. cbn. lia. }
    rewrite Hfold. change [K NVVS_STATUS] with ([K NVVS_STATUS] ++ []).
    now rewrite JsonFacts.get_set_prefix.
Qed.

End BasicTests.

(** ** C10: how a status is displayed *)

Section StatusNames.

Context {headers : DcgmHeaders}.

Lemma HelperDisplayDetails_total (d : Diag) (forceVerbose : bool)
    (gpuIndices : list nat) (testIndex : nat)
    (diagResults : array dcgmDiagResponsePerGpu_v5) :
  exists rows,
    HelperDisplayDetails d forceVerbose gpuIndices testIndex diagResults = Ok rows.
Proof.
  unfold HelperDisplayDetails. apply emit_then_ok.
  - destruct (if negb _ then true else forceVerbose); [|now exists []].
    apply emit_all_ok. apply Forall_forall. intros p Hp.
    apply in_map_iff in Hp as (g & <- & _).
    apply emit_all_ok. apply Forall_forall. intros p Hp.
    apply in_map_iff in Hp as (j & <- & _).
    destruct (negb _); [apply Sanitized_display_total | now exists []].
  - destruct (if negb _ then true else forceVerbose); [|now exists []].
    apply emit_all_ok. apply Forall_forall. intros p Hp.
    apply in_map_iff in Hp as (g & <- & _).
    destruct (negb _); [apply Sanitized_display_total | now exists []].
Qed.

Lemma bucket_of_other (st st' : dcgmDiagResult_t) (testIndex : nat)
    (diagResults : array dcgmDiagResponsePerGpu_v5) (gpuIndices : list nat) :
  (forall g, In g gpuIndices -> bucket_status testIndex diagResults g = st) ->
  dcgmDiagResult_eqb st st' = false ->
  bucket_of st' testIndex diagResults gpuIndices = [].
Proof.
  intros Hall Hne. unfold bucket_of.
  induction gpuIndices as [|g l IH]; [reflexivity|].
  cbn [filter]. rewrite (Hall g (or_introl eq_refl)), Hne.
  apply IH. intros g' Hg'. apply Hall. now right.
Qed.

Lemma bucket_of_same (st : dcgmDiagResult_t) (testIndex : nat)
    (diagResults : array dcgmDiagResponsePerGpu_v5) (gpuIndices : list nat) :
  (forall g, In g gpuIndices -> bucket_status testIndex diagResults g = st) ->
  List.length (bucket_of st testIndex diagResults gpuIndices) = List.length gpuIndices.
Proof.
  intros Hall. unfold bucket_of. rewrite length_map.
  induction gpuIndices as [|g l IH]; [reflexivity|].
  cbn [filter]. rewrite (Hall g (or_introl eq_refl)).
  replace (dcgmDiagResult_eqb st st) with true by now destruct st.
  cbn [List.length]. f_equal. apply IH. intros g' Hg'. apply Hall. now right.
Qed.

Lemma HelperJsonAddResult_status (gpuResult : dcgmDiagResponsePerGpu_v5)
    (testEntry : Json) (gpuIndex testIndex i : nat) :
  status (results gpuResult testIndex) <> DCGM_DIAG_RESULT_NOT_RUN ->
  exists testEntry',
    HelperJsonAddResult gpuResult testEntry gpuIndex testIndex i = (true, testEntry') /\
    JsonValue.get [K NVVS_RESULTS; At i; K NVVS_STATUS] testEntry'
    = JStr (HelperDisplayDiagResult (status (results gpuResult testIndex))).
Proof.
  intros Hran. unfold HelperJsonAddResult.
  replace (dcgmDiagResult_eqb (status (results gpuResult testIndex)) DCGM_DIAG_RESULT_NOT_RUN)
    with false by (destruct (status (results gpuResult testIndex)); try reflexivity; now elim Hran).
  eexists. split; [reflexivity|].
  change [K NVVS_RESULTS; At i; K NVVS_STATUS] with ([K NVVS_RESULTS; At i] ++ [K NVVS_STATUS]).
  rewrite JsonFacts.get_set_prefix.
  match goal with
  | |- JsonValue.get _ (if ?c then _ else _) = _ =>
      destruct c; [rewrite JsonFacts.get_set_other by (cbn; lia)|]
  end.
  all: match goal with
       | |- JsonValue.get _ (fold_left ?f0 _ _) = _ =>
           assert (Hfold : forall js entry,
                     JsonValue.get [K NVVS_STATUS] (fold_left f0 js entry)
                     = JsonValue.get [K NVVS_STATUS] entry)
       end.
  1, 3: intros js; induction js as [|j js IH]; intros entry; [reflexivity|];
        cbn [fold_left]; rewrite IH;
        destruct (negb _); [apply JsonFacts.get_set_other; cbn; lia | reflexivity].
  all: rewrite Hfold;
       change [K NVVS_STATUS] with ([K NVVS_STATUS] ++ []);
       now rewrite JsonFacts.get_set_prefix.
Qed.

(** C10 (amended).  [HelperDisplayDiagResult] maps pass to "Pass", skip to
    "Skip" and every other status (warn, fail, not-run) to "Fail".  It
    names the status in the level-one rows of the text report and in the
    cells, per-GPU and level-one, of the structured report, so a cell with
    warn status shows as "Fail" there.  The per-GPU rows of the text report do not go through
    it: a test whose cells are all warn is shown as "Warn - All". *)
Theorem HelperDisplayDiagResult_use :
  (forall val,
      HelperDisplayDiagResult val
      = match val with
        | DCGM_DIAG_RESULT_PASS => lit "Pass"
        | DCGM_DIAG_RESULT_SKIP => lit "Skip"
        | _ => lit "Fail"
        end)
  /\ (forall nameTag cell,
        status cell = DCGM_DIAG_RESULT_WARN ->
        exists details,
          HelperDisplayDeploymentResult nameTag cell
          = Ok (Row nameTag (lit "Fail") :: details))
  /\ (forall gpuResult testEntry gpuIndex testIndex i,
        status (results gpuResult testIndex) = DCGM_DIAG_RESULT_WARN ->
        exists testEntry',
          HelperJsonAddResult gpuResult testEntry gpuIndex testIndex i
          = (true, testEntry') /\
          JsonValue.get [K NVVS_RESULTS; At i; K NVVS_STATUS] testEntry'
          = JStr (lit "Fail"))
  /\ (forall output categoryIndex diagResult testIndex,
        testIndex < levelOneTestCount diagResult ->
        status (levelOneResults diagResult testIndex) = DCGM_DIAG_RESULT_WARN ->
        exists idx,
          JsonValue.get
            [K NVVS_NAME; K NVVS_HEADERS; At categoryIndex; K NVVS_TESTS; At idx;
             K NVVS_TEST_NAME]
            (fst (HelperJsonAddBasicTests output categoryIndex diagResult))
          = JStr (levelOneTests testIndex) /\
          JsonValue.get
            [K NVVS_NAME; K NVVS_HEADERS; At categoryIndex; K NVVS_TESTS; At idx;
             K NVVS_RESULTS; At 0; K NVVS_STATUS]
            (fst (HelperJsonAddBasicTests output categoryIndex diagResult))
          = JStr (lit "Fail"))
  /\ (forall d dataName testIndex diagResults gpuIndices,
        gpuIndices <> [] ->
        (forall g, In g gpuIndices ->
                   bucket_status testIndex diagResults g = DCGM_DIAG_RESULT_WARN) ->
        exists details,
          HelperDisplayGpuResults d dataName testIndex diagResults gpuIndices
          = Ok (Row (HelperGetPluginName d testIndex) (lit "Warn - All") :: details)).
Proof.
  split; [|split; [|split; [|split]]].
  - now intros [].
  - intros nameTag cell Hst. unfold HelperDisplayDeploymentResult. rewrite Hst.
    cbn [dcgmDiagResult_eqb negb HelperDisplayDiagResult app].
    match goal with
    | |- exists _, emit_all (Ok ?a :: ?parts) = _ =>
        destruct (@emit_all_ok parts) as [rest Hrest]
    end.
    + apply Forall_app. split.
      * apply Forall_forall. intros p Hp. apply in_map_iff in Hp as (j & <- & _).
        destruct (negb _); [apply DisplayVerboseInfo_total | now exists []].
      * constructor; [|constructor].
        destruct (negb _); [apply DisplayVerboseInfo_total | now exists []].
    + exists rest. now rewrite (emit_all_cons_ok _ _ Hrest).
  - intros gpuResult testEntry gpuIndex testIndex i Hst.
    destruct (@HelperJsonAddResult_status gpuResult testEntry gpuIndex testIndex i)
      as (te & H1 & H2); [rewrite Hst; discriminate|].
    exists te. split; [assumption|]. now rewrite H2, Hst.
  - intros output categoryIndex diagResult testIndex Ht Hst.
    destruct (@HelperJsonAddBasicTests_status headers output categoryIndex diagResult testIndex Ht)
      as (idx & Hname & Hstatus).
    + rewrite Hst. apply andb_false_r.
    + exists idx. split; [assumption|]. now rewrite Hstatus, Hst.
  - intros d dataName testIndex diagResults gpuIndices Hne Hall.
    unfold HelperDisplayGpuResults.
    rewrite HelperDisplayGpuResults_buckets_eq. cbn [passed failed warned skipped].
    rewrite (@bucket_of_other _ DCGM_DIAG_RESULT_PASS _ _ _ Hall) by reflexivity.
    rewrite (@bucket_of_other _ DCGM_DIAG_RESULT_SKIP _ _ _ Hall) by reflexivity.
    rewrite (@bucket_of_other _ DCGM_DIAG_RESULT_FAIL _ _ _ Hall) by reflexivity.
    rewrite (@bucket_of_same _ _ _ _ Hall), Nat.eqb_refl.
    destruct gpuIndices as [|g l]; [now elim Hne|].
    cbn [List.length Nat.eqb].
    match goal with
    | |- exists _, emit_all (Ok ?a :: ?parts) = _ =>
        destruct (@emit_all_ok parts) as [rest Hrest]
    end.
    + constructor; [apply HelperDisplayDetails_total|].
      constructor; [|constructor]. destruct (str_eqb _ _); eexists; reflexivity.
    + exists rest. now rewrite (emit_all_cons_ok _ _ Hrest).
Qed.

End StatusNames.

Lemma HelperDisplayDiagResult_use_witness :
  exists details,
    HelperDisplayGpuResults (headers := sample_headers) (sample_Diag false 1)
      (lit "pcie") 2 (perGpuResponses warned_pcie) [0]
    = Ok (Row (lit "PCIe") (lit "Warn - All") :: details).
Proof.
  destruct (@HelperDisplayDiagResult_use sample_headers) as (_ & _ & _ & _ & H).
  apply (H (sample_Diag false 1) (lit "pcie") 2 (perGpuResponses warned_pcie) [0]).
  - discriminate.
  - intros g [<- | []]. reflexivity.
Defined.

(** C10 (counterexample).  One GPU whose PCIe cell has status warn: the
    status mapping answers "Fail" for it, the text report shows the row
    [PCIe | Warn - All]. *)
Lemma warn_text_row_counterexample :
  status (results (perGpuResponses warned_pcie 0) 2) = DCGM_DIAG_RESULT_WARN /\
  HelperDisplayDiagResult DCGM_DIAG_RESULT_WARN = lit "Fail" /\
  HelperDisplayGpuResults (headers := sample_headers) (sample_Diag false 1)
    (lit "pcie") 2 (perGpuResponses warned_pcie) [0]
  = Ok [Row (lit "PCIe") (lit "Warn - All")] /\
  HelperDisplayGpuResults (headers := sample_headers) (sample_Diag false 1)
    (lit "pcie") 2 (perGpuResponses warned_pcie) [0]
  <> Ok [Row (lit "PCIe") (HelperDisplayDiagResult DCGM_DIAG_RESULT_WARN)].
Proof. repeat split. vm_compute. discriminate. Qed.

(** ** C2: cancellation *)

Section Cancellation.

Lemma await_events_tape_irrelevant (t x : list event) (w : World) :
  await_events t (set_tape x w) = await_events t w.
Proof.
  revert w; induction t as [|[signum|result response|] t IH]; intros w; cbn [await_events].
  - reflexivity.
  - replace (handle_signal_during_diag signum (set_tape x w))
      with (set_tape x (handle_signal_during_diag signum w)); [apply IH|].
    unfold handle_signal_during_diag. cbn. now destruct (diag_stopDiagOnSignal w).
  - replace (executor_exit result response (set_tape x w))
      with (set_tape x (executor_exit result response w)); [apply IH|].
    unfold executor_exit. cbn. now destruct (rde w).
  - reflexivity.
Qed.

Lemma await_absorb (pre t : list event) (w : World) :
  forallb (fun e => negb (is_EvRun e)) pre = true ->
  await_events (pre ++ EvRun :: t) w = Ok (set_tape t (absorb pre w)).
Proof.
  revert w; induction pre as [|[signum|result response|] pre IH]; intros w Hpre;
    cbn [app await_events]; try reflexivity; try discriminate Hpre;
    apply IH; exact Hpre.
Qed.

Lemma absorb_event_calls (w : World) (e : event) :
  calls (absorb_event w e) = calls w.
Proof.
  destruct e as [signum|result response|]; cbn; [| |reflexivity].
  - unfold handle_signal_during_diag.
    destruct (diag_stopDiagOnSignal w) eqn:E; cbn; congruence.
  - unfold executor_exit. destruct (rde w) eqn:E; cbn; congruence.
Qed.

Lemma absorb_event_armed (w : World) (e : event) :
  diag_stopDiagOnSignal (absorb_event w e) = diag_stopDiagOnSignal w.
Proof.
  destruct e as [signum|result response|]; cbn; [| |reflexivity].
  - unfold handle_signal_during_diag.
    destruct (diag_stopDiagOnSignal w) eqn:E; cbn; congruence.
  - unfold executor_exit. destruct (rde w) eqn:E; cbn; congruence.
Qed.

Lemma absorb_event_flag_stays (w : World) (e : event) :
  g_signalExit w = true -> g_signalExit (absorb_event w e) = true.
Proof.
  intros H. destruct e as [signum|result response|]; cbn; [| |assumption].
  - unfold handle_signal_during_diag.
    destruct (diag_stopDiagOnSignal w) eqn:E; cbn; congruence.
  - unfold executor_exit. destruct (rde w) eqn:E; cbn; congruence.
Qed.

Lemma absorb_calls (events : list event) (w : World) :
  calls (absorb events w) = calls w.
Proof.
  revert w; induction events as [|e events IH]; intros w; [reflexivity|].
  unfold absorb in *. cbn [fold_left]. now rewrite IH, absorb_event_calls.
Qed.

Lemma absorb_flag_stays (events : list event) (w : World) :
  g_signalExit w = true -> g_signalExit (absorb events w) = true.
Proof.
  revert w; induction events as [|e events IH]; intros w H; [assumption|].
  unfold absorb in *. cbn [fold_left]. apply IH. now apply absorb_event_flag_stays.
Qed.

(** A signal that is delivered while armed sets the flag, for good. *)
Lemma absorb_signal_armed (events : list event) (w : World) (signum : nat) :
  diag_stopDiagOnSignal w = true ->
  In (EvSignal signum) events ->
  g_signalExit (absorb events w) = true.
Proof.
  revert w; induction events as [|e events IH]; intros w Harmed Hin; [contradiction|].
  unfold absorb in *. cbn [fold_left]. destruct Hin as [-> | Hin].
  - apply absorb_flag_stays. cbn. unfold handle_signal_during_diag.
    now rewrite Harmed.
  - apply IH; [now rewrite absorb_event_armed | assumption].
Qed.

(** The loop, at its test of the flag with the flag set. *)
Lemma poll_killed (fuel : nat) (d : Diag) (r0 : dcgmDiagResponse_t)
    (w : World) (pre t : list event) :
  tape w = pre ++ EvRun :: t ->
  forallb (fun e => negb (is_EvRun e)) pre = true ->
  g_signalExit (absorb pre w) = true ->
  ExecuteDiagOnServer_poll (S fuel) d r0 w
  = Ok (DCGM_ST_NVVS_KILLED, r0,
        set_rde Idle (call (Abort (m_hostname d)) (set_tape t (absorb pre w)))).
Proof.
  intros Htape Hpre Hflag. cbn [ExecuteDiagOnServer_poll].
  unfold await. rewrite Htape, await_absorb by assumption. cbn [rbind].
  cbn [set_tape g_signalExit]. now rewrite Hflag.
Qed.

(** The loop goes through idle rounds without effect. *)
Lemma poll_idle_rounds (k fuel : nat) (d : Diag) (r0 : dcgmDiagResponse_t)
    (w : World) (t : list event) :
  g_signalExit w = false ->
  rde w = Running ->
  tape w = List.concat (repeat idle_round k) ++ t ->
  ExecuteDiagOnServer_poll (k + fuel) d r0 w
  = ExecuteDiagOnServer_poll fuel d r0 (set_tape t w).
Proof.
  revert w; induction k as [|k IH]; intros w Hflag Hrde Htape.
  - cbn in Htape. cbn [Nat.add]. f_equal. destruct w; cbn in *; now subst.
  - cbn [Nat.add ExecuteDiagOnServer_poll]. unfold await at 1. rewrite Htape.
    cbn [repeat List.concat idle_round app await_events rbind].
    cbn [set_tape g_signalExit]. rewrite Hflag.
    unfold await. cbn [tape set_tape await_events rbind rde]. rewrite Hrde.
    rewrite IH; cbn; try assumption; reflexivity.
Qed.

Lemma idle_rounds_length (k : nat) :
  List.length (List.concat (repeat idle_round k)) = 2 * k.
Proof. induction k as [|k IH]; [reflexivity|]. cbn [repeat List.concat idle_round app List.length]. lia. Qed.

(** C2 (amended).
    - A signal handled while not armed changes nothing, and a run that
      starts after it has the outcome it would have had without it.
    - If the flag is set, or a signal is delivered while armed, before the
      poll loop tests the flag, the loop returns the killed outcome and
      sends exactly one abort request.
    - So a run armed with the flag clear, whose executor is still running
      after [k] idle rounds when a signal arrives, returns the killed
      outcome, having sent the run request and one abort request, and is
      disarmed.
    - A signal that arrives while armed after the last test of the flag,
      the executor having exited, sets the flag; the run returns the
      outcome of the executor and sends no abort request. *)
Theorem cancellation_when_flag_seen :
  (forall signum w,
      diag_stopDiagOnSignal w = false ->
      handle_signal_during_diag signum w = w)
  /\ (forall d r0 w signum t,
        diag_stopDiagOnSignal w = false ->
        tape w = EvSignal signum :: t ->
        ExecuteDiagOnServer d r0 w = ExecuteDiagOnServer d r0 (set_tape t w))
  /\ (forall fuel d r0 w pre t,
        tape w = pre ++ EvRun :: t ->
        forallb (fun e => negb (is_EvRun e)) pre = true ->
        (g_signalExit w = true
         \/ (diag_stopDiagOnSignal w = true /\ exists signum, In (EvSignal signum) pre)) ->
        exists w',
          ExecuteDiagOnServer_poll (S fuel) d r0 w = Ok (DCGM_ST_NVVS_KILLED, r0, w') /\
          calls w' = calls w ++ [Abort (m_hostname d)] /\
          g_signalExit w' = true /\ tape w' = t)
  /\ (forall d r0 w k signum post,
        g_signalExit w = false ->
        tape w = EvRun :: List.concat (repeat idle_round k)
                   ++ EvSignal signum :: EvRun :: EvRun :: post ->
        exists w',
          ExecuteDiagOnServer d r0 w = Ok (DCGM_ST_NVVS_KILLED, r0, w') /\
          calls w' = calls w ++ [ActionValidate (m_drd d); Abort (m_hostname d)] /\
          aborts (calls w') = aborts (calls w) + 1 /\
          diag_stopDiagOnSignal w' = false /\ tape w' = post)
  /\ (forall d r0 w k result response signum post,
        g_signalExit w = false ->
        tape w = EvRun :: List.concat (repeat idle_round k)
                   ++ EvRun :: EvExit result response :: EvSignal signum
                   :: EvRun :: EvRun :: post ->
        exists w',
          ExecuteDiagOnServer d r0 w = Ok (result, response, w') /\
          g_signalExit w' = true /\
          calls w' = calls w ++ [ActionValidate (m_drd d)] /\
          aborts (calls w') = aborts (calls w) /\
          diag_stopDiagOnSignal w' = false /\ tape w' = post).
Proof.
  split; [|split; [|split; [|split]]].
  - intros signum w H. unfold handle_signal_during_diag. now rewrite H.
  - intros d r0 w signum t Harmed Htape. unfold ExecuteDiagOnServer, await.
    rewrite Htape. cbn [await_events tape set_tape].
    unfold handle_signal_during_diag. rewrite Harmed.
    now rewrite await_events_tape_irrelevant.
  - intros fuel d r0 w pre t Htape Hpre Hwhy.
    assert (Hflag : g_signalExit (absorb pre w) = true).
    { destruct Hwhy as [H | [Harmed [signum Hin]]].
      - now apply absorb_flag_stays.
      - now apply absorb_signal_armed with signum. }
    exists (set_rde Idle (call (Abort (m_hostname d)) (set_tape t (absorb pre w)))).
    split; [apply poll_killed; assumption|].
    cbn. rewrite absorb_calls. repeat split. assumption.
  - intros d r0 w k signum post Hflag Htape.
    unfold ExecuteDiagOnServer, await at 1. rewrite Htape.
    cbn [await_events rbind].
    set (w1 := call (ActionValidate (m_drd d))
                 (set_rde Running (set_diag_stopDiagOnSignal true
                    (set_tape (List.concat (repeat idle_round k)
                                 ++ EvSignal signum :: EvRun :: EvRun :: post) w)))).
    assert (Hlen : S (List.length (tape w1)) = k + S (S (List.length post + k + 2))).
    { cbn [w1 tape call set_rde set_diag_stopDiagOnSignal set_tape].
      rewrite length_app, idle_rounds_length. cbn [List.length]. lia. }
    rewrite Hlen.
    rewrite poll_idle_rounds with (t := EvSignal signum :: EvRun :: EvRun :: post);
      [| exact Hflag | reflexivity | reflexivity].
    rewrite poll_killed with (pre := [EvSignal signum]) (t := EvRun :: post);
      [| reflexivity | reflexivity | reflexivity].
    cbn [rbind]. unfold await. cbn [tape set_rde call set_tape await_events rbind].
    eexists. split; [reflexivity|].
    cbn. rewrite <- app_assoc. cbn [app]. repeat split.
    unfold aborts. rewrite filter_app, length_app. reflexivity.
  - intros d r0 w k result response signum post Hflag Htape.
    unfold ExecuteDiagOnServer, await at 1. rewrite Htape.
    cbn [await_events rbind].
    set (rest := EvRun :: EvExit result response :: EvSignal signum
                   :: EvRun :: EvRun :: post).
    set (w1 := call (ActionValidate (m_drd d))
                 (set_rde Running (set_diag_stopDiagOnSignal true
                    (set_tape (List.concat (repeat idle_round k) ++ rest) w)))).
    assert (Hlen : S (List.length (tape w1)) = k + S (S (List.length post + k + 4))).
    { cbn [w1 tape call set_rde set_diag_stopDiagOnSignal set_tape].
      rewrite length_app, idle_rounds_length. cbn [List.length rest]. lia. }
    rewrite Hlen.
    rewrite poll_idle_rounds with (t := rest);
      [| exact Hflag | reflexivity | reflexivity].
    cbn [ExecuteDiagOnServer_poll]. unfold await.
    cbn [rest tape set_tape await_events rbind g_signalExit w1 call set_rde
         set_diag_stopDiagOnSignal].
    rewrite Hflag.
    cbn [tape await_events executor_exit rde handle_signal_during_diag
         diag_stopDiagOnSignal set_rde set_g_signalExit set_tape rbind].
    eexists. split; [reflexivity|]. cbn.
    repeat split.
    unfold aborts. rewrite filter_app, length_app. cbn. lia.
Qed.

End Cancellation.

Lemma cancellation_when_flag_seen_witness :
  exists w',
    ExecuteDiagOnServer (sample_Diag false 1)
      (InitializeDiagResponse (headers := sample_headers))
      (supervised_world ([EvRun] ++ idle_round ++ [EvSignal 2; EvRun; EvRun]))
    = Ok (DCGM_ST_NVVS_KILLED, InitializeDiagResponse (headers := sample_headers), w') /\
    calls w' = [ActionValidate sample_request; Abort (lit "localhost")] /\
    aborts (calls w') = 1 /\
    diag_stopDiagOnSignal w' = false /\ tape w' = [].
Proof.
  destruct cancellation_when_flag_seen as (_ & _ & _ & H & _).
  apply (H (sample_Diag false 1) (InitializeDiagResponse (headers := sample_headers))
           (supervised_world ([EvRun] ++ idle_round ++ [EvSignal 2; EvRun; EvRun]))
           1 2 []); reflexivity.
Defined.

(** C2 (counterexample).  The supervisor arms, starts the run and tests the
    flag, which is clear.  The executor finishes with OK; then a signal is
    delivered: the run is armed and the handler sets the flag.  The
    supervisor, past its test of the flag, sees that the executor has
    exited: the outcome is OK, not killed, and no abort request is sent. *)
Lemma late_signal_counterexample :
  match ExecuteDiagOnServer (sample_Diag false 1)
          (InitializeDiagResponse (headers := sample_headers))
          (supervised_world [EvRun; EvRun; EvExit DCGM_ST_OK all_pass; EvSignal 2; EvRun; EvRun])
  with
  | Ok (result, _, w') =>
      result = DCGM_ST_OK /\ result <> DCGM_ST_NVVS_KILLED /\
      g_signalExit w' = true /\ aborts (calls w') = 0
  | _ => False
  end.
Proof. vm_compute. repeat split. discriminate. Qed.

(** The flag that the late signal set is still there: a next run on the
    same process is killed at its first test of the flag. *)
Lemma late_signal_kills_next_run :
  match ExecuteDiagOnServer (sample_Diag false 1)
          (InitializeDiagResponse (headers := sample_headers))
          (supervised_world ([EvRun; EvRun; EvExit DCGM_ST_OK all_pass; EvSignal 2; EvRun; EvRun]
                          ++ [EvRun; EvRun; EvRun]))
  with
  | Ok (_, _, w1) =>
      match ExecuteDiagOnServer (sample_Diag false 1)
              (InitializeDiagResponse (headers := sample_headers)) w1 with
      | Ok (result, _, w2) => result = DCGM_ST_NVVS_KILLED /\ aborts (calls w2) = 1
      | _ => False
      end
  | _ => False
  end.
Proof. vm_compute. repeat split. Qed.

(** ** C8: OK with a system error *)

Lemma str_eqb_nil_false (s : str) : s <> [] -> str_eqb s [] = false.
Proof.
  intros H. unfold str_eqb. destruct (list_eq_dec ascii_dec s []); [contradiction | reflexivity].
Qed.

Section SystemError.

Context {headers : DcgmHeaders}.

(** C8.  The remote call returns OK and the response carries a system
    error message.  In text mode [RunDiagOnce] prints the message and
    returns the generic NVVS error.  In structured mode the special case
    does not apply: the document of the response is built, printed (one
    iteration) or kept for the iteration document (several), and the
    outcome is the classification of the response. *)
Theorem RunDiagOnce_system_error (d : Diag) (w w1 : World)
    (response : dcgmDiagResponse_t) :
  ExecuteDiagOnServer d InitializeDiagResponse (InstallSigHandlers w)
  = Ok (DCGM_ST_OK, response, w1) ->
  msg (systemError response) <> [] ->
  (m_jsonOutput d = false ->
   RunDiagOnce d w
   = Ok (DCGM_ST_NVVS_ERROR, d,
         print [Text (lit "Error: " ++ msg (systemError response) ++ endl); Text endl] w1))
  /\ (m_jsonOutput d = true ->
      let doc := HelperJsonBuildOutput d JNull response (derive_gpuVec d response) in
      RunDiagOnce d w
      = if m_iterations d <=? 1
        then Ok (GetFailureResult response, d, print [Styled doc] w1)
        else Ok (GetFailureResult response, set_m_jsonTmpValue doc d, print [] w1)).
Proof.
  intros Hexec Hmsg. split; intros Hmode; unfold RunDiagOnce; rewrite Hexec;
    cbn [rbind]; rewrite Hmode, (str_eqb_nil_false Hmsg); cbn [negb andb].
  - unfold HelperDisplayFailureMessage. rewrite Hmode. reflexivity.
  - cbn zeta. unfold HelperDisplayAsJson.
    destruct (m_iterations d <=? 1); reflexivity.
Qed.

End SystemError.

Lemma RunDiagOnce_system_error_witness :
  (exists w1,
      RunDiagOnce (headers := sample_headers) (sample_Diag false 1)
        (quiet_world (plain_run DCGM_ST_OK engine_trouble))
      = Ok (DCGM_ST_NVVS_ERROR, sample_Diag false 1,
            print [Text (lit "Error: nvvs binary not found" ++ endl); Text endl] w1))
  /\ (exists w1 doc,
        RunDiagOnce (headers := sample_headers) (sample_Diag true 1)
          (quiet_world (plain_run DCGM_ST_OK engine_trouble))
        = Ok (GetFailureResult (headers := sample_headers) engine_trouble,
              sample_Diag true 1, print [Styled doc] w1)).
Proof.
  set (w := quiet_world (plain_run DCGM_ST_OK engine_trouble)).
  split.
  - let v := eval vm_compute in
      (ExecuteDiagOnServer (sample_Diag false 1)
         (InitializeDiagResponse (headers := sample_headers)) (InstallSigHandlers w)) in
    match v with
    | Ok (_, _, ?w1) =>
        exists w1;
        refine (proj1 (@RunDiagOnce_system_error sample_headers (sample_Diag false 1)
                         w w1 engine_trouble _ _) eq_refl);
        [vm_compute; reflexivity | discriminate]
    end.
  - let v := eval vm_compute in
      (ExecuteDiagOnServer (sample_Diag true 1)
         (InitializeDiagResponse (headers := sample_headers)) (InstallSigHandlers w)) in
    match v with
    | Ok (_, _, ?w1) =>
        exists w1; eexists;
        refine (proj2 (@RunDiagOnce_system_error sample_headers (sample_Diag true 1)
                         w w1 engine_trouble _ _) eq_refl);
        [vm_compute; reflexivity | discriminate]
    end.
Defined.

(** ** C7: the iteration loop *)

Section Iterations.

Context {headers : DcgmHeaders}.

Lemma await_events_calls (t : list event) (w w' : World) :
  await_events t w = Ok w' -> calls w' = calls w.
Proof.
  revert w; induction t as [|e t IH]; intros w; cbn [await_events]; [discriminate|].
  destruct e as [signum|result response|].
  - intros H. rewrite (IH _ H). apply (absorb_event_calls w (EvSignal signum)).
  - intros H. rewrite (IH _ H). apply (absorb_event_calls w (EvExit result response)).
  - intros [= <-]. reflexivity.
Qed.

Lemma await_calls (w w' : World) : await w = Ok w' -> calls w' = calls w.
Proof. apply await_events_calls. Qed.

(** The poll loop sends no run request. *)
Lemma poll_dispatched (fuel : nat) (d : Diag) (r0 response : dcgmDiagResponse_t)
    (w w' : World) (result : dcgmReturn_t) :
  ExecuteDiagOnServer_poll fuel d r0 w = Ok (result, response, w') ->
  dispatched (calls w') = dispatched (calls w).
Proof.
  revert w; induction fuel as [|fuel IH]; intros w; cbn [ExecuteDiagOnServer_poll];
    [discriminate|].
  destruct (await w) as [w1| | |] eqn:E1; cbn [rbind]; try discriminate.
  apply await_calls in E1.
  destruct (g_signalExit w1).
  - intros [= _ _ <-]. cbn. rewrite E1. unfold dispatched.
    rewrite flat_map_app. cbn. now rewrite app_nil_r.
  - destruct (await w1) as [w2| | |] eqn:E2; cbn [rbind]; try discriminate.
    apply await_calls in E2.
    destruct (rde w2).
    + intros H. rewrite (IH _ H). congruence.
    + intros H. rewrite (IH _ H). congruence.
    + intros [= _ _ <-]. congruence.
Qed.

(** A run of the supervisor sends the request of the object once. *)
Lemma ExecuteDiagOnServer_dispatched (d : Diag) (r0 response : dcgmDiagResponse_t)
    (w w' : World) (result : dcgmReturn_t) :
  ExecuteDiagOnServer d r0 w = Ok (result, response, w') ->
  dispatched (calls w') = dispatched (calls w) ++ [m_drd d].
Proof.
  unfold ExecuteDiagOnServer.
  destruct (await w) as [w1| | |] eqn:E1; cbn [rbind]; try discriminate.
  apply await_calls in E1.
  match goal with
  | |- context [ExecuteDiagOnServer_poll ?f d r0 ?w2] =>
      destruct (ExecuteDiagOnServer_poll f d r0 w2) as [[[r resp] w3]| | |] eqn:E2
  end; cbn [rbind]; try discriminate.
  apply poll_dispatched in E2.
  destruct (await w3) as [w4| | |] eqn:E3; cbn [rbind]; try discriminate.
  apply await_calls in E3.
  intros [= _ _ <-]. cbn [calls set_diag_stopDiagOnSignal]. rewrite E3, E2.
  cbn. rewrite E1. unfold dispatched. rewrite flat_map_app. reflexivity.
Qed.

Lemma print_calls (items : list out_item) (w : World) : calls (print items w) = calls w.
Proof. reflexivity. Qed.

(** [RunDiagOnce] sends its request once and leaves the configuration of
    the object alone. *)
Lemma RunDiagOnce_dispatched (d d' : Diag) (w w' : World) (ret : dcgmReturn_t) :
  RunDiagOnce d w = Ok (ret, d', w') ->
  m_drd d' = m_drd d /\ m_jsonOutput d' = m_jsonOutput d /\
  m_iterations d' = m_iterations d /\
  dispatched (calls w') = dispatched (calls w) ++ [m_drd d].
Proof.
  unfold RunDiagOnce.
  destruct (ExecuteDiagOnServer d InitializeDiagResponse (InstallSigHandlers w))
    as [[[result response] w1]| | |] eqn:E; cbn [rbind]; try discriminate.
  apply ExecuteDiagOnServer_dispatched in E.
  assert (Hw : calls (InstallSigHandlers w) = calls w).
  { unfold InstallSigHandlers. now destruct (diag_installed_sig_handlers w). }
  rewrite Hw in E.
  destruct result.
  - destruct (negb (m_jsonOutput d) && negb (str_eqb (msg (systemError response)) [])).
    + intros [= _ <- <-]. now rewrite print_calls.
    + destruct (m_jsonOutput d) eqn:Hj.
      * unfold HelperDisplayAsJson. destruct (m_iterations d <=? 1); cbn [rbind];
          intros [= _ <- <-]; now rewrite print_calls.
      * destruct (text_report d response (derive_gpuVec d response)); cbn [rbind];
          try discriminate.
        intros [= _ <- <-]. now rewrite print_calls.
  - intros [= _ <- <-]. now rewrite print_calls.
  - intros [= _ <- <-]. now rewrite print_calls.
  - intros [= _ <- <-]. now rewrite print_calls.
  - destruct (negb (is_OK (stop_result (call StopDiagnostic w1))));
      intros [= _ <- <-]; rewrite print_calls; cbn; repeat split;
      unfold dispatched in *; rewrite flat_map_app; cbn; now rewrite app_nil_r.
  - intros [= _ <- <-]. now rewrite print_calls.
  - intros [= _ <- <-]. now rewrite print_calls.
  - intros [= _ <- <-]. now rewrite print_calls.
  - intros [= _ <- <-]. now rewrite print_calls.
Qed.

(** Along a sequence of iterations, the requests sent are those of the
    object stamped with the consecutive indices. *)
Lemma runs_in_sequence_dispatched (trace : list (dcgmReturn_t * Diag * World))
    (i : nat) (d : Diag) (w : World) (r : dcgmReturn_t) (d' : Diag) (w' : World) :
  runs_in_sequence i d w (trace ++ [(r, d', w')]) ->
  dispatched (calls w')
  = dispatched (calls w)
      ++ map (fun j => set_currentIteration j (m_drd d)) (seq i (S (List.length trace))).
Proof.
  revert i d w; induction trace as [|[[r1 d1] w1] trace IH]; intros i d w;
    cbn [app runs_in_sequence].
  - intros [H _]. apply RunDiagOnce_dispatched in H as (_ & _ & _ & H).
    rewrite H. unfold iteration_banner. now destruct (negb (m_jsonOutput d)).
  - intros [H Hrest]. apply RunDiagOnce_dispatched in H as (Hdrd & _ & _ & H).
    rewrite (IH _ _ _ Hrest), H, Hdrd, <- app_assoc.
    unfold iteration_banner. now destruct (negb (m_jsonOutput d)).
Qed.

(** After a sequence of iterations the object holds the request of the
    last one: the index of that iteration, the other fields as before. *)
Lemma runs_in_sequence_last (trace : list (dcgmReturn_t * Diag * World))
    (i : nat) (d : Diag) (w : World) (r : dcgmReturn_t) (d' : Diag) (w' : World) :
  runs_in_sequence i d w (trace ++ [(r, d', w')]) ->
  m_drd d'
  = {| groupId := groupId (m_drd d); gpuList := gpuList (m_drd d);
       testNames0 := testNames0 (m_drd d); flags := flags (m_drd d);
       totalIterations := totalIterations (m_drd d);
       currentIteration := i + List.length trace |}.
Proof.
  revert i d w; induction trace as [|[[r1 d1] w1] trace IH]; intros i d w;
    cbn [app runs_in_sequence].
  - intros [H _]. apply RunDiagOnce_dispatched in H as (H & _).
    rewrite H. cbn [List.length set_m_drd m_drd]. rewrite Nat.add_0_r. reflexivity.
  - intros [H Hrest]. apply RunDiagOnce_dispatched in H as (Hdrd & _).
    rewrite (IH _ _ _ Hrest), Hdrd. cbn [List.length set_m_drd m_drd].
    replace (S i + List.length trace) with (i + S (List.length trace)) by lia.
    reflexivity.
Qed.

(** The loop follows the sequence of iterations up to the first outcome
    that is not OK, or to the end. *)
Lemma RunStartDiag_loop_stops (trace : list (dcgmReturn_t * Diag * World))
    (n i : nat) (overallRet : dcgmReturn_t) (output : Json) (d : Diag) (w : World)
    (r : dcgmReturn_t) (d' : Diag) (w' : World) :
  runs_in_sequence i d w (trace ++ [(r, d', w')]) ->
  Forall (fun t => fst (fst t) = DCGM_ST_OK) trace ->
  (r <> DCGM_ST_OK /\ S (List.length trace) <= n)
  \/ (r = DCGM_ST_OK /\ S (List.length trace) = n) ->
  exists output',
    RunStartDiag_loop (seq i n) overallRet output d w
    = Ok ((if is_OK r then overallRet else r), output', d', w').
Proof.
  revert n i output d w; induction trace as [|[[r1 d1] w1] trace IH];
    intros n i output d w; cbn [app runs_in_sequence].
  - intros [H _] _ Hend.
    destruct n as [|n]; [cbn in Hend; lia|].
    cbn [seq RunStartDiag_loop]. rewrite H. cbn [rbind].
    destruct Hend as [[Hr _] | [Hr Hn]].
    + replace (is_OK r) with false by (destruct r; try reflexivity; now elim Hr).
      cbn [negb]. eexists. reflexivity.
    + subst r. cbn [is_OK negb].
      assert (n = 0) by (cbn in Hn; lia). subst n. cbn [seq RunStartDiag_loop].
      eexists. reflexivity.
  - intros [H Hrest] Hok Hend.
    apply Forall_cons_iff in Hok as [Hr1 Hok]. cbn [fst] in Hr1. subst r1.
    destruct n as [|n]; [cbn in Hend; lia|].
    cbn [seq RunStartDiag_loop]. rewrite H. cbn [rbind is_OK negb].
    apply IH; [assumption | assumption|].
    cbn [List.length] in Hend.
    destruct Hend as [[Hr Hn] | [Hr Hn]]; [left | right]; (split; [assumption | lia]).
Qed.

(** C7.  With at most one iteration, [RunStartDiag] is one [RunDiagOnce].
    With [N > 1] iterations: if the iterations, run one after the other,
    return OK [i - 1] times and then a code that is not OK, [RunStartDiag]
    returns that code with the objects as iteration [i] left them; if all
    [N] return OK it returns OK.  In both cases the run requests sent are
    exactly those of the iterations executed: the [j]-th of them (0-based)
    is the request of the object with [totalIterations = N] and
    [currentIteration = j] and its other fields untouched, and the object
    that comes back still holds the request of the last iteration
    executed. *)
Theorem RunStartDiag_iterations (d : Diag) (w : World) :
  (m_iterations d <= 1 -> RunStartDiag d w = RunDiagOnce d w)
  /\ (1 < m_iterations d ->
      forall trace r d' w',
        runs_in_sequence 0
          (set_m_drd (set_totalIterations (m_iterations d) (m_drd d)) d) w
          (trace ++ [(r, d', w')]) ->
        Forall (fun t => fst (fst t) = DCGM_ST_OK) trace ->
        (r <> DCGM_ST_OK /\ S (List.length trace) <= m_iterations d)
        \/ (r = DCGM_ST_OK /\ S (List.length trace) = m_iterations d) ->
        exists w'',
          RunStartDiag d w = Ok (r, d', w'') /\
          calls w'' = calls w' /\
          dispatched (calls w'')
          = dispatched (calls w)
              ++ map (fun j =>
                        {| groupId := groupId (m_drd d);
                           gpuList := gpuList (m_drd d);
                           testNames0 := testNames0 (m_drd d);
                           flags := flags (m_drd d);
                           totalIterations := m_iterations d;
                           currentIteration := j |})
                   (seq 0 (S (List.length trace))) /\
          totalIterations (m_drd d') = m_iterations d /\
          currentIteration (m_drd d') = List.length trace).
Proof.
  split.
  - intros Hn. unfold RunStartDiag.
    now destruct (Nat.leb_spec (m_iterations d) 1); [|lia].
  - intros Hn trace r d' w' Hruns Hok Hend. unfold RunStartDiag.
    destruct (Nat.leb_spec (m_iterations d) 1); [lia|]. cbn zeta.
    destruct (@RunStartDiag_loop_stops trace (m_iterations d) 0 DCGM_ST_OK JNull _ _ _ _ _ Hruns Hok Hend)
      as [output' Hloop].
    cbn [m_iterations set_m_drd]. rewrite Hloop. cbn [rbind].
    assert (Hr : (if is_OK r then DCGM_ST_OK else r) = r) by now destruct r.
    rewrite Hr. eexists. split; [reflexivity|].
    assert (Hcalls : forall items, calls (print items w') = calls w') by reflexivity.
    split; [|split].
    + destruct (m_jsonOutput d'); [|destruct (is_OK r)]; apply Hcalls.
    + replace (calls _) with (calls w')
        by (destruct (m_jsonOutput d'); [|destruct (is_OK r)]; now rewrite Hcalls).
      rewrite (@runs_in_sequence_dispatched trace 0 _ _ _ _ _ Hruns). reflexivity.
    + pose proof (@runs_in_sequence_last trace 0 _ _ _ _ _ Hruns) as Hlast.
      rewrite Hlast. split; reflexivity.
Qed.

End Iterations.

Lemma RunStartDiag_iterations_witness :
  exists d' w'',
    RunStartDiag (headers := sample_headers) (sample_Diag false 3)
      (quiet_world (plain_run DCGM_ST_OK all_pass
                      ++ plain_run (DCGM_ST_other 7) all_pass
                      ++ plain_run DCGM_ST_OK all_pass))
    = Ok (DCGM_ST_other 7, d', w'') /\
    dispatched (calls w'')
    = [ {| groupId := 0; gpuList := []; testNames0 := lit "pcie"; flags := 0;
           totalIterations := 3; currentIteration := 0 |};
        {| groupId := 0; gpuList := []; testNames0 := lit "pcie"; flags := 0;
           totalIterations := 3; currentIteration := 1 |} ] /\
    totalIterations (m_drd d') = 3 /\ currentIteration (m_drd d') = 1.
Proof.
  set (d0 := sample_Diag false 3).
  set (w0 := quiet_world (plain_run DCGM_ST_OK all_pass
                            ++ plain_run (DCGM_ST_other 7) all_pass
                            ++ plain_run DCGM_ST_OK all_pass)).
  destruct (@RunStartDiag_iterations sample_headers d0 w0) as [_ H].
  specialize (H (le_S 2 2 (le_n 2))).
  set (d0' := set_m_drd (set_totalIterations (m_iterations d0) (m_drd d0)) d0) in H.
  let v1 := eval vm_compute in
    (RunDiagOnce (headers := sample_headers)
       (set_m_drd (set_currentIteration 0 (m_drd d0')) d0') (iteration_banner d0' 0 w0)) in
  match v1 with
  | Ok (?r1, ?d1, ?w1) =>
      let v2 := eval vm_compute in
        (RunDiagOnce (headers := sample_headers)
           (set_m_drd (set_currentIteration 1 (m_drd d1)) d1) (iteration_banner d1 1 w1)) in
      match v2 with
      | Ok (?r2, ?d2, ?w2) =>
          destruct (H [(r1, d1, w1)] r2 d2 w2) as (w'' & Hrun & _ & Hsent & Hobj);
          [ cbn [app runs_in_sequence];
            split; [vm_compute; reflexivity | split; [vm_compute; reflexivity | exact I]]
          | constructor; [reflexivity | constructor]
          | left; split; [discriminate | apply le_S, le_n]
          | exists d2, w''; split; [exact Hrun | split; [exact Hsent | exact Hobj]] ]
      end
  end.
Defined.

(** ** Nothing throws, no budget runs out *)

Section Totality.

Context {headers : DcgmHeaders}.

Lemma HelperDisplayGpuResults_total (d : Diag) (dataName : str) (testIndex : nat)
    (diagResults : array dcgmDiagResponsePerGpu_v5) (gpuIndices : list nat) :
  exists rows,
    HelperDisplayGpuResults d dataName testIndex diagResults gpuIndices = Ok rows.
Proof.
  unfold HelperDisplayGpuResults.
  repeat match goal with
         | |- context [if ?c then _ else _] => destruct c
         end;
    cbn beta iota zeta;
    repeat first
      [ apply HelperDisplayDetails_total
      | (eexists; reflexivity)
      | apply emit_then_ok
      | apply emit_all_ok
      | apply Forall_cons
      | apply Forall_nil ].
Qed.

Lemma HelperDisplayDeploymentResult_total (nameTag : str)
    (result : dcgmDiagTestResult_v3) :
  exists rows, HelperDisplayDeploymentResult nameTag result = Ok rows.
Proof.
  unfold HelperDisplayDeploymentResult. destruct (negb _); [|now exists []].
  apply emit_all_ok. constructor; [now eexists|].
  apply Forall_app. split.
  - apply Forall_forall. intros p Hp. apply in_map_iff in Hp as (j & <- & _).
    destruct (negb _); [apply DisplayVerboseInfo_total | now exists []].
  - constructor; [|constructor].
    destruct (negb _); [apply DisplayVerboseInfo_total | now exists []].
Qed.

Lemma text_report_total (d : Diag) (diagResult : dcgmDiagResponse_t)
    (gpuVec : list nat) :
  exists rows, text_report d diagResult gpuVec = Ok rows.
Proof.
  unfold text_report. apply emit_all_ok.
  repeat (apply Forall_cons; [try (eexists; reflexivity)|]); [| |apply Forall_nil].
  - unfold HelperDisplayDeployment. apply emit_all_ok.
    constructor; [now eexists|].
    apply Forall_forall. intros p Hp. apply in_map_iff in Hp as (i & <- & _).
    apply HelperDisplayDeploymentResult_total.
  - destruct (0 <? List.length gpuVec); [|now exists []].
    apply emit_all_ok.
    unfold HelperDisplayIntegration, HelperDisplayHardware, HelperDisplayPerformance.
    repeat (apply Forall_cons; [|try apply Forall_nil]);
      apply emit_all_ok;
      repeat (apply Forall_cons; [|try apply Forall_nil]);
      try (eexists; reflexivity);
      try apply HelperDisplayGpuResults_total;
      match goal with
      | |- exists _, (if ?c then _ else _) = _ =>
          destruct c; try apply HelperDisplayGpuResults_total; now exists []
      end.
Qed.

Lemma await_events_settled (t : list event) (w : World) :
  match await_events t w with
  | Ok w' => List.length (tape w') < List.length t
  | Waiting => True
  | _ => False
  end.
Proof.
  revert w; induction t as [|[signum|result response|] t IH]; intros w;
    cbn [await_events List.length].
  - exact Logic.I.
  - specialize (IH (handle_signal_during_diag signum w)).
    destruct (await_events t _); try assumption. lia.
  - specialize (IH (executor_exit result response w)).
    destruct (await_events t _); try assumption. lia.
  - cbn. lia.
Qed.

Lemma await_settled (w : World) :
  match await w with
  | Ok w' => List.length (tape w') < List.length (tape w)
  | Waiting => True
  | _ => False
  end.
Proof. apply await_events_settled. Qed.

(** The budget of the poll loop is never exhausted: every turn takes at
    least one event off the schedule. *)
Lemma poll_settled (fuel : nat) (d : Diag) (r0 : dcgmDiagResponse_t) (w : World) :
  List.length (tape w) < fuel ->
  settled (ExecuteDiagOnServer_poll fuel d r0 w).
Proof.
  revert w; induction fuel as [|fuel IH]; intros w Hf; [lia|].
  cbn [ExecuteDiagOnServer_poll].
  pose proof (await_settled w) as H1.
  destruct (await w) as [w1| | |]; cbn [rbind]; try exact H1; try exact Logic.I.
  destruct (g_signalExit w1); [exact Logic.I|].
  pose proof (await_settled w1) as H2.
  destruct (await w1) as [w2| | |]; cbn [rbind]; try exact H2; try exact Logic.I.
  destruct (rde w2); try exact Logic.I; apply IH; lia.
Qed.

Lemma ExecuteDiagOnServer_settled (d : Diag) (r0 : dcgmDiagResponse_t) (w : World) :
  settled (ExecuteDiagOnServer d r0 w).
Proof.
  unfold ExecuteDiagOnServer.
  pose proof (await_settled w) as H1.
  destruct (await w) as [w1| | |]; cbn [rbind]; try exact H1; try exact Logic.I.
  match goal with
  | |- context [ExecuteDiagOnServer_poll ?f d r0 ?w2] =>
      pose proof (@poll_settled f d r0 w2 (Nat.lt_succ_diag_r _)) as H2;
      destruct (ExecuteDiagOnServer_poll f d r0 w2) as [[[r resp] w3]| | |]
  end; cbn [rbind]; try exact H2; try exact Logic.I.
  pose proof (await_settled w3) as H3.
  destruct (await w3) as [w4| | |]; cbn [rbind]; try exact H3; exact Logic.I.
Qed.

Lemma RunDiagOnce_settled (d : Diag) (w : World) : settled (RunDiagOnce d w).
Proof.
  unfold RunDiagOnce.
  pose proof (ExecuteDiagOnServer_settled d InitializeDiagResponse (InstallSigHandlers w)) as H.
  destruct (ExecuteDiagOnServer d InitializeDiagResponse (InstallSigHandlers w))
    as [[[result response] w1]| | |]; cbn [rbind]; try exact H; try exact Logic.I.
  destruct result; try exact Logic.I.
  - destruct (negb (m_jsonOutput d) && negb (str_eqb (msg (systemError response)) []));
      [exact Logic.I|].
    destruct (m_jsonOutput d).
    + unfold HelperDisplayAsJson. destruct (m_iterations d <=? 1); exact Logic.I.
    + destruct (text_report_total d response (derive_gpuVec d response)) as [rows ->].
      exact Logic.I.
  - destruct (negb (is_OK (stop_result (call StopDiagnostic w1)))); exact Logic.I.
Qed.

Lemma RunStartDiag_loop_settled (indices : list nat) (overallRet : dcgmReturn_t)
    (output : Json) (d : Diag) (w : World) :
  settled (RunStartDiag_loop indices overallRet output d w).
Proof.
  revert overallRet output d w; induction indices as [|i indices IH];
    intros overallRet output d w; cbn [RunStartDiag_loop]; [exact Logic.I|].
  match goal with
  | |- context [RunDiagOnce ?d1 ?w1] =>
      pose proof (RunDiagOnce_settled d1 w1) as H;
      destruct (RunDiagOnce d1 w1) as [[[ret d2] w2]| | |]
  end; cbn [rbind]; try exact H; try exact Logic.I.
  destruct (negb (is_OK ret)); [exact Logic.I | apply IH].
Qed.

(** [RunStartDiag] returns, or the process is still waiting for the
    remote run when the recorded schedule ends. *)
Lemma RunStartDiag_settled (d : Diag) (w : World) : settled (RunStartDiag d w).
Proof.
  unfold RunStartDiag. destruct (m_iterations d <=? 1); [apply RunDiagOnce_settled|].
  cbn zeta.
  match goal with
  | |- context [RunStartDiag_loop ?l ?r ?o ?d1 ?w1] =>
      pose proof (RunStartDiag_loop_settled l r o d1 w1) as H;
      destruct (RunStartDiag_loop l r o d1 w1) as [[[[ret out] d2] w2]| | |]
  end; cbn [rbind]; try exact H; exact Logic.I.
Qed.

End Totality.

(** ** Scenarios *)

(** Two GPUs, GPU 0 passes everything, GPU 1 fails the PCIe test with an
    ordinary error: the buckets of the test are passed = [0], failed = [1],
    and the run is classified as a generic diagnostic error. *)
Example scenario_ordinary_failure :
  HelperDisplayGpuResults_buckets (headers := sample_headers) 2
    (perGpuResponses (one_failure 7)) [0; 1]
  = {| passed := [0]; failed := [1]; skipped := []; warned := [] |}
  /\ GetFailureResult (headers := sample_headers) (one_failure 7) = DCGM_ST_NVVS_ERROR.
Proof. split; reflexivity. Qed.

(** The same with an error of the isolate tier: the classification is the
    isolate error, whatever GPU 0 did. *)
Example scenario_isolate_failure :
  GetFailureResult (headers := sample_headers) (one_failure 95)
  = DCGM_ST_NVVS_ISOLATE_ERROR.
Proof. reflexivity. Qed.

(** No GPU filter and no slot populated: the response as
    [InitializeDiagResponse] leaves it has an empty GPU set, and the text
    report has no Integration, Hardware or Stress section. *)
Example scenario_no_gpu :
  derive_gpuVec (headers := sample_headers) (sample_Diag false 1)
    (InitializeDiagResponse (headers := sample_headers)) = []
  /\ text_report (headers := sample_headers) (sample_Diag false 1)
       (InitializeDiagResponse (headers := sample_headers)) []
     = Ok [ Text (lit "Successfully ran diagnostic for group."); Text endl;
            Text DIAG_HEADER; Text DIAG_INFO;
            Row (lit "DCGM Version") []; Row (lit "Driver Version Detected") [];
            Row (lit "GPU Device IDs Detected") [];
            Text DIAG_DEPLOYMENT; Text DIAG_FOOTER ].
Proof. split; reflexivity. Qed.

(** A whole run in text mode: the engine answers OK with a failing cell of
    the isolate tier; one request is sent, the report is printed, and the
    outcome of the run is the isolate error. *)
Example scenario_run_once :
  match RunDiagOnce (headers := sample_headers) (sample_Diag false 1)
          (quiet_world (plain_run DCGM_ST_OK (one_failure 95))) with
  | Ok (result, _, w) =>
      result = DCGM_ST_NVVS_ISOLATE_ERROR /\
      calls w = [ActionValidate sample_request] /\
      diag_installed_sig_handlers w = true /\
      diag_stopDiagOnSignal w = false /\
      In (Row (lit "") (lit "Fail - GPU: 1   ")) (stdout w)
  | _ => False
  end.
Proof. vm_compute. repeat split. tauto. Qed.

(** A timeout of the remote call: the supervisor asks the engine to stop
    the diagnostic and reports the timeout. *)
Example scenario_timeout :
  match RunDiagOnce (headers := sample_headers) (sample_Diag false 1)
          (quiet_world (plain_run DCGM_ST_TIMEOUT all_pass)) with
  | Ok (result, _, w) =>
      result = DCGM_ST_TIMEOUT /\
      calls w = [ActionValidate sample_request; StopDiagnostic]
  | _ => False
  end.
Proof. vm_compute. repeat split. Qed.

(** The schedule ends while the executor is still running: the supervisor
    is left waiting. *)
Example scenario_still_running :
  RunDiagOnce (headers := sample_headers) (sample_Diag false 1)
    (quiet_world ([EvRun] ++ idle_round ++ idle_round))
  = Waiting.
Proof. reflexivity. Qed.

(** * Further properties of the code *)

(** ** The fresh response and the GPU working set *)

Lemma ascending_seq (a n : nat) : ascending (seq a n).
Proof.
  revert a; induction n as [|n IH]; intros a; cbn; [exact I|].
  split; [|apply IH].
  apply Forall_forall. intros b Hb. apply in_seq in Hb. lia.
Qed.

Lemma ascending_filter (f : nat -> bool) (l : list nat) :
  ascending l -> ascending (filter f l).
Proof.
  induction l as [|a l IH]; cbn; [trivial|].
  intros [Ha Hl]. destruct (f a); cbn; [|now apply IH].
  split; [|now apply IH].
  apply Forall_forall. intros b Hb. apply filter_In in Hb.
  rewrite Forall_forall in Ha. now apply Ha.
Qed.

Lemma ascending_firstn (k : nat) (l : list nat) :
  ascending l -> ascending (firstn k l).
Proof.
  revert l; induction k as [|k IH]; intros [|a l]; cbn; trivial.
  intros [Ha Hl]. split; [|now apply IH].
  apply Forall_forall. intros b Hb.
  rewrite Forall_forall in Ha. apply Ha.
  rewrite <- (firstn_skipn k l). apply in_or_app. now left.
Qed.

Lemma ascending_NoDup (l : list nat) : ascending l -> NoDup l.
Proof.
  induction l as [|a l IH]; cbn; [constructor|].
  intros [Ha Hl]. constructor; [|now apply IH].
  intros Hin. rewrite Forall_forall in Ha. specialize (Ha a Hin). lia.
Qed.

Lemma existsb_eqb_seq (i n : nat) : existsb (Nat.eqb i) (seq 0 n) = (i <? n).
Proof.
  destruct (i <? n) eqn:E.
  - apply existsb_exists. exists i. apply Nat.ltb_lt in E.
    split; [apply in_seq; lia | apply Nat.eqb_refl].
  - apply Bool.not_true_is_false. intros H. apply existsb_exists in H.
    destruct H as (x & Hx & Hix). apply in_seq in Hx. apply Nat.eqb_eq in Hix.
    apply Nat.ltb_ge in E. lia.
Qed.

Lemma filter_none {A : Type} (f : A -> bool) (l : list A) :
  (forall x, In x l -> f x = false) -> filter f l = [].
Proof.
  induction l as [|a l IH]; intros H; cbn; [reflexivity|].
  rewrite (H a) by now left. apply IH. intros x Hx. apply H. now right.
Qed.

Section FreshResponse.

Context {headers : DcgmHeaders}.

(** The loop of [InitializeDiagResponse] touches the ids of the listed
    slots and nothing else. *)
Lemma set_slot_gpuId_fold (l : list nat) (g : nat) (r : dcgmDiagResponse_t) :
  let r' := fold_left (fun r i => set_slot_gpuId i g r) l r in
  version r' = version r /\ gpuCount r' = gpuCount r /\
  levelOneTestCount r' = levelOneTestCount r /\
  systemError r' = systemError r /\
  (forall i, gpuId (perGpuResponses r' i)
             = if existsb (Nat.eqb i) l then g else gpuId (perGpuResponses r i)) /\
  (forall i, results (perGpuResponses r' i) = results (perGpuResponses r i)).
Proof.
  revert r; induction l as [|a l IH]; intros r; cbn.
  - repeat split; reflexivity.
  - destruct (IH (set_slot_gpuId a g r)) as (Hv & Hc & Hl & Hs & Hg & Hr).
    cbn in Hv, Hc, Hl, Hs.
    repeat split; try assumption.
    + intros i. rewrite Hg. cbn. unfold array_set.
      rewrite (Nat.eqb_sym i a).
      destruct (existsb (Nat.eqb i) l), (a =? i) eqn:E; cbn;
        rewrite ?(Nat.eqb_sym i a), ?E; reflexivity.
    + intros i. rewrite Hr. cbn. unfold array_set.
      destruct (i =? a) eqn:E; [|reflexivity].
      apply Nat.eqb_eq in E. now subst.
Qed.

(** A response whose slots below the capacity all carry the sentinel
    selects no GPU, whatever its GPU count and its statuses. *)
Lemma PopulateGpuList_sentinel (r : dcgmDiagResponse_t) (v : list nat) :
  (forall i, i < DCGM_MAX_NUM_DEVICES ->
             gpuId (perGpuResponses r i) = DCGM_MAX_NUM_DEVICES) ->
  PopulateGpuList r v = v.
Proof.
  intros H. unfold PopulateGpuList, for_upto. rewrite PopulateGpuList_scan.
  replace (filter (participated r) (seq 0 DCGM_MAX_NUM_DEVICES)) with (@nil nat).
  - rewrite firstn_nil. apply app_nil_r.
  - symmetry. apply filter_none. intros i Hi. apply in_seq in Hi.
    unfold participated, overwritten. rewrite H by lia.
    now rewrite Nat.eqb_refl.
Qed.

(** X1.  [InitializeDiagResponse] stamps the version, leaves the counts
    and the system error empty, writes the sentinel id (the capacity) in
    every slot below the capacity and leaves every cell zeroed.  A
    response in which the ids are still the ones of the fresh response
    selects no GPU, whatever the GPU count and the statuses that it
    carries; and the fresh response classifies as OK unless the status
    with enumerator 0 is the failing one. *)
Theorem InitializeDiagResponse_blank :
  version InitializeDiagResponse = dcgmDiagResponse_version
  /\ gpuCount InitializeDiagResponse = 0
  /\ levelOneTestCount InitializeDiagResponse = 0
  /\ msg (systemError InitializeDiagResponse) = []
  /\ (forall i, gpuId (perGpuResponses InitializeDiagResponse i)
                = if i <? DCGM_MAX_NUM_DEVICES then DCGM_MAX_NUM_DEVICES else 0)
  /\ (forall i j, results (perGpuResponses InitializeDiagResponse i) j = zero_result)
  /\ (forall r v,
        (forall i, gpuId (perGpuResponses r i)
                   = gpuId (perGpuResponses InitializeDiagResponse i)) ->
        PopulateGpuList r v = v)
  /\ (dcgmDiagResult_zero <> DCGM_DIAG_RESULT_FAIL ->
      GetFailureResult InitializeDiagResponse = DCGM_ST_OK).
Proof.
  unfold InitializeDiagResponse.
  destruct (set_slot_gpuId_fold (seq 0 DCGM_MAX_NUM_DEVICES) DCGM_MAX_NUM_DEVICES
              (set_version dcgmDiagResponse_version zero_response))
    as (Hv & Hc & Hl & Hs & Hg & Hr).
  cbn zeta in *.
  assert (Hid : forall i,
             gpuId (perGpuResponses
                      (fold_left (fun r i => set_slot_gpuId i DCGM_MAX_NUM_DEVICES r)
                         (seq 0 DCGM_MAX_NUM_DEVICES)
                         (set_version dcgmDiagResponse_version zero_response)) i)
             = if i <? DCGM_MAX_NUM_DEVICES then DCGM_MAX_NUM_DEVICES else 0).
  { intros i. rewrite Hg, existsb_eqb_seq. reflexivity. }
  repeat split.
  - now rewrite Hv.
  - now rewrite Hc.
  - now rewrite Hl.
  - now rewrite Hs.
  - exact Hid.
  - intros i j. now rewrite Hr.
  - intros r v Hsame. apply PopulateGpuList_sentinel. intros i Hi.
    rewrite Hsame, Hid. apply Nat.ltb_lt in Hi. now rewrite Hi.
  - intros Hz. rewrite GetFailureResult_eq.
    assert (Hno : forall p, (forall cell, p cell = true -> failingb cell = true) ->
                            any_cell p
                              (fold_left (fun r i => set_slot_gpuId i DCGM_MAX_NUM_DEVICES r)
                                 (seq 0 DCGM_MAX_NUM_DEVICES)
                                 (set_version dcgmDiagResponse_version zero_response))
                            = false).
    { intros p Hp. apply Bool.not_true_is_false. intros Hany.
      apply any_cell_iff in Hany. destruct Hany as (cell & Hscan & Hcell).
      apply Hp in Hcell. apply failingb_iff in Hcell. unfold failing in Hcell.
      destruct Hscan as [(i & Hi & ->) | (i & j & _ & _ & ->)].
      - rewrite Hl in Hi. cbn in Hi. lia.
      - rewrite Hr in Hcell. cbn in Hcell. contradiction. }
    rewrite !Hno; [reflexivity | |].
    + intros cell H. unfold cell_fails in H. now apply andb_prop in H.
    + intros cell H. unfold cell_isolate in H. now apply andb_prop in H.
Qed.

(** X2.  [PopulateGpuList] only appends to the vector that it receives, at
    most as many indices as the GPU count still allows; started on the
    empty vector it yields the indices in strictly ascending order, so no
    GPU is listed twice. *)
Theorem PopulateGpuList_ascending (r : dcgmDiagResponse_t) :
  (forall v, exists l,
      PopulateGpuList r v = v ++ l /\
      List.length l <= gpuCount r - List.length v /\
      ascending l)
  /\ ascending (PopulateGpuList r [])
  /\ NoDup (PopulateGpuList r []).
Proof.
  assert (Hgen : forall v, exists l,
             PopulateGpuList r v = v ++ l /\
             List.length l <= gpuCount r - List.length v /\
             ascending l).
  { intros v.
    exists (firstn (gpuCount r - List.length v)
              (filter (participated r) (seq 0 DCGM_MAX_NUM_DEVICES))).
    split; [|split].
    - unfold PopulateGpuList, for_upto. apply PopulateGpuList_scan.
    - rewrite length_firstn. lia.
    - apply ascending_firstn, ascending_filter, ascending_seq. }
  split; [exact Hgen|].
  destruct (Hgen []) as (l & Hl & _ & Ha). rewrite Hl. cbn.
  split; [exact Ha | now apply ascending_NoDup].
Qed.

(** X3.  The exit code and the table agree on failures: when
    [GetFailureResult] answers OK, the Fail bucket of
    [HelperDisplayGpuResults] is empty for every test of the per-GPU
    matrix and every list of GPU indices below the capacity (a cell has at
    least one error slot). *)
Theorem GetFailureResult_OK_no_failed_gpu (r : dcgmDiagResponse_t)
    (testIndex : nat) (gpuIndices : list nat) :
  0 < DCGM_MAX_ERRORS ->
  GetFailureResult r = DCGM_ST_OK ->
  effective_testIndex testIndex < DCGM_PER_GPU_TEST_COUNT_V8 ->
  (forall g, In g gpuIndices -> g < DCGM_MAX_NUM_DEVICES) ->
  failed (HelperDisplayGpuResults_buckets testIndex (perGpuResponses r) gpuIndices) = [].
Proof.
  intros Herr Hok Ht Hg.
  rewrite GetFailureResult_eq in Hok.
  destruct (any_cell cell_isolate r) eqn:Hiso; [discriminate|].
  destruct (any_cell cell_fails r) eqn:Hfail; [discriminate|].
  rewrite HelperDisplayGpuResults_buckets_eq. cbn.
  unfold bucket_of.
  rewrite filter_none; [reflexivity|].
  intros g Hin.
  destruct (dcgmDiagResult_eqb (bucket_status testIndex (perGpuResponses r) g)
              DCGM_DIAG_RESULT_FAIL) eqn:E; [|reflexivity].
  assert (Hany : any_cell cell_fails r = true); [|congruence].
  apply any_cell_iff.
  exists (results (perGpuResponses r g) (effective_testIndex testIndex)).
  split.
  - right. exists g, (effective_testIndex testIndex).
    repeat split; [now apply Hg | exact Ht].
  - unfold cell_fails, failingb. unfold bucket_status in E. rewrite E.
    apply Nat.ltb_lt in Herr. now rewrite Herr.
Qed.

End FreshResponse.

Lemma GetFailureResult_OK_no_failed_gpu_witness :
  GetFailureResult (headers := sample_headers) all_pass = DCGM_ST_OK
  /\ failed (HelperDisplayGpuResults_buckets (headers := sample_headers) 2
               (perGpuResponses all_pass) [0; 1]) = [].
Proof.
  split; [vm_compute; reflexivity|].
  apply (@GetFailureResult_OK_no_failed_gpu sample_headers all_pass 2 [0; 1]).
  - vm_compute; lia.
  - vm_compute; reflexivity.
  - vm_compute; lia.
  - intros g [<- | [<- | []]]; vm_compute; lia.
Defined.

(** ** Messages: clean-up and layout *)

Lemma find_absent (pat s : str) :
  (forall q, ~ occurs_at pat s q) -> StdString.find pat s = None.
Proof.
  intros H. destruct (StdString.find pat s) as [p|] eqn:E; [|reflexivity].
  apply find_Some in E. destruct E as [Ho _]. now apply H in Ho.
Qed.

Lemma Sanitize_body_length (s : str) :
  List.length (Sanitize_body s) <= List.length s
  /\ (List.length (Sanitize_body s) = List.length s ->
      forall q, ~ occurs_at (lit "***") s q).
Proof.
  unfold Sanitize_body.
  destruct (StdString.find (lit "***") s) as [p|] eqn:E.
  - apply find_Some in E. destruct E as [Ho _].
    apply occurs_at_split in Ho. destruct Ho as [_ Hlen]. cbn in Hlen.
    rewrite length_skipn. split; [lia|]. intros H. lia.
  - split; [lia|]. intros _. now apply find_None.
Qed.

(** X4.  [Sanitize] never lengthens a message, and the messages that it
    returns unchanged are exactly those that hold no ["***"] and neither
    begin nor end with whitespace. *)
Theorem Sanitize_fixed_points (s : str) :
  (exists out, Sanitize s = Ok out /\ List.length out <= List.length s)
  /\ (Sanitize s = Ok s <->
      trimmed s /\ forall q, ~ occurs_at (lit "***") s q).
Proof.
  rewrite Sanitize_eq.
  pose proof (Sanitize_body_length s) as [Hle Hfull].
  pose proof (strip_ws_length (Sanitize_body s)) as Hstrip.
  split.
  - eexists. split; [reflexivity | lia].
  - split.
    + intros H. injection H as H.
      assert (Hlen : List.length (Sanitize_body s) = List.length s).
      { pose proof (f_equal (@List.length ascii) H) as HL. lia. }
      specialize (Hfull Hlen). split; [|exact Hfull].
      assert (Hbody : Sanitize_body s = s).
      { unfold Sanitize_body. now rewrite (find_absent Hfull). }
      rewrite Hbody in H.
      destruct (strip_ws_decomposition s) as (l & r & _ & _ & _ & Ht).
      now rewrite H in Ht.
    + intros [Ht Hfree].
      unfold Sanitize_body. rewrite (find_absent Hfree).
      now rewrite strip_ws_trimmed_fixed.
Qed.

(** The position [DATA_INFO_TAG_LEN * j] is inside a message of [n]
    characters exactly when row [j] is one of the rows that it takes. *)
Lemma rows_needed_spec (n j : nat) :
  DATA_INFO_TAG_LEN * j < n <-> j < rows_needed n.
Proof.
  unfold rows_needed, DATA_INFO_TAG_LEN. split; intros H.
  - apply (Nat.lt_le_trans _ (S j)); [lia|].
    apply Nat.div_le_lower_bound; lia.
  - destruct (Nat.lt_ge_cases (45 * j) n) as [Hlt | Hge]; [exact Hlt | exfalso].
    assert ((n + (45 - 1)) / 45 < S j); [|lia].
    apply Nat.Div0.div_lt_upper_bound. lia.
Qed.

Lemma DisplayVerboseInfo_loop_rows (name info : str) (fuel j : nat) :
  List.length info - DATA_INFO_TAG_LEN * j < fuel ->
  DisplayVerboseInfo_loop fuel name info (DATA_INFO_TAG_LEN * j)
  = Ok (map (message_row name info)
          (seq j (rows_needed (List.length info) - j))).
Proof.
  revert j; induction fuel as [|fuel IH]; intros j Hf; [lia|].
  cbn [DisplayVerboseInfo_loop]. unfold StdString.size.
  destruct (DATA_INFO_TAG_LEN * j <? List.length info) eqn:E.
  - apply Nat.ltb_lt in E.
    assert (Hj : j < rows_needed (List.length info)) by now apply rows_needed_spec.
    unfold StdString.substr, StdString.size.
    replace (DATA_INFO_TAG_LEN * j <=? List.length info) with true
      by (symmetry; apply Nat.leb_le; lia).
    cbn [rbind].
    replace (DATA_INFO_TAG_LEN * j + DATA_INFO_TAG_LEN) with (DATA_INFO_TAG_LEN * S j)
      by lia.
    rewrite IH by (unfold DATA_INFO_TAG_LEN in *; lia).
    cbn [rbind].
    replace (rows_needed (List.length info) - j)
      with (S (rows_needed (List.length info) - S j)) by lia.
    cbn [seq map]. unfold message_row at 2.
    replace (DATA_INFO_TAG_LEN * j =? 0) with (j =? 0); [reflexivity|].
    unfold DATA_INFO_TAG_LEN. destruct j; reflexivity.
  - apply Nat.ltb_ge in E.
    assert (Hj : ~ j < rows_needed (List.length info)).
    { intros Hj. apply rows_needed_spec in Hj. lia. }
    replace (rows_needed (List.length info) - j) with 0 by lia.
    reflexivity.
Qed.

Lemma DisplayVerboseInfo_eq (name info : str) :
  DisplayVerboseInfo name info = Ok (message_rows name info).
Proof.
  unfold DisplayVerboseInfo, message_rows.
  pose proof (@DisplayVerboseInfo_loop_rows name info
                (S (StdString.size info)) 0) as H.
  rewrite Nat.mul_0_r, !Nat.sub_0_r in H. apply H.
  unfold StdString.size. lia.
Qed.

(** X5.  [DisplayVerboseInfo] lays a message of [n] characters out on
    ceil(n / 45) rows: row [k] holds the characters [45 k .. 45 k + 44] of
    the message, the first row carries the name and every continuation row
    a blank label.  The empty message takes no row, not even one for the
    name. *)
Theorem DisplayVerboseInfo_layout (name info : str) :
  DisplayVerboseInfo name info
  = Ok (map (message_row name info) (seq 0 (rows_needed (List.length info))))
  /\ (rows_needed (List.length info) = 0 <-> info = [])
  /\ forall k, k < rows_needed (List.length info) ->
       message_row name info k
       = Row (if k =? 0 then name else lit "") (firstn 45 (skipn (45 * k) info))
       /\ (S k < rows_needed (List.length info) ->
           List.length (firstn 45 (skipn (45 * k) info)) = 45).
Proof.
  split; [|split].
  - apply DisplayVerboseInfo_eq.
  - split; intros H.
    + destruct info as [|c info]; [reflexivity | exfalso].
      assert (0 < rows_needed (List.length (c :: info))); [|lia].
      apply rows_needed_spec. cbn. lia.
    + subst info. reflexivity.
  - intros k Hk. split; [reflexivity|].
    intros Hnext. apply rows_needed_spec in Hnext. unfold DATA_INFO_TAG_LEN in Hnext.
    rewrite length_firstn, length_skipn. lia.
Qed.

(** ** The rows of a per-GPU test in the text report *)

Lemma emit_all_map {A : Type} (f : A -> res (list out_item))
    (g : A -> list out_item) (l : list A) :
  (forall x, In x l -> f x = Ok (g x)) ->
  emit_all (map f l) = Ok (flat_map g l).
Proof.
  induction l as [|a l IH]; intros H; [reflexivity|].
  cbn [map emit_all flat_map]. rewrite (H a) by now left.
  rewrite IH by (intros x Hx; apply H; now right).
  reflexivity.
Qed.

(** An empty message is not displayed; any other one is cleaned up and
    laid out. *)
Lemma Sanitized_display_eq (name m : str) :
  (if negb (str_eqb m [])
   then (text <- Sanitize m ;; DisplayVerboseInfo name text)%res
   else Ok [])
  = Ok (message_rows name (clean m)).
Proof.
  destruct m as [|c m]; [reflexivity|].
  rewrite str_eqb_nil_false by discriminate. cbn [negb].
  rewrite Sanitize_eq. cbn [rbind]. apply DisplayVerboseInfo_eq.
Qed.

Lemma filter_short {A : Type} (f : A -> bool) (l : list A) :
  (exists x, In x l /\ f x = false) ->
  List.length (filter f l) < List.length l.
Proof.
  intros (x & Hx & Hfx). induction l as [|a l IH]; [contradiction|].
  cbn [filter List.length].
  pose proof (filter_length_le f l) as Hle.
  destruct Hx as [-> | Hx].
  - rewrite Hfx. lia.
  - specialize (IH Hx). destruct (f a); cbn [List.length]; lia.
Qed.

Section Rows.

Context {headers : DcgmHeaders}.

Lemma HelperDisplayDetails_eq (d : Diag) (forceVerbose : bool)
    (gpuIndices : list nat) (testIndex : nat)
    (diagResults : array dcgmDiagResponsePerGpu_v5) :
  HelperDisplayDetails d forceVerbose gpuIndices testIndex diagResults
  = Ok (if verbose d || forceVerbose
        then detail_rows gpuIndices testIndex diagResults else []).
Proof.
  unfold HelperDisplayDetails. cbv zeta. fold (verbose d).
  destruct (verbose d), forceVerbose; cbn [orb]; try reflexivity.
  all: unfold detail_rows;
    rewrite (@emit_all_map _ _
               (fun g => flat_map
                           (fun j => message_rows (lit "Warning")
                                       (clean (msg (error (results (diagResults g) testIndex) j))))
                           (seq 0 DCGM_MAX_ERRORS)))
      by (intros g _; apply emit_all_map; intros j _; apply Sanitized_display_eq);
    rewrite (@emit_all_map _ _
               (fun g => message_rows (lit "Info")
                           (clean (info (results (diagResults g) testIndex)))))
      by (intros g _; apply Sanitized_display_eq);
    reflexivity.
Qed.

Lemma bucket_of_short (st : dcgmDiagResult_t) (testIndex : nat)
    (diagResults : array dcgmDiagResponsePerGpu_v5) (gpuIndices : list nat) :
  (exists g, In g gpuIndices /\ bucket_status testIndex diagResults g <> st) ->
  (List.length (bucket_of st testIndex diagResults gpuIndices)
   =? List.length gpuIndices) = false.
Proof.
  intros (g & Hg & Hst). apply Nat.eqb_neq.
  unfold bucket_of. rewrite length_map.
  assert (List.length
            (filter (fun g => dcgmDiagResult_eqb (bucket_status testIndex diagResults g) st)
               gpuIndices) < List.length gpuIndices); [|lia].
  apply filter_short. exists g. split; [exact Hg|].
  destruct (bucket_status testIndex diagResults g), st; try reflexivity; now elim Hst.
Qed.

(** X6.  What [HelperDisplayDetails] shows.  When the request is not
    verbose and the caller does not force it, nothing.  Otherwise the
    error messages of the GPUs in the order of the list, slot by slot,
    each one cleaned up by [Sanitize] and laid out under the label
    "Warning", and after all of them the notes of the GPUs under "Info";
    a message that [Sanitize] leaves empty takes no row. *)
Theorem HelperDisplayDetails_rows (d : Diag) (forceVerbose : bool)
    (gpuIndices : list nat) (testIndex : nat)
    (diagResults : array dcgmDiagResponsePerGpu_v5) :
  (verbose d = false -> forceVerbose = false ->
   HelperDisplayDetails d forceVerbose gpuIndices testIndex diagResults = Ok [])
  /\ (verbose d = true \/ forceVerbose = true ->
      HelperDisplayDetails d forceVerbose gpuIndices testIndex diagResults
      = Ok (flat_map
              (fun g =>
                 flat_map
                   (fun j =>
                      message_rows (lit "Warning")
                        (clean (msg (error (results (diagResults g) testIndex) j))))
                   (seq 0 DCGM_MAX_ERRORS))
              gpuIndices
            ++ flat_map
                 (fun g =>
                    message_rows (lit "Info")
                      (clean (info (results (diagResults g) testIndex))))
                 gpuIndices))
  /\ (forall name m, Sanitize m = Ok [] -> message_rows name (clean m) = []).
Proof.
  rewrite HelperDisplayDetails_eq. split; [|split].
  - now intros -> ->.
  - intros [-> | ->]; [reflexivity|]. now rewrite orb_true_r.
  - intros name m H. rewrite Sanitize_eq in H. injection H as H.
    unfold clean. now rewrite H.
Qed.

(** X7.  A test on which all the GPUs of the list have the same status
    pass, skip, fail or warn takes one summary row, "Pass - All",
    "Skip - All", "Fail - All" or "Warn - All", under the display name of
    the test, followed by the details.  After "Pass - All" the messages of
    the cells are shown only when the request is verbose; after the other
    three they are always shown.  The empty list of GPUs counts as
    "Pass - All".  The return code row after "Warn - All" appears when the
    name handed in is "Diagnostic", and it shows the code of slot 0. *)
Theorem HelperDisplayGpuResults_uniform (d : Diag) (dataName : str)
    (testIndex : nat) (diagResults : array dcgmDiagResponsePerGpu_v5)
    (gpuIndices : list nat) (st : dcgmDiagResult_t) :
  st = DCGM_DIAG_RESULT_PASS
  \/ (gpuIndices <> [] /\ st <> DCGM_DIAG_RESULT_NOT_RUN) ->
  (forall g, In g gpuIndices -> bucket_status testIndex diagResults g = st) ->
  HelperDisplayGpuResults d dataName testIndex diagResults gpuIndices
  = Ok (Row (HelperGetPluginName d testIndex) (lit (all_word st))
        :: (if verbose d || negb (dcgmDiagResult_eqb st DCGM_DIAG_RESULT_PASS)
            then detail_rows gpuIndices (effective_testIndex testIndex) diagResults
            else [])
        ++ (if dcgmDiagResult_eqb st DCGM_DIAG_RESULT_WARN
               && str_eqb dataName (lit "Diagnostic")
            then [Row (lit "")
                    (lit "  Code: (" ++ dec_padded 12 (hwDiagnosticReturn (diagResults 0))
                       ++ lit ")")]
            else [])).
Proof.
  intros Hst Hall.
  unfold HelperDisplayGpuResults. cbv zeta.
  rewrite HelperDisplayGpuResults_buckets_eq. cbn [passed failed warned skipped].
  rewrite !HelperDisplayDetails_eq.
  assert (Hlen : gpuIndices <> [] ->
                 (0 =? List.length gpuIndices) = false).
  { destruct gpuIndices; [now intros [] | reflexivity]. }
  destruct Hst as [-> | [Hne Hrun]].
  - rewrite (bucket_of_same _ _ _ Hall), Nat.eqb_refl.
    cbn [dcgmDiagResult_eqb negb andb all_word].
    rewrite orb_false_r, app_nil_r. reflexivity.
  - specialize (Hlen Hne).
    destruct st; try (now elim Hrun).
    + rewrite (bucket_of_same _ _ _ Hall), Nat.eqb_refl.
      cbn [dcgmDiagResult_eqb negb andb all_word].
      rewrite orb_false_r, app_nil_r. reflexivity.
    + rewrite (@bucket_of_other _ DCGM_DIAG_RESULT_SKIP DCGM_DIAG_RESULT_PASS _ _ _ Hall)
        by reflexivity.
      cbn [List.length]. rewrite Hlen.
      rewrite (bucket_of_same _ _ _ Hall), Nat.eqb_refl.
      cbn [dcgmDiagResult_eqb negb andb all_word].
      rewrite orb_true_r, app_nil_r. reflexivity.
    + rewrite (@bucket_of_other _ DCGM_DIAG_RESULT_WARN DCGM_DIAG_RESULT_PASS _ _ _ Hall)
        by reflexivity.
      rewrite (@bucket_of_other _ DCGM_DIAG_RESULT_WARN DCGM_DIAG_RESULT_SKIP _ _ _ Hall)
        by reflexivity.
      rewrite (@bucket_of_other _ DCGM_DIAG_RESULT_WARN DCGM_DIAG_RESULT_FAIL _ _ _ Hall)
        by reflexivity.
      cbn [List.length]. rewrite Hlen.
      rewrite (bucket_of_same _ _ _ Hall), Nat.eqb_refl.
      cbn [dcgmDiagResult_eqb negb andb all_word].
      rewrite orb_true_r.
      destruct (str_eqb dataName (lit "Diagnostic")); reflexivity.
    + rewrite (@bucket_of_other _ DCGM_DIAG_RESULT_FAIL DCGM_DIAG_RESULT_PASS _ _ _ Hall)
        by reflexivity.
      rewrite (@bucket_of_other _ DCGM_DIAG_RESULT_FAIL DCGM_DIAG_RESULT_SKIP _ _ _ Hall)
        by reflexivity.
      cbn [List.length]. rewrite Hlen.
      rewrite (bucket_of_same _ _ _ Hall), Nat.eqb_refl.
      cbn [dcgmDiagResult_eqb negb andb all_word].
      rewrite orb_true_r, app_nil_r. reflexivity.
Qed.

(** X8.  A test on which no status is shared by all the GPUs of the list
    takes one summary row per non-empty bucket, in the order pass, fail,
    warn, skip; the display name of the test labels the first of them and
    the others have a blank label.  The messages follow when the request
    is verbose or a GPU failed, warned or skipped.  When the test ran on
    none of the GPUs there is no summary row at all. *)
Theorem HelperDisplayGpuResults_mixed (d : Diag) (dataName : str)
    (testIndex : nat) (diagResults : array dcgmDiagResponsePerGpu_v5)
    (gpuIndices : list nat) :
  (forall st, st <> DCGM_DIAG_RESULT_NOT_RUN ->
              exists g, In g gpuIndices /\ bucket_status testIndex diagResults g <> st) ->
  let b := HelperDisplayGpuResults_buckets testIndex diagResults gpuIndices in
  HelperDisplayGpuResults d dataName testIndex diagResults gpuIndices
  = Ok (label_first (HelperGetPluginName d testIndex) (summary_values b)
        ++ (if verbose d
               || ((0 <? List.length (failed b)) || (0 <? List.length (warned b))
                   || (0 <? List.length (skipped b)))
            then detail_rows gpuIndices (effective_testIndex testIndex) diagResults
            else []))
  /\ ((forall g, In g gpuIndices ->
                 bucket_status testIndex diagResults g = DCGM_DIAG_RESULT_NOT_RUN) ->
      summary_values b = []).
Proof.
  intros Hmix b.
  assert (Hp := @bucket_of_short _ _ _ _ (Hmix DCGM_DIAG_RESULT_PASS ltac:(discriminate))).
  assert (Hs := @bucket_of_short _ _ _ _ (Hmix DCGM_DIAG_RESULT_SKIP ltac:(discriminate))).
  assert (Hf := @bucket_of_short _ _ _ _ (Hmix DCGM_DIAG_RESULT_FAIL ltac:(discriminate))).
  assert (Hw := @bucket_of_short _ _ _ _ (Hmix DCGM_DIAG_RESULT_WARN ltac:(discriminate))).
  assert (Hb : b = {| passed := bucket_of DCGM_DIAG_RESULT_PASS testIndex diagResults gpuIndices;
                      failed := bucket_of DCGM_DIAG_RESULT_FAIL testIndex diagResults gpuIndices;
                      skipped := bucket_of DCGM_DIAG_RESULT_SKIP testIndex diagResults gpuIndices;
                      warned := bucket_of DCGM_DIAG_RESULT_WARN testIndex diagResults gpuIndices |})
    by apply HelperDisplayGpuResults_buckets_eq.
  split.
  - unfold HelperDisplayGpuResults. cbv zeta. fold b.
    rewrite Hb. cbn [passed failed warned skipped].
    rewrite Hp, Hs, Hf, Hw.
    unfold summary_values. cbn [filter map fst snd passed failed warned skipped].
    destruct (0 <? List.length (bucket_of DCGM_DIAG_RESULT_PASS testIndex diagResults gpuIndices));
      destruct (0 <? List.length (bucket_of DCGM_DIAG_RESULT_FAIL testIndex diagResults gpuIndices));
      destruct (0 <? List.length (bucket_of DCGM_DIAG_RESULT_WARN testIndex diagResults gpuIndices));
      destruct (0 <? List.length (bucket_of DCGM_DIAG_RESULT_SKIP testIndex diagResults gpuIndices));
      cbn [map label_first fst snd app orb];
      rewrite HelperDisplayDetails_eq, ?orb_true_r, ?orb_false_r;
      reflexivity.
  - intros Hnone. rewrite Hb. unfold summary_values.
    cbn [passed failed warned skipped].
    rewrite (@bucket_of_other _ DCGM_DIAG_RESULT_NOT_RUN DCGM_DIAG_RESULT_PASS _ _ _ Hnone)
      by reflexivity.
    rewrite (@bucket_of_other _ DCGM_DIAG_RESULT_NOT_RUN DCGM_DIAG_RESULT_FAIL _ _ _ Hnone)
      by reflexivity.
    rewrite (@bucket_of_other _ DCGM_DIAG_RESULT_NOT_RUN DCGM_DIAG_RESULT_WARN _ _ _ Hnone)
      by reflexivity.
    rewrite (@bucket_of_other _ DCGM_DIAG_RESULT_NOT_RUN DCGM_DIAG_RESULT_SKIP _ _ _ Hnone)
      by reflexivity.
    reflexivity.
Qed.

End Rows.

Lemma HelperDisplayGpuResults_uniform_witness :
  HelperDisplayGpuResults (headers := sample_headers) (sample_Diag false 1)
    (lit "pcie") 2 (perGpuResponses all_pass) [0; 1]
  = Ok [Row (lit "PCIe") (lit "Pass - All")].
Proof.
  apply (@HelperDisplayGpuResults_uniform sample_headers (sample_Diag false 1)
           (lit "pcie") 2 (perGpuResponses all_pass) [0; 1] DCGM_DIAG_RESULT_PASS).
  - now left.
  - intros g [<- | [<- | []]]; vm_compute; reflexivity.
Defined.

Lemma HelperDisplayGpuResults_mixed_witness :
  HelperDisplayGpuResults (headers := sample_headers) (sample_Diag false 1)
    (lit "pcie") 2 (perGpuResponses (one_failure 7)) [0; 1]
  = Ok [Row (lit "PCIe") (lit "Pass - GPU: 0   ");
        Row (lit "") (lit "Fail - GPU: 1   ");
        Row (lit "Warning") (lit "failure")].
Proof.
  apply (@HelperDisplayGpuResults_mixed sample_headers (sample_Diag false 1)
           (lit "pcie") 2 (perGpuResponses (one_failure 7)) [0; 1]).
  intros st Hst.
  destruct st; [exists 1 | exists 0 | exists 0 | exists 0 | now elim Hst];
    (split; [cbn; tauto | vm_compute; discriminate]).
Defined.

(** ** The supervisor and the state of the process *)

Lemma aborts_app (a b : list remote_call) : aborts (a ++ b) = aborts a + aborts b.
Proof. unfold aborts. now rewrite filter_app, length_app. Qed.

Lemma stops_app (a b : list remote_call) : stops (a ++ b) = stops a + stops b.
Proof. unfold stops. now rewrite filter_app, length_app. Qed.

Lemma dispatched_app (a b : list remote_call) :
  dispatched (a ++ b) = dispatched a ++ dispatched b.
Proof. unfold dispatched. apply flat_map_app. Qed.

(** What the environment leaves alone while the supervising thread waits:
    it sends nothing, prints nothing, does not arm or disarm, never clears
    the cancellation flag and never restarts a stopped executor. *)
Lemma await_events_frame (t : list event) (w w' : World) :
  await_events t w = Ok w' ->
  calls w' = calls w /\ stdout w' = stdout w /\
  diag_installed_sig_handlers w' = diag_installed_sig_handlers w /\
  stop_result w' = stop_result w /\
  diag_stopDiagOnSignal w' = diag_stopDiagOnSignal w /\
  (g_signalExit w = true -> g_signalExit w' = true) /\
  (rde w = Idle -> rde w' = Idle).
Proof.
  revert w; induction t as [|e t IH]; intros w; cbn [await_events]; [discriminate|].
  destruct e as [signum|result response|].
  - intros H. destruct (IH _ H) as (H1 & H2 & H3 & H4 & H5 & H6 & H7).
    unfold handle_signal_during_diag in *.
    destruct (diag_stopDiagOnSignal w) eqn:Ea; cbn in *;
      repeat split; try congruence; auto.
  - intros H. destruct (IH _ H) as (H1 & H2 & H3 & H4 & H5 & H6 & H7).
    unfold executor_exit in *.
    destruct (rde w) eqn:Er; cbn in *; repeat split; try congruence; auto.
  - intros [= <-]. cbn. repeat split; auto.
Qed.

Lemma await_frame (w w' : World) :
  await w = Ok w' ->
  calls w' = calls w /\ stdout w' = stdout w /\
  diag_installed_sig_handlers w' = diag_installed_sig_handlers w /\
  stop_result w' = stop_result w /\
  diag_stopDiagOnSignal w' = diag_stopDiagOnSignal w /\
  (g_signalExit w = true -> g_signalExit w' = true) /\
  (rde w = Idle -> rde w' = Idle).
Proof. apply await_events_frame. Qed.

(** The poll loop: it sends at most the abort request, and only on the
    way out with the killed outcome and the caller's response. *)
Lemma poll_frame (fuel : nat) (d : Diag) (r0 response : dcgmDiagResponse_t)
    (w w' : World) (result : dcgmReturn_t) :
  ExecuteDiagOnServer_poll fuel d r0 w = Ok (result, response, w') ->
  stdout w' = stdout w /\
  diag_installed_sig_handlers w' = diag_installed_sig_handlers w /\
  stop_result w' = stop_result w /\
  diag_stopDiagOnSignal w' = diag_stopDiagOnSignal w /\
  (calls w' = calls w /\ (g_signalExit w = true -> False)
   \/ (calls w' = calls w ++ [Abort (m_hostname d)] /\
       result = DCGM_ST_NVVS_KILLED /\ response = r0 /\
       g_signalExit w' = true /\ rde w' = Idle)).
Proof.
  revert w; induction fuel as [|fuel IH]; intros w; cbn [ExecuteDiagOnServer_poll];
    [discriminate|].
  destruct (await w) as [w1| | |] eqn:E1; cbn [rbind]; try discriminate.
  apply await_frame in E1. destruct E1 as (A1 & A2 & A3 & A4 & A5 & A6 & _).
  destruct (g_signalExit w1) eqn:Eg.
  - intros [= <- <- <-]. cbn. repeat split; try congruence.
    right. repeat split; congruence.
  - destruct (await w1) as [w2| | |] eqn:E2; cbn [rbind]; try discriminate.
    apply await_frame in E2. destruct E2 as (B1 & B2 & B3 & B4 & B5 & B6 & _).
    assert (Hflag : g_signalExit w = true -> False).
    { intros Hw. apply A6 in Hw. congruence. }
    assert (Hrec : ExecuteDiagOnServer_poll fuel d r0 w2 = Ok (result, response, w') ->
                   stdout w' = stdout w /\
                   diag_installed_sig_handlers w' = diag_installed_sig_handlers w /\
                   stop_result w' = stop_result w /\
                   diag_stopDiagOnSignal w' = diag_stopDiagOnSignal w /\
                   (calls w' = calls w /\ (g_signalExit w = true -> False)
                    \/ (calls w' = calls w ++ [Abort (m_hostname d)] /\
                        result = DCGM_ST_NVVS_KILLED /\ response = r0 /\
                        g_signalExit w' = true /\ rde w' = Idle))).
    { intros H. destruct (IH _ H) as (C1 & C2 & C3 & C4 & C5).
      repeat split; try congruence.
      destruct C5 as [[C5 _] | (C5 & C6 & C7 & C8 & C9)].
      - left. split; [congruence | exact Hflag].
      - right. repeat split; congruence. }
    destruct (rde w2); try exact Hrec.
    intros [= <- <- <-]. repeat split; try congruence.
    left. split; [congruence | exact Hflag].
Qed.

(** One run of the supervisor, seen from the process. *)
Lemma ExecuteDiagOnServer_frame (d : Diag) (r0 response : dcgmDiagResponse_t)
    (w w' : World) (result : dcgmReturn_t) :
  ExecuteDiagOnServer d r0 w = Ok (result, response, w') ->
  diag_stopDiagOnSignal w' = false /\
  stdout w' = stdout w /\
  diag_installed_sig_handlers w' = diag_installed_sig_handlers w /\
  stop_result w' = stop_result w /\
  (g_signalExit w = true -> g_signalExit w' = true) /\
  (calls w' = calls w ++ [ActionValidate (m_drd d)] /\ (g_signalExit w = true -> False)
   \/ (calls w' = calls w ++ [ActionValidate (m_drd d); Abort (m_hostname d)] /\
       result = DCGM_ST_NVVS_KILLED /\ response = r0 /\
       g_signalExit w' = true /\ rde w' = Idle)).
Proof.
  unfold ExecuteDiagOnServer.
  destruct (await w) as [w1| | |] eqn:E1; cbn [rbind]; try discriminate.
  apply await_frame in E1. destruct E1 as (A1 & A2 & A3 & A4 & A5 & A6 & _).
  match goal with
  | |- context [ExecuteDiagOnServer_poll ?f d r0 ?w2] =>
      destruct (ExecuteDiagOnServer_poll f d r0 w2) as [[[r resp] w3]| | |] eqn:E2
  end; cbn [rbind]; try discriminate.
  apply poll_frame in E2. cbn in E2. destruct E2 as (B1 & B2 & B3 & B4 & B5).
  destruct (await w3) as [w4| | |] eqn:E3; cbn [rbind]; try discriminate.
  apply await_frame in E3. destruct E3 as (C1 & C2 & C3 & C4 & C5 & C6 & C7).
  intros [= <- <- <-]. cbn.
  repeat split; try congruence.
  - intros Hw. apply A6 in Hw.
    destruct B5 as [[_ B5] | (_ & _ & _ & B5 & _)]; [now elim B5 | now apply C6].
  - destruct B5 as [[B5 B6] | (B5 & B6 & B7 & B8 & B9)].
    + left. split; [congruence | intros Hw; apply B6; now apply A6].
    + right. rewrite <- app_assoc in B5. cbn in B5.
      repeat split; try congruence; auto.
Qed.

(** X9.  Whatever the schedule, a run of [ExecuteDiagOnServer] that
    returns leaves the process disarmed, has printed nothing, has sent the
    run request of the object and after it at most one abort request, and
    has not cleared the cancellation flag.  An abort request goes with the
    killed outcome, the caller's response left as it was, the flag set and
    the executor stopped.  A run that starts with the flag already set
    (left by a signal of an earlier run) is killed in this way. *)
Theorem ExecuteDiagOnServer_invariants (d : Diag) (r0 response : dcgmDiagResponse_t)
    (w w' : World) (result : dcgmReturn_t) :
  ExecuteDiagOnServer d r0 w = Ok (result, response, w') ->
  diag_stopDiagOnSignal w' = false
  /\ stdout w' = stdout w
  /\ dispatched (calls w') = dispatched (calls w) ++ [m_drd d]
  /\ aborts (calls w') <= aborts (calls w) + 1
  /\ stops (calls w') = stops (calls w)
  /\ (g_signalExit w = true -> g_signalExit w' = true)
  /\ (aborts (calls w') = aborts (calls w) + 1 ->
      calls w' = calls w ++ [ActionValidate (m_drd d); Abort (m_hostname d)] /\
      result = DCGM_ST_NVVS_KILLED /\ response = r0 /\
      g_signalExit w' = true /\ rde w' = Idle)
  /\ (g_signalExit w = true -> aborts (calls w') = aborts (calls w) + 1).
Proof.
  intros H. apply ExecuteDiagOnServer_frame in H.
  destruct H as (H1 & H2 & _ & _ & H5 & H6).
  destruct H6 as [[Hc Hflag] | (Hc & Hk & Hr & Hg & He)]; rewrite Hc;
    rewrite ?dispatched_app, ?aborts_app, ?stops_app; cbn;
    rewrite ?app_nil_r, ?Nat.add_0_r.
  - repeat split; auto; try lia. intros Hw. now elim (Hflag Hw).
  - repeat split; auto.
Qed.

Lemma ExecuteDiagOnServer_invariants_witness :
  exists w',
    ExecuteDiagOnServer (sample_Diag false 1)
      (InitializeDiagResponse (headers := sample_headers))
      (set_g_signalExit true (supervised_world [EvRun; EvRun; EvRun]))
    = Ok (DCGM_ST_NVVS_KILLED, InitializeDiagResponse (headers := sample_headers), w')
    /\ diag_stopDiagOnSignal w' = false
    /\ aborts (calls w') = 1.
Proof.
  set (w := set_g_signalExit true (supervised_world [EvRun; EvRun; EvRun])).
  set (r0 := InitializeDiagResponse (headers := sample_headers)).
  let v := eval vm_compute in (ExecuteDiagOnServer (sample_Diag false 1) r0 w) in
  match v with
  | Ok (?result, _, ?w') =>
      assert (Hrun : ExecuteDiagOnServer (sample_Diag false 1) r0 w = Ok (result, r0, w'))
        by (vm_compute; reflexivity);
      exists w'; split; [exact Hrun|];
      destruct (ExecuteDiagOnServer_invariants _ _ _ Hrun)
        as (Hd & _ & _ & _ & _ & _ & _ & Ha);
      split; [exact Hd | exact (Ha eq_refl)]
  end.
Defined.

(** The supervisor reads the request and the host name of the object and
    nothing else of it. *)
Lemma poll_object (fuel : nat) (d1 d2 : Diag) (r0 : dcgmDiagResponse_t) (w : World) :
  m_hostname d1 = m_hostname d2 ->
  ExecuteDiagOnServer_poll fuel d1 r0 w = ExecuteDiagOnServer_poll fuel d2 r0 w.
Proof.
  intros Hh. revert w; induction fuel as [|fuel IH]; intros w; [reflexivity|].
  cbn [ExecuteDiagOnServer_poll].
  destruct (await w) as [w1| | |]; cbn [rbind]; try reflexivity.
  rewrite Hh. destruct (g_signalExit w1); [reflexivity|].
  destruct (await w1) as [w2| | |]; cbn [rbind]; try reflexivity.
  destruct (rde w2); try apply IH; reflexivity.
Qed.

Lemma ExecuteDiagOnServer_object (d1 d2 : Diag) (r0 : dcgmDiagResponse_t) (w : World) :
  m_drd d1 = m_drd d2 -> m_hostname d1 = m_hostname d2 ->
  ExecuteDiagOnServer d1 r0 w = ExecuteDiagOnServer d2 r0 w.
Proof.
  intros Hd Hh. unfold ExecuteDiagOnServer.
  destruct (await w) as [w1| | |]; cbn [rbind]; try reflexivity.
  rewrite Hd. now rewrite (@poll_object _ d1 d2 r0 _ Hh).
Qed.

Section Runs.

Context {headers : DcgmHeaders}.

(** What a return of [RunDiagOnce] tells about the run of the supervisor
    behind it. *)
Lemma RunDiagOnce_inv (d d' : Diag) (w w' : World) (r : dcgmReturn_t) :
  RunDiagOnce d w = Ok (r, d', w') ->
  exists result response w1 printed,
    ExecuteDiagOnServer d InitializeDiagResponse (InstallSigHandlers w)
    = Ok (result, response, w1) /\
    w' = print printed (after_timeout result w1) /\
    (result <> DCGM_ST_OK -> r = result /\ d' = d).
Proof.
  unfold RunDiagOnce.
  destruct (ExecuteDiagOnServer d InitializeDiagResponse (InstallSigHandlers w))
    as [[[result response] w1]| | |] eqn:E; cbn [rbind]; try discriminate.
  intros H. exists result, response, w1.
  destruct result; cbn [after_timeout].
  - destruct (negb (m_jsonOutput d) && negb (str_eqb (msg (systemError response)) [])).
    + injection H as <- <- <-. eexists. repeat split; try reflexivity; now elim H.
    + destruct (m_jsonOutput d).
      * unfold HelperDisplayAsJson in H.
        destruct (m_iterations d <=? 1); cbn [rbind] in H; injection H as <- <- <-;
          eexists; repeat split; try reflexivity; now elim H.
      * destruct (text_report d response (derive_gpuVec d response)) as [rows| | |];
          cbn [rbind] in H; try discriminate.
        injection H as <- <- <-. eexists. repeat split; try reflexivity; now elim H.
  - injection H as <- <- <-. eexists. repeat split; reflexivity.
  - injection H as <- <- <-. eexists. repeat split; reflexivity.
  - injection H as <- <- <-. eexists. repeat split; reflexivity.
  - destruct (negb (is_OK (stop_result (call StopDiagnostic w1))));
      injection H as <- <- <-; eexists; repeat split; reflexivity.
  - injection H as <- <- <-. eexists. repeat split; reflexivity.
  - injection H as <- <- <-. eexists. repeat split; reflexivity.
  - injection H as <- <- <-. eexists. repeat split; reflexivity.
  - injection H as <- <- <-. eexists. repeat split; reflexivity.
Qed.

(** One run, seen from the process: it ends with the handlers installed
    and the process disarmed, it does not clear the cancellation flag, it
    sends an abort request exactly when it ends killed by the flag, and a
    stop request exactly when it timed out. *)
Lemma RunDiagOnce_frame (d d' : Diag) (w w' : World) (r : dcgmReturn_t) :
  RunDiagOnce d w = Ok (r, d', w') ->
  diag_installed_sig_handlers w' = true /\
  diag_stopDiagOnSignal w' = false /\
  (g_signalExit w = true -> g_signalExit w' = true) /\
  (aborts (calls w') = aborts (calls w) /\ (g_signalExit w = true -> False)
   \/ aborts (calls w') = aborts (calls w) + 1 /\ r = DCGM_ST_NVVS_KILLED /\ d' = d) /\
  (stops (calls w') = stops (calls w) /\ r <> DCGM_ST_TIMEOUT
   \/ stops (calls w') = stops (calls w) + 1 /\ r = DCGM_ST_TIMEOUT).
Proof.
  intros H. pose proof H as Hinv. apply RunDiagOnce_inv in Hinv.
  destruct Hinv as (result & response & w1 & printed & Hrun & -> & Hfail).
  pose proof Hrun as Hfr. apply ExecuteDiagOnServer_frame in Hfr.
  destruct Hfr as (H1 & _ & H3 & _ & H5 & H6).
  assert (Hi : diag_installed_sig_handlers (InstallSigHandlers w) = true).
  { unfold InstallSigHandlers.
    now destruct (diag_installed_sig_handlers w) eqn:E. }
  assert (Hg : g_signalExit (InstallSigHandlers w) = g_signalExit w).
  { unfold InstallSigHandlers. now destruct (diag_installed_sig_handlers w). }
  assert (Hc : calls (InstallSigHandlers w) = calls w).
  { unfold InstallSigHandlers. now destruct (diag_installed_sig_handlers w). }
  rewrite Hg in H5, H6. rewrite Hc in H6.
  assert (Hafter :
            diag_installed_sig_handlers (after_timeout result w1)
            = diag_installed_sig_handlers w1 /\
            diag_stopDiagOnSignal (after_timeout result w1) = diag_stopDiagOnSignal w1 /\
            g_signalExit (after_timeout result w1) = g_signalExit w1 /\
            (calls (after_timeout result w1) = calls w1 /\ result <> DCGM_ST_TIMEOUT
             \/ calls (after_timeout result w1) = calls w1 ++ [StopDiagnostic]
                /\ result = DCGM_ST_TIMEOUT)).
  { destruct result; cbn; repeat split; try (left; split; [reflexivity | discriminate]).
    right. split; reflexivity. }
  destruct Hafter as (K1 & K2 & K3 & K4).
  cbn [print diag_installed_sig_handlers diag_stopDiagOnSignal g_signalExit calls].
  rewrite K1, K2, K3.
  split; [congruence|]. split; [exact H1|]. split; [exact H5|].
  split.
  - destruct K4 as [[K4 Kt] | [K4 Kt]]; rewrite K4;
      destruct H6 as [[Hcalls Hflag] | (Hcalls & Hk & _ & _ & _)]; rewrite Hcalls;
      rewrite ?aborts_app; cbn; rewrite ?Nat.add_0_r; auto.
    + right. destruct Hfail as [-> ->]; [rewrite Hk; discriminate | auto].
    + congruence.
  - destruct K4 as [[K4 Kt] | [K4 Kt]]; rewrite K4;
      destruct H6 as [[Hcalls Hflag] | (Hcalls & Hk & _ & _ & _)]; rewrite Hcalls;
      rewrite ?stops_app; cbn; rewrite ?Nat.add_0_r.
    + left. split; [reflexivity|].
      destruct result; try (destruct Hfail as [-> _]; [discriminate | exact Kt]).
      (* the remote call returned OK: the outcome is a classification *)
      clear - H Hrun. intros ->. unfold RunDiagOnce in H. rewrite Hrun in H.
      cbn [rbind] in H.
      destruct (negb (m_jsonOutput d) && negb (str_eqb (msg (systemError response)) []));
        [discriminate|].
      destruct (m_jsonOutput d).
      * unfold HelperDisplayAsJson in H.
        destruct (m_iterations d <=? 1); cbn [rbind is_OK] in H;
          rewrite GetFailureResult_eq in H;
          destruct (any_cell cell_isolate response), (any_cell cell_fails response);
          discriminate.
      * destruct (text_report d response (derive_gpuVec d response)); cbn [rbind is_OK] in H;
          try discriminate.
        rewrite GetFailureResult_eq in H.
        destruct (any_cell cell_isolate response), (any_cell cell_fails response);
          discriminate.
    + left. split; [reflexivity|]. destruct Hfail as [-> _]; [rewrite Hk; discriminate|].
      rewrite Hk. discriminate.
    + right. split; [lia|]. destruct Hfail as [-> _]; [rewrite Kt; discriminate | exact Kt].
    + congruence.
Qed.

End Runs.

(** ** Runs that fail, and runs in a row *)

Section RunOutcomes.

Context {headers : DcgmHeaders}.

(** The one message of a failed run: verbatim in text mode, as the
    runtime error of a document of its own in structured mode. *)
Lemma HelperDisplayFailureMessage_shape (d : Diag) (errMsg : str) :
  (m_jsonOutput d = false ->
   HelperDisplayFailureMessage d errMsg = [Text errMsg; Text endl])
  /\ (m_jsonOutput d = true ->
      exists doc,
        HelperDisplayFailureMessage d errMsg = [Styled doc; Text endl] /\
        JsonValue.get [K NVVS_NAME; K NVVS_RUNTIME_ERROR] doc = JStr errMsg /\
        JsonValue.get [K NVVS_NAME; K NVVS_VERSION_STR] doc = JStr GetVersion).
Proof.
  unfold HelperDisplayFailureMessage. split; intros ->; [reflexivity|].
  eexists. split; [reflexivity|]. split; reflexivity.
Qed.

(** X10.  When the remote call ends with any result other than OK,
    [RunDiagOnce] returns this result, leaves the object as it was (no
    report is built), and prints exactly one message, which is not empty:
    as a line of text, or in structured mode as the runtime error of a
    document that also carries the version.  It asks the engine to stop
    the diagnostic exactly when the result is the timeout.  For the
    results without a fixed text, a system error message of the response
    comes first in the message. *)
Theorem RunDiagOnce_failure (d : Diag) (w w1 : World) (result : dcgmReturn_t)
    (response : dcgmDiagResponse_t) :
  ExecuteDiagOnServer d InitializeDiagResponse (InstallSigHandlers w)
  = Ok (result, response, w1) ->
  result <> DCGM_ST_OK ->
  exists errMsg,
    RunDiagOnce d w
    = Ok (result, d, print (HelperDisplayFailureMessage d errMsg) (after_timeout result w1))
    /\ errMsg <> []
    /\ (result <> DCGM_ST_GROUP_INCOMPATIBLE -> result <> DCGM_ST_NOT_SUPPORTED ->
        result <> DCGM_ST_PAUSED -> msg (systemError response) <> [] ->
        exists suffix, errMsg = msg (systemError response) ++ suffix)
    /\ (m_jsonOutput d = false ->
        HelperDisplayFailureMessage d errMsg = [Text errMsg; Text endl])
    /\ (m_jsonOutput d = true ->
        exists doc,
          HelperDisplayFailureMessage d errMsg = [Styled doc; Text endl] /\
          JsonValue.get [K NVVS_NAME; K NVVS_RUNTIME_ERROR] doc = JStr errMsg /\
          JsonValue.get [K NVVS_NAME; K NVVS_VERSION_STR] doc = JStr GetVersion)
    /\ stops (calls (after_timeout result w1))
       = stops (calls w1) + (match result with DCGM_ST_TIMEOUT => 1 | _ => 0 end).
Proof.
  intros Hrun Hfail. unfold RunDiagOnce. rewrite Hrun. cbn [rbind].
  assert (Hgeneric :
            forall tail : str,
              (if negb (str_eqb (msg (systemError response)) [])
               then msg (systemError response)
               else lit "Error: Unable to complete diagnostic for group "
                      ++ dec (groupId (m_drd d)) ++ lit ". Return: ("
                      ++ dcgmReturn_value result ++ lit ") " ++ errorString result
                      ++ lit ".") ++ tail <> []
              /\ (msg (systemError response) <> [] ->
                  exists suffix,
                    (if negb (str_eqb (msg (systemError response)) [])
                     then msg (systemError response)
                     else lit "Error: Unable to complete diagnostic for group "
                            ++ dec (groupId (m_drd d)) ++ lit ". Return: ("
                            ++ dcgmReturn_value result ++ lit ") " ++ errorString result
                            ++ lit ".") ++ tail
                    = msg (systemError response) ++ suffix)).
  { intros tail. destruct (msg (systemError response)) as [|c m] eqn:Em.
    - split; [discriminate | intros C; now elim C].
    - rewrite str_eqb_nil_false by discriminate. cbn [negb].
      split; [discriminate | intros _; now exists tail]. }
  destruct result; try (now elim Hfail); cbn [after_timeout].
  1-3: eexists; split; [reflexivity|]; split; [discriminate|];
    split; [intros A B C; try (now elim A); try (now elim B); now elim C|];
    split; [apply HelperDisplayFailureMessage_shape|];
    split; [apply HelperDisplayFailureMessage_shape|];
    now rewrite Nat.add_0_r.
  2-5: destruct (Hgeneric []) as [Hne Hpre]; rewrite app_nil_r in Hne, Hpre;
    eexists; split; [reflexivity|]; split; [exact Hne|];
    split; [intros _ _ _; exact Hpre|];
    split; [apply HelperDisplayFailureMessage_shape|];
    split; [apply HelperDisplayFailureMessage_shape|];
    now rewrite Nat.add_0_r.
  destruct (negb (is_OK (stop_result (call StopDiagnostic w1)))).
  - destruct (Hgeneric (endl ++ lit "Error: Could not stop the launched diagnostic."))
      as [Hne Hpre].
    eexists; split; [reflexivity|]; split; [exact Hne|];
      split; [intros _ _ _; exact Hpre|];
      split; [apply HelperDisplayFailureMessage_shape|];
      split; [apply HelperDisplayFailureMessage_shape|].
    cbn [calls call]. rewrite stops_app. reflexivity.
  - destruct (Hgeneric []) as [Hne Hpre]; rewrite app_nil_r in Hne, Hpre.
    eexists; split; [reflexivity|]; split; [exact Hne|];
      split; [intros _ _ _; exact Hpre|];
      split; [apply HelperDisplayFailureMessage_shape|];
      split; [apply HelperDisplayFailureMessage_shape|].
    cbn [calls call]. rewrite stops_app. reflexivity.
Qed.

(** X11.  The return code of [RunDiagOnce] does not depend on the output
    format, unless the remote call returned OK with a system error message
    in the response: in every other case the text run and the structured
    run of the same object on the same schedule return the same code (the
    result of the remote call when it is not OK, the classification of the
    response otherwise) and send the same requests. *)
Theorem RunDiagOnce_code_in_both_formats (d : Diag) (w w1 : World)
    (result : dcgmReturn_t) (response : dcgmDiagResponse_t) :
  ExecuteDiagOnServer d InitializeDiagResponse (InstallSigHandlers w)
  = Ok (result, response, w1) ->
  result <> DCGM_ST_OK \/ msg (systemError response) = [] ->
  exists dt wt dj wj,
    RunDiagOnce (setJsonOutput false d) w
    = Ok (if is_OK result then GetFailureResult response else result, dt, wt)
    /\ RunDiagOnce (setJsonOutput true d) w
       = Ok (if is_OK result then GetFailureResult response else result, dj, wj)
    /\ calls wt = calls wj.
Proof.
  intros Hrun Hcase.
  assert (Ht : ExecuteDiagOnServer (setJsonOutput false d) InitializeDiagResponse
                 (InstallSigHandlers w) = Ok (result, response, w1))
    by (rewrite <- Hrun; now apply ExecuteDiagOnServer_object).
  assert (Hj : ExecuteDiagOnServer (setJsonOutput true d) InitializeDiagResponse
                 (InstallSigHandlers w) = Ok (result, response, w1))
    by (rewrite <- Hrun; now apply ExecuteDiagOnServer_object).
  unfold RunDiagOnce. rewrite Ht, Hj. cbn [rbind].
  destruct result; cbn [is_OK].
  - destruct Hcase as [C | Hmsg]; [now elim C|]. rewrite Hmsg.
    cbn [setJsonOutput m_jsonOutput negb andb str_eqb].
    replace (str_eqb [] []) with true by reflexivity. cbn [negb andb].
    destruct (text_report_total (setJsonOutput false d) response
                (derive_gpuVec (setJsonOutput false d) response)) as [rows Hrows].
    rewrite Hrows. cbn [rbind is_OK].
    unfold HelperDisplayAsJson.
    destruct (m_iterations (setJsonOutput true d) <=? 1); cbn [rbind is_OK];
      do 4 eexists; (split; [reflexivity|]); (split; [reflexivity|]); reflexivity.
  - do 4 eexists. split; [reflexivity|]. split; reflexivity.
  - do 4 eexists. split; [reflexivity|]. split; reflexivity.
  - do 4 eexists. split; [reflexivity|]. split; reflexivity.
  - destruct (negb (is_OK (stop_result (call StopDiagnostic w1))));
      do 4 eexists; (split; [reflexivity|]); split; reflexivity.
  - do 4 eexists. split; [reflexivity|]. split; reflexivity.
  - do 4 eexists. split; [reflexivity|]. split; reflexivity.
  - do 4 eexists. split; [reflexivity|]. split; reflexivity.
  - do 4 eexists. split; [reflexivity|]. split; reflexivity.
Qed.

End RunOutcomes.

Section RunsInARow.

Context {headers : DcgmHeaders}.

Lemma iteration_banner_frame (d : Diag) (i : nat) (w : World) :
  calls (iteration_banner d i w) = calls w /\
  g_signalExit (iteration_banner d i w) = g_signalExit w.
Proof. unfold iteration_banner. now destruct (negb (m_jsonOutput d)). Qed.

(** The loop of [RunStartDiag], seen from the process: [k] is the number
    of iterations that it went through. *)
Lemma RunStartDiag_loop_frame (n i : nat) (overallRet : dcgmReturn_t) (output : Json)
    (d : Diag) (w : World) (r : dcgmReturn_t) (output' : Json) (d' : Diag) (w' : World) :
  RunStartDiag_loop (seq i n) overallRet output d w = Ok (r, output', d', w') ->
  exists k,
    k <= n /\
    dispatched (calls w')
    = dispatched (calls w) ++ map (fun j => set_currentIteration j (m_drd d)) (seq i k) /\
    (r = overallRet /\ k = n /\ aborts (calls w') = aborts (calls w)
     /\ (0 < n -> g_signalExit w = true -> False)
     \/ r <> DCGM_ST_OK /\ 1 <= k /\
        (aborts (calls w') = aborts (calls w) /\ (g_signalExit w = true -> False)
         \/ aborts (calls w') = aborts (calls w) + 1 /\ r = DCGM_ST_NVVS_KILLED
            /\ (g_signalExit w = true -> k = 1))) /\
    (0 < n -> diag_installed_sig_handlers w' = true /\ diag_stopDiagOnSignal w' = false) /\
    (g_signalExit w = true -> g_signalExit w' = true).
Proof.
  revert i output d w; induction n as [|n IH]; intros i output d w; cbn [seq RunStartDiag_loop].
  - intros [= <- _ _ <-]. exists 0. split; [lia|]. split; [now rewrite app_nil_r|].
    split; [left; repeat split; lia|]. split; [lia | trivial].
  - destruct (iteration_banner_frame d i w) as [Hbc Hbg].
    destruct (RunDiagOnce (set_m_drd (set_currentIteration i (m_drd d)) d)
                (iteration_banner d i w)) as [[[ret d1] w1]| | |] eqn:E;
      cbn [rbind]; try discriminate.
    pose proof (RunDiagOnce_dispatched _ _ E) as (Hdrd & _ & _ & Hsent).
    pose proof (RunDiagOnce_frame _ _ E) as (Hi & Ha & Hg & Hab & _).
    rewrite Hbc in Hsent, Hab. rewrite Hbg in Hg, Hab. cbn [set_m_drd m_drd] in Hsent, Hdrd.
    destruct (negb (is_OK ret)) eqn:Eret.
    + intros [= <- _ <- <-]. exists 1. split; [lia|]. split; [exact Hsent|].
      split; [|split; [auto | exact Hg]].
      right. split; [now destruct ret|]. split; [lia|].
      destruct Hab as [[Hsame Hflag] | (Hone & Hk & _)]; [left | right]; auto.
    + assert (Hok : ret = DCGM_ST_OK) by now destruct ret.
      destruct Hab as [[Hsame Hflag] | (_ & Hk & _)]; [|congruence].
      intros Hloop. destruct (IH _ _ _ _ Hloop) as (k & Hk & Hs & Hcases & _ & Hg').
      exists (S k). split; [lia|]. split.
      { rewrite Hs, Hsent, Hdrd, <- app_assoc. reflexivity. }
      split.
      { destruct Hcases as [(Hr & Hkn & Hab' & _) | (Hr & Hk1 & Hab')].
        - left. repeat split; first [congruence | lia | (intros _; exact Hflag)].
        - right. split; [exact Hr|]. split; [lia|].
          destruct Hab' as [[Hab' _] | (Hab' & Hkill & _)].
          + left. split; [congruence | exact Hflag].
          + right. split; [congruence|]. split; [exact Hkill|].
            intros Hw. now elim (Hflag Hw). }
      split.
      { intros _. destruct n as [|n].
        - cbn in Hloop. injection Hloop as _ _ _ <-. auto.
        - destruct (IH _ _ _ _ Hloop) as (_ & _ & _ & _ & Hp & _). apply Hp. lia. }
      intros Hw. now elim (Hflag Hw).
Qed.

(** X12.  [RunStartDiag] always ends with the signal handlers installed
    and the process disarmed, and it never clears the cancellation flag.
    So once a signal has set the flag, every later [RunStartDiag] of the
    same process is killed in its first iteration: it sends one run
    request and one abort request and returns the killed outcome. *)
Theorem RunStartDiag_process_state (d d' : Diag) (w w' : World) (r : dcgmReturn_t) :
  RunStartDiag d w = Ok (r, d', w') ->
  diag_installed_sig_handlers w' = true
  /\ diag_stopDiagOnSignal w' = false
  /\ (g_signalExit w = true ->
      g_signalExit w' = true /\ r = DCGM_ST_NVVS_KILLED /\
      dispatched (calls w')
      = dispatched (calls w)
          ++ [if m_iterations d <=? 1 then m_drd d
              else stamped (m_iterations d) 0 (m_drd d)] /\
      aborts (calls w') = aborts (calls w) + 1).
Proof.
  unfold RunStartDiag. destruct (m_iterations d <=? 1) eqn:En.
  - intros H. pose proof (RunDiagOnce_dispatched _ _ H) as (_ & _ & _ & Hsent).
    apply RunDiagOnce_frame in H. destruct H as (Hi & Ha & Hg & Hab & _).
    split; [exact Hi|]. split; [exact Ha|]. intros Hw.
    split; [auto|].
    destruct Hab as [[_ Hflag] | (Hone & Hk & _)]; [now elim (Hflag Hw)|].
    split; [exact Hk|]. split; [exact Hsent | exact Hone].
  - apply Nat.leb_gt in En.
    match goal with
    | |- context [RunStartDiag_loop ?l ?a ?b ?c ?x] =>
        destruct (RunStartDiag_loop l a b c x) as [[[[ret out] d1] w1]| | |] eqn:E
    end; cbn [rbind]; try discriminate.
    apply RunStartDiag_loop_frame in E.
    destruct E as (k & Hk & Hs & Hcases & Hp & Hg).
    destruct Hp as [Hi Ha]; [cbn; lia|].
    intros H.
    assert (Hw' : diag_installed_sig_handlers w' = diag_installed_sig_handlers w1 /\
                  diag_stopDiagOnSignal w' = diag_stopDiagOnSignal w1 /\
                  g_signalExit w' = g_signalExit w1 /\ calls w' = calls w1 /\ r = ret).
    { cbv zeta in H. destruct (m_jsonOutput d1); [|destruct (is_OK ret)];
        injection H as <- _ <-; repeat split. }
    destruct Hw' as (-> & -> & -> & -> & ->).
    split; [exact Hi|]. split; [exact Ha|]. intros Hw.
    split; [auto|].
    destruct Hcases as [(_ & _ & _ & Hflag) | (_ & _ & Hab)];
      [elim Hflag; [cbn; lia | exact Hw]|].
    destruct Hab as [[_ Hflag] | (Hone & Hkill & Hfirst)]; [now elim (Hflag Hw)|].
    split; [exact Hkill|]. split; [|exact Hone].
    rewrite Hs, (Hfirst Hw). reflexivity.
Qed.

(** X13.  A [RunStartDiag] that returns has sent between one and
    max(1, N) run requests, those of the consecutive iterations from the
    first on; when it returns OK it has sent all of them.  With N > 1 the
    [j]-th of them (0-based) is the request of the object with
    [totalIterations = N] and [currentIteration = j] and its other fields
    untouched; with N <= 1 the one request goes out as the object holds
    it.  It has sent at most one abort request, and then its outcome is
    the killed one. *)
Theorem RunStartDiag_requests (d d' : Diag) (w w' : World) (r : dcgmReturn_t) :
  RunStartDiag d w = Ok (r, d', w') ->
  exists k,
    1 <= k /\ k <= Nat.max 1 (m_iterations d)
    /\ dispatched (calls w')
       = dispatched (calls w)
           ++ (if m_iterations d <=? 1 then [m_drd d]
               else map (fun j =>
                           {| groupId := groupId (m_drd d);
                              gpuList := gpuList (m_drd d);
                              testNames0 := testNames0 (m_drd d);
                              flags := flags (m_drd d);
                              totalIterations := m_iterations d;
                              currentIteration := j |})
                      (seq 0 k))
    /\ (r = DCGM_ST_OK -> k = Nat.max 1 (m_iterations d))
    /\ aborts (calls w') <= aborts (calls w) + 1
    /\ (aborts (calls w') = aborts (calls w) + 1 -> r = DCGM_ST_NVVS_KILLED).
Proof.
  unfold RunStartDiag. destruct (m_iterations d <=? 1) eqn:En.
  - apply Nat.leb_le in En.
    intros H. pose proof (RunDiagOnce_dispatched _ _ H) as (_ & _ & _ & Hsent).
    apply RunDiagOnce_frame in H. destruct H as (_ & _ & _ & Hab & _).
    exists 1. split; [lia|]. split; [lia|]. split; [exact Hsent|].
    split; [lia|].
    destruct Hab as [[-> _] | (-> & Hk & _)]; split; auto; lia.
  - apply Nat.leb_gt in En.
    match goal with
    | |- context [RunStartDiag_loop ?l ?a ?b ?c ?x] =>
        destruct (RunStartDiag_loop l a b c x) as [[[[ret out] d1] w1]| | |] eqn:E
    end; cbn [rbind]; try discriminate.
    apply RunStartDiag_loop_frame in E.
    destruct E as (k & Hk & Hs & Hcases & _ & _).
    intros H.
    assert (Hw' : calls w' = calls w1 /\ r = ret).
    { cbv zeta in H. destruct (m_jsonOutput d1); [|destruct (is_OK ret)];
        injection H as <- _ <-; repeat split. }
    destruct Hw' as (-> & ->).
    cbn [set_m_drd m_drd m_iterations] in Hk, Hs.
    exists (if is_OK ret then m_iterations d else k).
    destruct Hcases as [(-> & -> & Hab & _) | (Hr & Hk1 & Hab)].
    + cbn [is_OK]. split; [lia|]. split; [lia|]. split; [exact Hs|].
      split; [lia|]. rewrite Hab. split; [lia | intros; lia].
    + replace (is_OK ret) with false by now destruct ret.
      split; [exact Hk1|]. split; [lia|]. split; [exact Hs|].
      split; [intros C; now elim Hr|].
      destruct Hab as [[-> _] | (-> & Hkill & _)]; split; auto; lia.
Qed.

(** A run whose remote call fails returns the result of the call and
    leaves the object as it was. *)
Lemma RunDiagOnce_failed (d : Diag) (w w1 : World) (result : dcgmReturn_t)
    (response : dcgmDiagResponse_t) :
  ExecuteDiagOnServer d InitializeDiagResponse (InstallSigHandlers w)
  = Ok (result, response, w1) ->
  result <> DCGM_ST_OK ->
  exists printed,
    RunDiagOnce d w = Ok (result, d, print printed (after_timeout result w1)).
Proof.
  intros Hrun Hfail. unfold RunDiagOnce. rewrite Hrun. cbn [rbind].
  destruct result; try (now elim Hfail); cbn [after_timeout];
    try (eexists; reflexivity).
  destruct (negb (is_OK (stop_result (call StopDiagnostic w1)))); eexists; reflexivity.
Qed.

Lemma get_iteration_other (i j : nat) (x v : Json) :
  j <> i ->
  JsonValue.get [K NVVS_ITERATIONS; At j] (JsonValue.set [K NVVS_ITERATIONS; At i] x v)
  = JsonValue.get [K NVVS_ITERATIONS; At j] v.
Proof.
  intros Hne.
  cbn [JsonValue.get JsonValue.set JsonValue.members_of].
  rewrite JsonFacts.member_put_same. cbn [JsonValue.elems_of].
  now rewrite nth_put_other.
Qed.

(** X14.  Iterations in structured mode: when the remote call of
    iteration [i] fails, the loop stops with the result of the call, and
    the document of the iterations records "Fail" as the result and the
    text of the return code as the warning.  No report is built for this
    iteration: its entry in the array of iterations receives the document
    that the object holds at that point, left there by an earlier
    iteration, and the entries of the other iterations stay as they
    were. *)
Theorem RunStartDiag_failed_iteration_document (i : nat) (rest : list nat)
    (overallRet : dcgmReturn_t) (output : Json) (d : Diag) (w w1 : World)
    (result : dcgmReturn_t) (response : dcgmDiagResponse_t) :
  m_jsonOutput d = true ->
  ExecuteDiagOnServer (set_m_drd (set_currentIteration i (m_drd d)) d)
    InitializeDiagResponse (InstallSigHandlers (iteration_banner d i w))
  = Ok (result, response, w1) ->
  result <> DCGM_ST_OK ->
  exists output' w',
    RunStartDiag_loop (i :: rest) overallRet output d w
    = Ok (result, output', set_m_drd (set_currentIteration i (m_drd d)) d, w')
    /\ JsonValue.get [K NVVS_ITERATIONS; At i] output' = m_jsonTmpValue d
    /\ JsonValue.get [K NVVS_RESULT] output' = JStr (lit "Fail")
    /\ JsonValue.get [K NVVS_WARNING] output' = JStr (errorString result)
    /\ (forall j, j <> i ->
                  JsonValue.get [K NVVS_ITERATIONS; At j] output'
                  = JsonValue.get [K NVVS_ITERATIONS; At j] output).
Proof.
  intros Hjson Hrun Hfail.
  destruct (@RunDiagOnce_failed _ _ _ _ _ Hrun Hfail) as (printed & Hone).
  cbn [RunStartDiag_loop]. rewrite Hone. cbn [rbind].
  replace (negb (is_OK result)) with true by (destruct result; try reflexivity; now elim Hfail).
  cbn [set_m_drd m_jsonOutput m_jsonTmpValue]. rewrite Hjson.
  do 2 eexists. split; [reflexivity|].
  split; [|split; [|split]].
  - rewrite JsonFacts.get_set_other by (cbn; lia).
    rewrite JsonFacts.get_set_other by (cbn; lia).
    change [K NVVS_ITERATIONS; At i] with ([K NVVS_ITERATIONS; At i] ++ []).
    now rewrite JsonFacts.get_set_prefix.
  - rewrite JsonFacts.get_set_other by (cbn; lia).
    change [K NVVS_RESULT] with ([K NVVS_RESULT] ++ []).
    now rewrite JsonFacts.get_set_prefix.
  - change [K NVVS_WARNING] with ([K NVVS_WARNING] ++ []).
    now rewrite JsonFacts.get_set_prefix.
  - intros j Hj.
    rewrite JsonFacts.get_set_other by (cbn; lia).
    rewrite JsonFacts.get_set_other by (cbn; lia).
    now apply get_iteration_other.
Qed.

Lemma print_nil (w : World) : print [] w = w.
Proof. destruct w. unfold print. cbn. now rewrite app_nil_r. Qed.

(** The report reads the names of the tests of the request and nothing
    else of the object. *)
Lemma HelperJsonBuildOutput_object (d1 d2 : Diag) (output : Json)
    (r : dcgmDiagResponse_t) (l : list nat) :
  testNames0 (m_drd d1) = testNames0 (m_drd d2) ->
  HelperJsonBuildOutput d1 output r l = HelperJsonBuildOutput d2 output r l.
Proof.
  intros H. unfold HelperJsonBuildOutput, HelperGetPluginName. now rewrite H.
Qed.

Lemma derive_gpuVec_object (d1 d2 : Diag) (r : dcgmDiagResponse_t) :
  gpuList (m_drd d1) = gpuList (m_drd d2) ->
  derive_gpuVec d1 r = derive_gpuVec d2 r.
Proof. intros H. unfold derive_gpuVec. now rewrite H. Qed.

(** One run in structured mode among several iterations: when the remote
    call returns OK, the report built from its response is left in the
    object and nothing is printed. *)
Lemma RunDiagOnce_report (d : Diag) (w w1 : World) (response : dcgmDiagResponse_t) :
  m_jsonOutput d = true ->
  1 < m_iterations d ->
  ExecuteDiagOnServer d InitializeDiagResponse (InstallSigHandlers w)
  = Ok (DCGM_ST_OK, response, w1) ->
  RunDiagOnce d w
  = Ok (GetFailureResult response,
        {| m_drd := m_drd d; m_jsonOutput := m_jsonOutput d;
           m_iterations := m_iterations d; m_hostname := m_hostname d;
           m_jsonTmpValue :=
             HelperJsonBuildOutput d JNull response (derive_gpuVec d response) |},
        w1).
Proof.
  intros Hjson Hn Hrun. unfold RunDiagOnce. rewrite Hrun. cbn [rbind].
  rewrite Hjson. cbn [negb andb]. unfold HelperDisplayAsJson.
  replace (m_iterations d <=? 1) with false by (symmetry; apply Nat.leb_gt; lia).
  cbn [rbind is_OK]. rewrite print_nil. unfold set_m_jsonTmpValue. now rewrite Hjson.
Qed.

(** One turn of the loop in structured mode whose remote call returns OK
    with a response in which no test failed: the report built from the
    response is filed at the index of the iteration, and the loop goes
    on. *)
Lemma RunStartDiag_loop_turn (d dcur : Diag) (i : nat) (rest : list nat)
    (overallRet : dcgmReturn_t) (output : Json) (w w1 : World)
    (response : dcgmDiagResponse_t) :
  1 < m_iterations d ->
  m_jsonOutput dcur = true ->
  m_iterations dcur = m_iterations d ->
  m_hostname dcur = m_hostname d ->
  (forall c, set_currentIteration c (m_drd dcur)
             = {| groupId := groupId (m_drd d); gpuList := gpuList (m_drd d);
                  testNames0 := testNames0 (m_drd d); flags := flags (m_drd d);
                  totalIterations := m_iterations d; currentIteration := c |}) ->
  answered_in_sequence i d w [(response, w1)] ->
  exists dnext,
    RunStartDiag_loop (i :: rest) overallRet output dcur w
    = RunStartDiag_loop rest overallRet
        (JsonValue.set [K NVVS_ITERATIONS; At i]
           (HelperJsonBuildOutput d JNull response (derive_gpuVec d response)) output)
        dnext w1
    /\ m_jsonOutput dnext = true
    /\ m_iterations dnext = m_iterations d
    /\ m_hostname dnext = m_hostname d
    /\ (forall c, set_currentIteration c (m_drd dnext)
                  = {| groupId := groupId (m_drd d); gpuList := gpuList (m_drd d);
                       testNames0 := testNames0 (m_drd d); flags := flags (m_drd d);
                       totalIterations := m_iterations d; currentIteration := c |}).
Proof.
  intros Hn Hjson Hiter Hhost Hreq (Hrun & Hpass & _).
  set (dI := set_m_drd (set_currentIteration i (m_drd dcur)) dcur).
  assert (HdI : m_drd dI = set_currentIteration i (m_drd dcur)) by reflexivity.
  match type of Hrun with
  | ExecuteDiagOnServer ?dlit _ _ = _ =>
      rewrite (@ExecuteDiagOnServer_object dlit dI) in Hrun;
      [ | cbn [m_drd]; now rewrite HdI, Hreq | cbn [m_hostname dI set_m_drd]; now rewrite Hhost ]
  end.
  assert (Hone := @RunDiagOnce_report dI w w1 response Hjson
                    ltac:(cbn [dI set_m_drd m_iterations]; lia) Hrun).
  assert (Hrep : HelperJsonBuildOutput dI JNull response (derive_gpuVec dI response)
                 = HelperJsonBuildOutput d JNull response (derive_gpuVec d response)).
  { rewrite (@derive_gpuVec_object dI d)
      by (rewrite HdI, Hreq; reflexivity).
    apply HelperJsonBuildOutput_object. rewrite HdI, Hreq. reflexivity. }
  rewrite Hrep, Hpass in Hone.
  eexists. split.
  - cbn [RunStartDiag_loop]. unfold iteration_banner. rewrite Hjson. cbn [negb].
    fold dI. rewrite Hone. cbn [rbind is_OK negb m_jsonTmpValue]. reflexivity.
  - cbn [m_jsonOutput m_iterations m_hostname m_drd dI set_m_drd].
    split; [exact Hjson|]. split; [exact Hiter|]. split; [exact Hhost|].
    intros c. rewrite <- (Hreq c). reflexivity.
Qed.

(** Along iterations in structured mode whose remote calls all return OK
    with responses in which no test failed, the loop files the report
    built from the response of each iteration at the index of the
    iteration, and writes nothing else. *)
Lemma RunStartDiag_loop_reports (d : Diag) (answers : list (dcgmDiagResponse_t * World)) :
  forall (i : nat) (overallRet : dcgmReturn_t) (output : Json) (dcur : Diag) (w : World)
         (response' : dcgmDiagResponse_t) (w' : World),
    1 < m_iterations d ->
    m_jsonOutput dcur = true ->
    m_iterations dcur = m_iterations d ->
    m_hostname dcur = m_hostname d ->
    (forall c, set_currentIteration c (m_drd dcur)
               = {| groupId := groupId (m_drd d); gpuList := gpuList (m_drd d);
                    testNames0 := testNames0 (m_drd d); flags := flags (m_drd d);
                    totalIterations := m_iterations d; currentIteration := c |}) ->
    answered_in_sequence i d w (answers ++ [(response', w')]) ->
    exists output' d',
      RunStartDiag_loop (seq i (S (List.length answers))) overallRet output dcur w
      = Ok (overallRet, output', d', w')
      /\ m_jsonOutput d' = true
      /\ (forall j response w1,
            nth_error (answers ++ [(response', w')]) j = Some (response, w1) ->
            JsonValue.get [K NVVS_ITERATIONS; At (i + j)] output'
            = HelperJsonBuildOutput d JNull response (derive_gpuVec d response))
      /\ (forall j, j < i ->
            JsonValue.get [K NVVS_ITERATIONS; At j] output'
            = JsonValue.get [K NVVS_ITERATIONS; At j] output)
      /\ (forall k q, nvvs_key_index k <> nvvs_key_index NVVS_ITERATIONS ->
            JsonValue.get (K k :: q) output' = JsonValue.get (K k :: q) output).
Proof.
  induction answers as [|[response1 w1] answers IH];
    intros i overallRet output dcur w response' w' Hn Hjson Hiter Hhost Hreq Hans.
  - cbn [app] in Hans |- *.
    destruct (@RunStartDiag_loop_turn d dcur i [] overallRet output w w' response'
                Hn Hjson Hiter Hhost Hreq Hans) as (dnext & Hturn & Hj & _).
    cbn [List.length seq]. rewrite Hturn. cbn [RunStartDiag_loop].
    do 2 eexists. split; [reflexivity|]. split; [exact Hj|].
    split; [|split].
    + intros j response w1 Hnth. destruct j as [|j].
      * cbn in Hnth. injection Hnth as <- <-. rewrite Nat.add_0_r.
        change [K NVVS_ITERATIONS; At i] with ([K NVVS_ITERATIONS; At i] ++ []).
        now rewrite JsonFacts.get_set_prefix.
      * cbn in Hnth. now destruct j.
    + intros j Hlt. apply get_iteration_other. lia.
    + intros k q Hk. now apply JsonFacts.get_set_other.
  - cbn [app answered_in_sequence] in Hans. destruct Hans as (Hrun & Hpass & Hrest).
    destruct (@RunStartDiag_loop_turn d dcur i (seq (S i) (S (List.length answers)))
                overallRet output w w1 response1 Hn Hjson Hiter Hhost Hreq
                (conj Hrun (conj Hpass I)))
      as (dnext & Hturn & Hj & Hi & Hh & Hreq').
    cbn [List.length]. change (seq i (S (S (List.length answers))))
      with (i :: seq (S i) (S (List.length answers))).
    rewrite Hturn.
    destruct (IH (S i) overallRet
                (JsonValue.set [K NVVS_ITERATIONS; At i]
                   (HelperJsonBuildOutput d JNull response1 (derive_gpuVec d response1))
                   output)
                dnext w1 response' w' Hn Hj Hi Hh Hreq' Hrest)
      as (output' & d' & Hloop & Hj' & Hdocs & Hbefore & Hother).
    exists output', d'. split; [exact Hloop|]. split; [exact Hj'|].
    split; [|split].
    + intros j response w2 Hnth. destruct j as [|j].
      * cbn in Hnth. injection Hnth as <- <-.
        rewrite Nat.add_0_r, Hbefore by lia.
        change [K NVVS_ITERATIONS; At i] with ([K NVVS_ITERATIONS; At i] ++ []).
        now rewrite JsonFacts.get_set_prefix.
      * replace (i + S j) with (S i + j) by lia. now apply (Hdocs j response w2).
    + intros j Hlt. rewrite Hbefore by lia. apply get_iteration_other. lia.
    + intros k q Hk. rewrite Hother by exact Hk. now apply JsonFacts.get_set_other.
Qed.

(** X15.  Iterations in structured mode: when the remote call of each of
    the N > 1 iterations returns OK with a response in which no test
    failed, [RunStartDiag] returns OK and prints, after the last remote
    call, one document and then a newline, nothing else.  The document
    records "Pass" as the result, and entry [j] of its array of iterations
    is the report that [HelperJsonBuildOutput] builds from the response of
    iteration [j], for the GPUs of the request or, without a GPU list,
    those of the response. *)
Theorem RunStartDiag_iterations_document (d : Diag) (w : World)
    (answers : list (dcgmDiagResponse_t * World))
    (response' : dcgmDiagResponse_t) (w' : World) :
  1 < m_iterations d ->
  m_jsonOutput d = true ->
  S (List.length answers) = m_iterations d ->
  answered_in_sequence 0 d w (answers ++ [(response', w')]) ->
  exists doc d',
    RunStartDiag d w = Ok (DCGM_ST_OK, d', print [Styled doc; Text endl] w')
    /\ JsonValue.get [K NVVS_RESULT] doc = JStr (lit "Pass")
    /\ forall j response w1,
         nth_error (answers ++ [(response', w')]) j = Some (response, w1) ->
         JsonValue.get [K NVVS_ITERATIONS; At j] doc
         = HelperJsonBuildOutput d JNull response (derive_gpuVec d response).
Proof.
  intros Hn Hjson Hlen Hans.
  destruct (@RunStartDiag_loop_reports d answers 0 DCGM_ST_OK JNull
              (set_m_drd (set_totalIterations (m_iterations d) (m_drd d)) d)
              w response' w' Hn Hjson eq_refl eq_refl (fun c => eq_refl) Hans)
    as (output' & d' & Hloop & Hj & Hdocs & _ & _).
  unfold RunStartDiag.
  replace (m_iterations d <=? 1) with false by (symmetry; apply Nat.leb_gt; lia).
  cbv zeta. cbn [set_m_drd m_iterations]. rewrite Hlen in Hloop. rewrite Hloop.
  cbn [rbind is_OK]. rewrite Hj.
  do 2 eexists. split; [reflexivity|]. split.
  - change [K NVVS_RESULT] with ([K NVVS_RESULT] ++ []).
    now rewrite JsonFacts.get_set_prefix.
  - intros j response w1 Hnth. rewrite JsonFacts.get_set_other by (cbn; lia).
    apply (Hdocs j response w1 Hnth).
Qed.

End RunsInARow.

Lemma RunDiagOnce_failure_witness :
  exists errMsg w1,
    RunDiagOnce (headers := sample_headers) (sample_Diag false 1)
      (quiet_world (plain_run DCGM_ST_TIMEOUT all_pass))
    = Ok (DCGM_ST_TIMEOUT, sample_Diag false 1,
          print [Text errMsg; Text endl] (call StopDiagnostic w1))
    /\ errMsg <> [].
Proof.
  set (w := quiet_world (plain_run DCGM_ST_TIMEOUT all_pass)).
  let v := eval vm_compute in
    (ExecuteDiagOnServer (sample_Diag false 1)
       (InitializeDiagResponse (headers := sample_headers)) (InstallSigHandlers w)) in
  match v with
  | Ok (_, _, ?w1) =>
      destruct (@RunDiagOnce_failure sample_headers (sample_Diag false 1) w w1
                  DCGM_ST_TIMEOUT all_pass)
        as (errMsg & Hrun & Hne & _ & Htext & _);
      [ vm_compute; reflexivity
      | discriminate
      | exists errMsg, w1; rewrite (Htext eq_refl) in Hrun; split; [exact Hrun | exact Hne] ]
  end.
Defined.

Lemma RunDiagOnce_code_in_both_formats_witness :
  exists dt wt dj wj,
    RunDiagOnce (headers := sample_headers)
      (setJsonOutput false (setDcgmRunDiag sample_request (Diag_new 1 (lit "localhost"))))
      (quiet_world (plain_run DCGM_ST_OK (one_failure 7)))
    = Ok (DCGM_ST_NVVS_ERROR, dt, wt)
    /\ RunDiagOnce (headers := sample_headers)
         (setJsonOutput true (setDcgmRunDiag sample_request (Diag_new 1 (lit "localhost"))))
         (quiet_world (plain_run DCGM_ST_OK (one_failure 7)))
       = Ok (DCGM_ST_NVVS_ERROR, dj, wj)
    /\ calls wt = calls wj.
Proof.
  set (w := quiet_world (plain_run DCGM_ST_OK (one_failure 7))).
  set (d := setDcgmRunDiag sample_request (Diag_new 1 (lit "localhost"))).
  let v := eval vm_compute in
    (ExecuteDiagOnServer d
       (InitializeDiagResponse (headers := sample_headers)) (InstallSigHandlers w)) in
  match v with
  | Ok (_, _, ?w1) =>
      destruct (@RunDiagOnce_code_in_both_formats sample_headers d w w1
                  DCGM_ST_OK (one_failure 7))
        as (dt & wt & dj & wj & Ht & Hj & Hc);
      [ vm_compute; reflexivity
      | right; reflexivity
      | exists dt, wt, dj, wj;
        change (GetFailureResult (headers := sample_headers) (one_failure 7))
          with DCGM_ST_NVVS_ERROR in Ht, Hj;
        split; [exact Ht | split; [exact Hj | exact Hc]] ]
  end.
Defined.

Lemma RunStartDiag_process_state_witness :
  exists d' w',
    RunStartDiag (headers := sample_headers) (sample_Diag false 3)
      (set_g_signalExit true (quiet_world [EvRun; EvRun; EvRun]))
    = Ok (DCGM_ST_NVVS_KILLED, d', w')
    /\ diag_installed_sig_handlers w' = true
    /\ diag_stopDiagOnSignal w' = false
    /\ dispatched (calls w') = [stamped 3 0 sample_request]
    /\ aborts (calls w') = 1.
Proof.
  set (w := set_g_signalExit true (quiet_world [EvRun; EvRun; EvRun])).
  let v := eval vm_compute in
    (RunStartDiag (headers := sample_headers) (sample_Diag false 3) w) in
  match v with
  | Ok (?r, ?d', ?w') =>
      assert (Hrun : RunStartDiag (headers := sample_headers) (sample_Diag false 3) w
                     = Ok (r, d', w')) by (vm_compute; reflexivity);
      destruct (RunStartDiag_process_state _ _ Hrun) as (Hi & Ha & Hflag);
      destruct (Hflag eq_refl) as (_ & _ & Hsent & Hab);
      exists d', w'; repeat split; assumption
  end.
Defined.

Lemma RunStartDiag_requests_witness :
  exists d' w',
    RunStartDiag (headers := sample_headers) (sample_Diag false 2)
      (quiet_world (plain_run DCGM_ST_OK all_pass ++ plain_run DCGM_ST_OK all_pass))
    = Ok (DCGM_ST_OK, d', w')
    /\ dispatched (calls w')
       = [ {| groupId := 0; gpuList := []; testNames0 := lit "pcie"; flags := 0;
              totalIterations := 2; currentIteration := 0 |};
           {| groupId := 0; gpuList := []; testNames0 := lit "pcie"; flags := 0;
              totalIterations := 2; currentIteration := 1 |} ].
Proof.
  set (w := quiet_world (plain_run DCGM_ST_OK all_pass ++ plain_run DCGM_ST_OK all_pass)).
  let v := eval vm_compute in
    (RunStartDiag (headers := sample_headers) (sample_Diag false 2) w) in
  match v with
  | Ok (?r, ?d', ?w') =>
      assert (Hrun : RunStartDiag (headers := sample_headers) (sample_Diag false 2) w
                     = Ok (r, d', w')) by (vm_compute; reflexivity);
      destruct (RunStartDiag_requests _ _ Hrun) as (k & _ & _ & Hsent & Hall & _);
      rewrite (Hall eq_refl) in Hsent;
      exists d', w'; split; [exact Hrun | exact Hsent]
  end.
Defined.

Lemma RunStartDiag_failed_iteration_document_witness :
  exists output' d' w',
    RunStartDiag_loop (headers := sample_headers) [0; 1; 2] DCGM_ST_OK JNull
      (sample_Diag true 3) (quiet_world (plain_run (DCGM_ST_other 7) all_pass))
    = Ok (DCGM_ST_other 7, output', d', w')
    /\ JsonValue.get [K NVVS_ITERATIONS; At 0] output' = JNull
    /\ JsonValue.get [K NVVS_RESULT] output' = JStr (lit "Fail").
Proof.
  set (w := quiet_world (plain_run (DCGM_ST_other 7) all_pass)).
  let v := eval vm_compute in
    (ExecuteDiagOnServer
       (set_m_drd (set_currentIteration 0 (m_drd (sample_Diag true 3))) (sample_Diag true 3))
       (InitializeDiagResponse (headers := sample_headers))
       (InstallSigHandlers (iteration_banner (sample_Diag true 3) 0 w))) in
  match v with
  | Ok (_, _, ?w1) =>
      destruct (@RunStartDiag_failed_iteration_document sample_headers 0 [1; 2]
                  DCGM_ST_OK JNull (sample_Diag true 3) w w1 (DCGM_ST_other 7) all_pass)
        as (output' & w' & Hloop & Hentry & Hresult & _);
      [ reflexivity
      | vm_compute; reflexivity
      | discriminate
      | exists output'; eexists; exists w';
        split; [exact Hloop | split; [exact Hentry | exact Hresult]] ]
  end.
Defined.

Lemma RunStartDiag_iterations_document_witness :
  exists doc d' w',
    RunStartDiag (headers := sample_headers) (sample_Diag true 2)
      (quiet_world (plain_run DCGM_ST_OK all_pass ++ plain_run DCGM_ST_OK idle_gpu))
    = Ok (DCGM_ST_OK, d', print [Styled doc; Text endl] w')
    /\ JsonValue.get [K NVVS_RESULT] doc = JStr (lit "Pass")
    /\ JsonValue.get [K NVVS_ITERATIONS; At 0] doc
       = HelperJsonBuildOutput (headers := sample_headers) (sample_Diag true 2) JNull
           all_pass [0; 1]
    /\ JsonValue.get [K NVVS_ITERATIONS; At 1] doc
       = HelperJsonBuildOutput (headers := sample_headers) (sample_Diag true 2) JNull
           idle_gpu [0].
Proof.
  set (d0 := sample_Diag true 2).
  set (w0 := quiet_world (plain_run DCGM_ST_OK all_pass ++ plain_run DCGM_ST_OK idle_gpu)).
  let v1 := eval vm_compute in
    (ExecuteDiagOnServer
       (set_m_drd (set_currentIteration 0 (set_totalIterations 2 (m_drd d0))) d0)
       (InitializeDiagResponse (headers := sample_headers)) (InstallSigHandlers w0)) in
  match v1 with
  | Ok (_, _, ?w1) =>
      let v2 := eval vm_compute in
        (ExecuteDiagOnServer
       (set_m_drd (set_currentIteration 1 (set_totalIterations 2 (m_drd d0))) d0)
           (InitializeDiagResponse (headers := sample_headers)) (InstallSigHandlers w1)) in
      match v2 with
      | Ok (_, _, ?w2) =>
          destruct (@RunStartDiag_iterations_document sample_headers d0 w0
                      [(all_pass, w1)] idle_gpu w2)
            as (doc & d' & Hrun & Hpass & Hdocs);
          [ apply le_n
          | reflexivity
          | reflexivity
          | cbn [app answered_in_sequence];
            split; [vm_compute; reflexivity|];
            split; [vm_compute; reflexivity|];
            split; [vm_compute; reflexivity|];
            split; [vm_compute; reflexivity | exact I]
          | exists doc, d', w2;
            split; [exact Hrun|]; split; [exact Hpass|];
            split; [exact (Hdocs 0 all_pass w1 eq_refl)
                   | exact (Hdocs 1 idle_gpu w2 eq_refl)] ]
      end
  end.
Defined.

(** ** The structured report *)

(** A loop that writes members other than [k] leaves member [k] alone. *)
Lemma fold_left_get_other {B : Type} (k : nvvs_key) (q : list selector)
    (f : Json -> B -> Json) (l : list B) (v : Json) :
  (forall x v, JsonValue.get (K k :: q) (f v x) = JsonValue.get (K k :: q) v) ->
  JsonValue.get (K k :: q) (fold_left f l v) = JsonValue.get (K k :: q) v.
Proof.
  intros H. revert v; induction l as [|x l IH]; intros v; [reflexivity|].
  cbn [fold_left]. now rewrite IH, H.
Qed.

(** Writing an element of an array member leaves the other elements of
    the array as they were. *)
Lemma get_index_other (k : nvvs_key) (i j : nat) (q p : list selector) (x v : Json) :
  i <> j ->
  JsonValue.get (K k :: At i :: q) (JsonValue.set (K k :: At j :: p) x v)
  = JsonValue.get (K k :: At i :: q) v.
Proof.
  intros Hne.
  cbn [JsonValue.get JsonValue.set JsonValue.members_of].
  rewrite JsonFacts.member_put_same. cbn [JsonValue.elems_of].
  now rewrite nth_put_other.
Qed.

Section Structured.

Context {headers : DcgmHeaders}.

(** The loop over the error slots of a cell writes the warning of slot [j]
    at position [j] and nowhere else. *)
Lemma warnings_fold_other (text_key : nvvs_key) (cell : dcgmDiagTestResult_v3)
    (j : nat) (q : list selector) (l : list nat) (entry : Json) :
  ~ In j l ->
  JsonValue.get (K NVVS_WARNINGS :: At j :: q)
    (fold_left
       (fun resultEntry j =>
          if negb (str_eqb (msg (error cell j)) []) then
            JsonValue.set [K NVVS_WARNINGS; At j]
              (warningEntry_of text_key (error cell j)) resultEntry
          else resultEntry)
       l entry)
  = JsonValue.get (K NVVS_WARNINGS :: At j :: q) entry.
Proof.
  revert entry; induction l as [|a l IH]; intros entry Hnot; [reflexivity|].
  cbn [fold_left]. rewrite IH by (intros C; apply Hnot; now right).
  destruct (negb _); [|reflexivity].
  apply get_index_other. intros ->. apply Hnot. now left.
Qed.

Lemma warnings_fold_at (text_key : nvvs_key) (cell : dcgmDiagTestResult_v3)
    (j n : nat) (q : list selector) (entry : Json) :
  j < n -> msg (error cell j) <> [] ->
  JsonValue.get (K NVVS_WARNINGS :: At j :: q)
    (fold_left
       (fun resultEntry j =>
          if negb (str_eqb (msg (error cell j)) []) then
            JsonValue.set [K NVVS_WARNINGS; At j]
              (warningEntry_of text_key (error cell j)) resultEntry
          else resultEntry)
       (seq 0 n) entry)
  = JsonValue.get q (warningEntry_of text_key (error cell j)).
Proof.
  intros Hj Hmsg.
  replace (seq 0 n) with (seq 0 j ++ j :: seq (S j) (n - S j)).
  2:{ replace n with (j + S (n - S j)) at 2 by lia. rewrite seq_app. reflexivity. }
  rewrite fold_left_app. cbn [fold_left].
  rewrite warnings_fold_other by (intros C; apply in_seq in C; lia).
  rewrite str_eqb_nil_false by exact Hmsg. cbn [negb].
  change (K NVVS_WARNINGS :: At j :: q) with ([K NVVS_WARNINGS; At j] ++ q).
  apply JsonFacts.get_set_prefix.
Qed.

(** X16.  What [HelperJsonAddResult] records for one GPU.  For a cell that
    did not run: nothing, and it answers false.  For any other cell it
    answers true and writes, at the position handed in, the index of the
    GPU in decimal (at most nine characters) as its id, the status named
    by [HelperDisplayDiagResult], every non-empty error message as it is
    (it does not go through [Sanitize]) with its code, category and
    severity at the position of its slot, and the note when there is one;
    the entries of the other positions and the name of the test stay as
    they were. *)
Theorem HelperJsonAddResult_entry (gpuResult : dcgmDiagResponsePerGpu_v5)
    (testEntry : Json) (gpuIndex testIndex i : nat) :
  let cell := results gpuResult testIndex in
  (status cell = DCGM_DIAG_RESULT_NOT_RUN ->
   HelperJsonAddResult gpuResult testEntry gpuIndex testIndex i = (false, testEntry))
  /\ (status cell <> DCGM_DIAG_RESULT_NOT_RUN ->
      exists testEntry',
        HelperJsonAddResult gpuResult testEntry gpuIndex testIndex i = (true, testEntry')
        /\ JsonValue.get [K NVVS_RESULTS; At i; K NVVS_GPU_ID] testEntry'
           = JStr (firstn 9 (dec gpuIndex))
        /\ JsonValue.get [K NVVS_RESULTS; At i; K NVVS_STATUS] testEntry'
           = JStr (HelperDisplayDiagResult (status cell))
        /\ (forall j, j < DCGM_MAX_ERRORS -> msg (error cell j) <> [] ->
               JsonValue.get
                 [K NVVS_RESULTS; At i; K NVVS_WARNINGS; At j; K NVVS_WARNING] testEntry'
               = JStr (msg (error cell j))
               /\ JsonValue.get
                    [K NVVS_RESULTS; At i; K NVVS_WARNINGS; At j; K NVVS_ERROR_ID] testEntry'
                  = JNum (code (error cell j))
               /\ JsonValue.get
                    [K NVVS_RESULTS; At i; K NVVS_WARNINGS; At j; K NVVS_ERROR_CATEGORY]
                    testEntry'
                  = JNum (category (error cell j))
               /\ JsonValue.get
                    [K NVVS_RESULTS; At i; K NVVS_WARNINGS; At j; K NVVS_ERROR_SEVERITY]
                    testEntry'
                  = JNum (severity (error cell j)))
        /\ JsonValue.get [K NVVS_RESULTS; At i; K NVVS_INFO] testEntry'
           = (if str_eqb (info cell) [] then JNull else JStr (info cell))
        /\ (forall i' q, i' <> i ->
               JsonValue.get (K NVVS_RESULTS :: At i' :: q) testEntry'
               = JsonValue.get (K NVVS_RESULTS :: At i' :: q) testEntry)
        /\ JsonValue.get [K NVVS_TEST_NAME] testEntry'
           = JsonValue.get [K NVVS_TEST_NAME] testEntry).
Proof.
  intros cell. split.
  - intros Hst. unfold HelperJsonAddResult. fold cell. now rewrite Hst.
  - intros Hran. unfold HelperJsonAddResult. fold cell.
    replace (dcgmDiagResult_eqb (status cell) DCGM_DIAG_RESULT_NOT_RUN)
      with false by (destruct (status cell); try reflexivity; now elim Hran).
    eexists. split; [reflexivity|].
    assert (Hat : forall q x,
               JsonValue.get (K NVVS_RESULTS :: At i :: q)
                 (JsonValue.set [K NVVS_RESULTS; At i] x testEntry)
               = JsonValue.get q x).
    { intros q x.
      change (K NVVS_RESULTS :: At i :: q) with ([K NVVS_RESULTS; At i] ++ q).
      apply JsonFacts.get_set_prefix. }
    assert (Hkeep : forall (k : nvvs_key) x0,
               nvvs_key_index k <> nvvs_key_index NVVS_WARNINGS ->
               JsonValue.get [K k]
                 (fold_left
                    (fun resultEntry j =>
                       if negb (str_eqb (msg (error cell j)) []) then
                         JsonValue.set [K NVVS_WARNINGS; At j]
                           (warningEntry_of NVVS_WARNING (error cell j)) resultEntry
                       else resultEntry)
                    (seq 0 DCGM_MAX_ERRORS) x0)
               = JsonValue.get [K k] x0).
    { intros k x0 Hk. apply fold_left_get_other. intros j v.
      destruct (negb _); [|reflexivity]. now apply JsonFacts.get_set_other. }
    split; [|split; [|split; [|split; [|split]]]].
    + rewrite Hat. unfold gpuIndex_buf.
      destruct (negb (str_eqb (info cell) []));
        rewrite ?JsonFacts.get_set_other by (cbn; lia);
        rewrite Hkeep by (cbn; lia); reflexivity.
    + rewrite Hat.
      destruct (negb (str_eqb (info cell) []));
        rewrite ?JsonFacts.get_set_other by (cbn; lia);
        rewrite Hkeep by (cbn; lia); reflexivity.
    + intros j Hj Hmsg.
      repeat split; rewrite Hat;
        (destruct (negb (str_eqb (info cell) []));
         [rewrite JsonFacts.get_set_other by (cbn; lia)|]);
        rewrite (warnings_fold_at _ _ _ _ Hj Hmsg); reflexivity.
    + rewrite Hat.
      destruct (str_eqb (info cell) []); cbn [negb].
      * rewrite Hkeep by (cbn; lia). reflexivity.
      * change [K NVVS_INFO] with ([K NVVS_INFO] ++ []).
        now rewrite JsonFacts.get_set_prefix.
    + intros i' q Hne. now apply get_index_other.
    + apply JsonFacts.get_set_other. cbn. lia.
Qed.

(** The adjustment that the loop of [HelperJsonAddBasicTests] has reached
    before test [t]: 1 when the CUDA runtime library test came before and
    was left out. *)
Lemma HelperJsonAddBasicTests_turn_exact (r : dcgmDiagResponse_t) (t : nat)
    (category : Json) :
  snd (fold_left (HelperJsonAddBasicTests_turn r) (seq 0 t) (category, 0))
  = if (DCGM_SWTEST_CUDA_RUNTIME_LIBRARY <? t)
       && dcgmDiagResult_eqb
            (status (levelOneResults r DCGM_SWTEST_CUDA_RUNTIME_LIBRARY))
            DCGM_DIAG_RESULT_NOT_RUN
    then 1 else 0.
Proof.
  induction t as [|t IH]; [reflexivity|].
  rewrite seq_S, fold_left_app. cbn [Nat.add fold_left].
  destruct (fold_left _ (seq 0 t) (category, 0)) as [c adj]. cbn [snd] in IH. subst adj.
  unfold HelperJsonAddBasicTests_turn.
  destruct (t =? DCGM_SWTEST_CUDA_RUNTIME_LIBRARY) eqn:Et.
  - apply Nat.eqb_eq in Et. subst t.
    rewrite Nat.ltb_irrefl.
    replace (DCGM_SWTEST_CUDA_RUNTIME_LIBRARY <? S DCGM_SWTEST_CUDA_RUNTIME_LIBRARY)
      with true by (symmetry; apply Nat.ltb_lt; lia).
    cbn [andb].
    now destruct (dcgmDiagResult_eqb _ DCGM_DIAG_RESULT_NOT_RUN).
  - apply Nat.eqb_neq in Et. cbn [andb snd].
    replace (DCGM_SWTEST_CUDA_RUNTIME_LIBRARY <? S t)
      with (DCGM_SWTEST_CUDA_RUNTIME_LIBRARY <? t); [reflexivity|].
    destruct (DCGM_SWTEST_CUDA_RUNTIME_LIBRARY <? t) eqn:E; symmetry.
    + apply Nat.ltb_lt in E. apply Nat.ltb_lt. lia.
    + apply Nat.ltb_ge in E. apply Nat.ltb_ge. lia.
Qed.

(** The entry of a level-one test that is not left out, at its exact
    position. *)
Lemma HelperJsonAddBasicTests_entry_at (output : Json) (categoryIndex : nat)
    (r : dcgmDiagResponse_t) (t : nat) :
  t < levelOneTestCount r ->
  (t =? DCGM_SWTEST_CUDA_RUNTIME_LIBRARY)
  && dcgmDiagResult_eqb (status (levelOneResults r t)) DCGM_DIAG_RESULT_NOT_RUN = false ->
  let a := if (DCGM_SWTEST_CUDA_RUNTIME_LIBRARY <? t)
              && dcgmDiagResult_eqb
                   (status (levelOneResults r DCGM_SWTEST_CUDA_RUNTIME_LIBRARY))
                   DCGM_DIAG_RESULT_NOT_RUN
           then 1 else 0 in
  JsonValue.get
    [K NVVS_NAME; K NVVS_HEADERS; At categoryIndex; K NVVS_TESTS; At (t - a);
     K NVVS_TEST_NAME]
    (fst (HelperJsonAddBasicTests output categoryIndex r))
  = JStr (levelOneTests t)
  /\ JsonValue.get
       [K NVVS_NAME; K NVVS_HEADERS; At categoryIndex; K NVVS_TESTS; At (t - a);
        K NVVS_RESULTS; At 0; K NVVS_STATUS]
       (fst (HelperJsonAddBasicTests output categoryIndex r))
     = JStr (HelperDisplayDiagResult (status (levelOneResults r t))).
Proof.
  intros Ht Hkept a.
  assert (Hentry : exists category,
             forall q,
               JsonValue.get
                 ([K NVVS_NAME; K NVVS_HEADERS; At categoryIndex]
                    ++ K NVVS_TESTS :: At (t - a) :: q)
                 (fst (HelperJsonAddBasicTests output categoryIndex r))
               = JsonValue.get (K NVVS_TESTS :: At (t - a) :: q)
                   (fst (HelperJsonAddBasicTests_turn r (category, a) t))).
  { unfold HelperJsonAddBasicTests. cbn zeta.
    set (category0 := JsonValue.set [K NVVS_HEADER] (JStr DISPLAY_DEPLOYMENT) JNull).
    replace (seq 0 (levelOneTestCount r))
      with (seq 0 t ++ t :: seq (S t) (levelOneTestCount r - S t)).
    2:{ replace (levelOneTestCount r) with (t + S (levelOneTestCount r - S t)) at 2 by lia.
        rewrite seq_app. reflexivity. }
    rewrite fold_left_app. cbn [fold_left].
    pose proof (HelperJsonAddBasicTests_turn_positive r t category0) as Hpos.
    pose proof (HelperJsonAddBasicTests_turn_exact r t category0) as Hexact.
    fold a in Hexact.
    destruct (fold_left _ (seq 0 t) (category0, 0)) as [category adjustment].
    cbn [snd] in Hpos, Hexact. subst adjustment.
    exists category. intros q.
    assert (Hsnd : snd (HelperJsonAddBasicTests_turn r (category, a) t) = a).
    { unfold HelperJsonAddBasicTests_turn. now rewrite Hkept. }
    destruct (HelperJsonAddBasicTests_turn r (category, a) t) as [category1 adj1].
    cbn [snd fst] in Hsnd |- *. subst adj1.
    assert (Ha : a <= 1) by (unfold a; destruct ((_ <? _) && _); lia).
    pose proof (@later_turns_keep _ r (t - a) q (levelOneTestCount r - S t) (S t)
                  a category1) as Hlater.
    destruct (fold_left _ (seq (S t) _) (category1, a)) as [category2 adj2].
    cbn [fst] in Hlater |- *.
    rewrite JsonFacts.get_set_prefix. apply Hlater; lia. }
  destruct Hentry as (category & Hentry).
  split.
  - pose proof (Hentry [K NVVS_TEST_NAME]) as E.
    cbn [app] in E. rewrite E. clear E Hentry.
    unfold HelperJsonAddBasicTests_turn. rewrite Hkept. cbn [fst].
    cbn [JsonValue.get JsonValue.set JsonValue.members_of JsonValue.elems_of].
    rewrite !JsonFacts.member_put_same. cbn [JsonValue.elems_of].
    rewrite !JsonFacts.nth_put_same. cbn [JsonValue.members_of].
    rewrite JsonFacts.member_put_other; [| reflexivity | ].
    + now rewrite JsonFacts.member_put_same.
    + intros [k|s]; cbn; [|discriminate]. destruct k; cbn; congruence.
  - pose proof (Hentry [K NVVS_RESULTS; At 0; K NVVS_STATUS]) as E.
    cbn [app] in E. rewrite E. clear E Hentry.
    unfold HelperJsonAddBasicTests_turn. rewrite Hkept. cbn [fst].
    change [K NVVS_TESTS; At (t - a); K NVVS_RESULTS; At 0; K NVVS_STATUS]
      with ([K NVVS_TESTS; At (t - a); K NVVS_RESULTS; At 0] ++ [K NVVS_STATUS]).
    rewrite JsonFacts.get_set_prefix.
    rewrite (@fold_left_get_other _ NVVS_STATUS []).
    + change [K NVVS_STATUS] with ([K NVVS_STATUS] ++ []).
      now rewrite JsonFacts.get_set_prefix.
    + intros j entry. destruct (negb _); [|reflexivity].
      rewrite JsonFacts.get_set_other by (cbn; lia).
      apply JsonFacts.get_set_other. cbn. lia.
Qed.

(** X17.  The Deployment category of the structured report lists the
    level-one tests without a gap: when the CUDA runtime library test is
    among them and did not run it is left out and the tests after it move
    up by one position; every position below the number of tests kept
    holds the name of its test and the status named by
    [HelperDisplayDiagResult]. *)
Theorem HelperJsonAddBasicTests_contiguous (output : Json) (categoryIndex : nat)
    (r : dcgmDiagResponse_t) (idx : nat) :
  idx < levelOneTestCount r - (if cuda_runtime_left_out r then 1 else 0) ->
  levelOne_at r idx < levelOneTestCount r
  /\ (cuda_runtime_left_out r = true ->
      levelOne_at r idx <> DCGM_SWTEST_CUDA_RUNTIME_LIBRARY)
  /\ JsonValue.get
       [K NVVS_NAME; K NVVS_HEADERS; At categoryIndex; K NVVS_TESTS; At idx;
        K NVVS_TEST_NAME]
       (fst (HelperJsonAddBasicTests output categoryIndex r))
     = JStr (levelOneTests (levelOne_at r idx))
  /\ JsonValue.get
       [K NVVS_NAME; K NVVS_HEADERS; At categoryIndex; K NVVS_TESTS; At idx;
        K NVVS_RESULTS; At 0; K NVVS_STATUS]
       (fst (HelperJsonAddBasicTests output categoryIndex r))
     = JStr (HelperDisplayDiagResult (status (levelOneResults r (levelOne_at r idx))))
  /\ snd (HelperJsonAddBasicTests output categoryIndex r) = categoryIndex + 1.
Proof.
  intros Hidx.
  set (c := DCGM_SWTEST_CUDA_RUNTIME_LIBRARY).
  set (nr := dcgmDiagResult_eqb (status (levelOneResults r c)) DCGM_DIAG_RESULT_NOT_RUN).
  assert (Hout : cuda_runtime_left_out r = (c <? levelOneTestCount r) && nr) by reflexivity.
  set (t := levelOne_at r idx).
  assert (Ht : t = if ((c <? levelOneTestCount r) && nr) && (c <=? idx) then idx + 1 else idx).
  { unfold t, levelOne_at. now rewrite Hout. }
  rewrite Hout in Hidx |- *.
  assert (Hlt : t < levelOneTestCount r).
  { rewrite Ht. destruct ((c <? levelOneTestCount r) && nr), (c <=? idx); cbn [andb]; lia. }
  assert (Hne : (c <? levelOneTestCount r) && nr = true -> t <> c).
  { intros E. rewrite Ht, E. cbn [andb].
    destruct (c <=? idx) eqn:E'; [apply Nat.leb_le in E' | apply Nat.leb_gt in E']; lia. }
  assert (Hkept : (t =? c) && dcgmDiagResult_eqb (status (levelOneResults r t))
                                DCGM_DIAG_RESULT_NOT_RUN = false).
  { destruct (t =? c) eqn:E; [|reflexivity]. apply Nat.eqb_eq in E. cbn [andb].
    rewrite E. fold nr.
    destruct nr eqn:Enr; [|reflexivity].
    destruct (c <? levelOneTestCount r) eqn:Ec.
    - now elim (Hne eq_refl).
    - apply Nat.ltb_ge in Ec. lia. }
  assert (Hpos : t - (if (c <? t) && nr then 1 else 0) = idx).
  { rewrite Ht.
    destruct (c <? levelOneTestCount r) eqn:Ec, nr; cbn [andb];
      rewrite ?andb_false_r; cbn [andb]; try lia.
    - destruct (c <=? idx) eqn:E'.
      + apply Nat.leb_le in E'.
        replace (c <? idx + 1) with true by (symmetry; apply Nat.ltb_lt; lia).
        cbn [andb]. lia.
      + apply Nat.leb_gt in E'.
        replace (c <? idx) with false by (symmetry; apply Nat.ltb_ge; lia).
        cbn [andb]. lia.
    - apply Nat.ltb_ge in Ec. cbn [andb] in Hidx.
      replace (c <? idx) with false by (symmetry; apply Nat.ltb_ge; lia).
      cbn [andb]. lia. }
  destruct (@HelperJsonAddBasicTests_entry_at output categoryIndex r t Hlt Hkept)
    as [Hname Hstatus].
  fold c nr in Hname, Hstatus. rewrite Hpos in Hname, Hstatus.
  split; [exact Hlt|]. split; [exact Hne|]. split; [exact Hname|].
  split; [exact Hstatus|].
  unfold HelperJsonAddBasicTests. cbn zeta.
  now destruct (fold_left _ _ _).
Qed.

(** X18.  A level-one test that did not run and is not the CUDA runtime
    library test is shown differently by the two formats: the text report
    has no row for it, the structured report lists it under its name with
    the status "Fail". *)
Theorem levelOne_not_run_in_both_formats (output : Json) (categoryIndex : nat)
    (r : dcgmDiagResponse_t) (t : nat) :
  t < levelOneTestCount r ->
  status (levelOneResults r t) = DCGM_DIAG_RESULT_NOT_RUN ->
  t <> DCGM_SWTEST_CUDA_RUNTIME_LIBRARY ->
  HelperDisplayDeploymentResult (levelOneTests t) (levelOneResults r t) = Ok []
  /\ exists idx,
       JsonValue.get
         [K NVVS_NAME; K NVVS_HEADERS; At categoryIndex; K NVVS_TESTS; At idx;
          K NVVS_TEST_NAME]
         (fst (HelperJsonAddBasicTests output categoryIndex r))
       = JStr (levelOneTests t)
       /\ JsonValue.get
            [K NVVS_NAME; K NVVS_HEADERS; At categoryIndex; K NVVS_TESTS; At idx;
             K NVVS_RESULTS; At 0; K NVVS_STATUS]
            (fst (HelperJsonAddBasicTests output categoryIndex r))
          = JStr (lit "Fail").
Proof.
  intros Ht Hst Hne. split.
  - unfold HelperDisplayDeploymentResult. now rewrite Hst.
  - destruct (@HelperJsonAddBasicTests_status _ output categoryIndex r t Ht)
      as (idx & Hname & Hstatus).
    + apply Nat.eqb_neq in Hne. now rewrite Hne.
    + exists idx. split; [exact Hname|]. now rewrite Hstatus, Hst.
Qed.

Lemma put_elem_snoc (x : Json) (l : list Json) :
  JsonValue.put_elem (List.length l) x l = l ++ [x].
Proof. induction l as [|v l IH]; cbn; [reflexivity | now rewrite IH]. Qed.

(** Adding a category at the end of the array of headers. *)
Lemma HelperJsonAddCategory_snoc (output : Json) (elems : list Json)
    (category : Json) (count : nat) :
  JsonValue.get [K NVVS_NAME; K NVVS_HEADERS] output = JArr elems ->
  JsonValue.get [K NVVS_NAME; K NVVS_HEADERS]
    (fst (HelperJsonAddCategory output (List.length elems) category count))
  = JArr (elems ++ category_if_used category count)
  /\ snd (HelperJsonAddCategory output (List.length elems) category count)
     = List.length (elems ++ category_if_used category count).
Proof.
  intros H. unfold HelperJsonAddCategory, category_if_used.
  destruct (0 <? count); cbn [fst snd].
  - split; [|rewrite length_app; reflexivity].
    cbn [JsonValue.get JsonValue.set] in H |- *.
    cbn [JsonValue.members_of]. rewrite JsonFacts.member_put_same.
    cbn [JsonValue.members_of]. rewrite JsonFacts.member_put_same.
    rewrite H. cbn [JsonValue.elems_of]. now rewrite put_elem_snoc.
  - rewrite app_nil_r. split; [exact H | reflexivity].
Qed.

(** Filing a test under a category that lists [tests] puts it at the end
    of the list. *)
Lemma HelperJsonAddPlugin_lists (d : Diag) (header : str) (category : Json)
    (count : nat) (testEntry : Json) (tests : list nat) (p : nat) :
  category_lists d header category tests ->
  count = List.length tests ->
  JsonValue.get [K NVVS_TEST_NAME] testEntry = JStr (HelperGetPluginName d p) ->
  category_lists d header (fst (HelperJsonAddPlugin category count testEntry))
    (tests ++ [p])
  /\ snd (HelperJsonAddPlugin category count testEntry) = List.length (tests ++ [p]).
Proof.
  intros [Hh Hn] -> Hname. unfold HelperJsonAddPlugin. cbn [fst snd].
  split; [split|].
  - rewrite JsonFacts.get_set_other by (cbn; lia). exact Hh.
  - assert (Hset : JsonValue.elems_of
                     (JsonValue.get [K NVVS_TESTS]
                        (JsonValue.set [K NVVS_TESTS; At (List.length tests)]
                           testEntry category))
                   = JsonValue.elems_of (JsonValue.get [K NVVS_TESTS] category)
                       ++ [testEntry]).
    { pose proof (f_equal (@List.length Json) Hn) as Hlen.
      rewrite !length_map in Hlen.
      cbn [JsonValue.get JsonValue.set JsonValue.members_of] in Hlen |- *.
      rewrite JsonFacts.member_put_same. cbn [JsonValue.elems_of].
      rewrite <- Hlen at 1. apply put_elem_snoc. }
    rewrite Hset, !map_app, Hn. cbn [map]. now rewrite Hname.
  - rewrite length_app. reflexivity.
Qed.

(** The [switch]: the test goes to the end of the list of its category,
    and nowhere when no category names it. *)
Lemma file_plugin_lists (d : Diag) (p : nat) (testEntry : Json) (c : categories)
    (hw ig st : list nat) :
  categories_list d c hw ig st ->
  JsonValue.get [K NVVS_TEST_NAME] testEntry = JStr (HelperGetPluginName d p) ->
  categories_list d (file_plugin p testEntry c)
    (hw ++ if hardware_test p then [p] else [])
    (ig ++ if integration_test p then [p] else [])
    (st ++ if stress_test p then [p] else []).
Proof.
  intros ([Hh Hhn] & [Hi Hin] & [Hs Hsn]) Hname.
  unfold file_plugin, stress_test, integration_test, hardware_test.
  destruct ((p =? DCGM_MEMORY_INDEX) || (p =? DCGM_DIAGNOSTIC_INDEX)
            || (p =? DCGM_PULSE_TEST_INDEX) || (p =? DCGM_EUD_TEST_INDEX)).
  - cbn [negb andb]. rewrite !app_nil_r.
    pose proof (@HelperJsonAddPlugin_lists d _ _ _ testEntry _ p Hh Hhn Hname) as [H1 H2].
    destruct (HelperJsonAddPlugin (hardware c) (hardwarePluginCount c) testEntry).
    cbn [fst snd] in H1, H2.
    split; [|split]; cbn [hardware hardwarePluginCount integration
                            integrationPluginCount stress stressPluginCount];
      split; assumption.
  - cbn [negb andb]. rewrite app_nil_r.
    destruct (p =? DCGM_PCI_INDEX).
    + cbn [negb andb]. rewrite app_nil_r.
      pose proof (@HelperJsonAddPlugin_lists d _ _ _ testEntry _ p Hi Hin Hname) as [H1 H2].
      destruct (HelperJsonAddPlugin (integration c) (integrationPluginCount c) testEntry).
      cbn [fst snd] in H1, H2.
      split; [|split]; cbn [hardware hardwarePluginCount integration
                              integrationPluginCount stress stressPluginCount];
        split; assumption.
    + cbn [negb andb]. rewrite app_nil_r.
      destruct ((p =? DCGM_SM_STRESS_INDEX) || (p =? DCGM_TARGETED_STRESS_INDEX)
                || (p =? DCGM_TARGETED_POWER_INDEX)
                || (p =? DCGM_MEMORY_BANDWIDTH_INDEX) || (p =? DCGM_MEMTEST_INDEX)).
      * pose proof (@HelperJsonAddPlugin_lists d _ _ _ testEntry _ p Hs Hsn Hname) as [H1 H2].
        destruct (HelperJsonAddPlugin (stress c) (stressPluginCount c) testEntry).
        cbn [fst snd] in H1, H2.
        split; [|split]; cbn [hardware hardwarePluginCount integration
                                integrationPluginCount stress stressPluginCount];
          split; assumption.
      * rewrite app_nil_r. split; [|split]; split; assumption.
Qed.

(** The loop over the GPUs of one test: the flag says whether the test ran
    on one of them, and the name of the test entry stays. *)
Lemma results_fold (r : dcgmDiagResponse_t) (p : nat) (ps : list (nat * nat)) :
  forall (testEntry : Json) (ran : bool),
    let out :=
      fold_left
        (fun '(testEntry, pluginRan) '(i, gpuIndex) =>
           let '(added, testEntry) :=
             HelperJsonAddResult (perGpuResponses r gpuIndex)
               testEntry gpuIndex p i in
           (testEntry, if added then true else pluginRan))
        ps (testEntry, ran) in
    snd out
    = ran || existsb
               (fun ig =>
                  negb (dcgmDiagResult_eqb
                          (status (results (perGpuResponses r (snd ig)) p))
                          DCGM_DIAG_RESULT_NOT_RUN))
               ps
    /\ JsonValue.get [K NVVS_TEST_NAME] (fst out)
       = JsonValue.get [K NVVS_TEST_NAME] testEntry.
Proof.
  induction ps as [|[i g] ps IH]; intros testEntry ran; cbv zeta.
  - cbn. now rewrite orb_false_r.
  - cbn [fold_left existsb snd]. unfold HelperJsonAddResult at 2 4.
    destruct (dcgmDiagResult_eqb (status (results (perGpuResponses r g) p))
                DCGM_DIAG_RESULT_NOT_RUN).
    + cbn [negb orb]. apply IH.
    + cbn [negb orb]. cbv zeta in IH.
      match goal with
      | |- context [fold_left _ ps (?te, true)] =>
          destruct (IH te true) as [H1 H2]
      end.
      rewrite H1, H2. split; [now rewrite orb_true_r|].
      apply JsonFacts.get_set_other. cbn. lia.
Qed.

Lemma existsb_indexed {A : Type} (f : A -> bool) (l : list A) :
  existsb (fun ig => f (snd ig)) (indexed l) = existsb f l.
Proof.
  unfold indexed. generalize 0.
  induction l as [|a l IH]; intros n; [reflexivity|].
  cbn [List.length seq combine existsb snd]. now rewrite IH.
Qed.

Lemma app_filter_cons {A : Type} (f : A -> bool) (l0 : list A) (a : A) (l : list A) :
  l0 ++ filter f (a :: l) = (l0 ++ if f a then [a] else []) ++ filter f l.
Proof. cbn [filter]. destruct (f a); now rewrite <- app_assoc. Qed.

(** The loop over the tests: each test that ran on one of the GPUs goes
    to the end of the list of its category. *)
Lemma plugins_fold_lists (d : Diag) (r : dcgmDiagResponse_t) (l : list nat)
    (ps : list nat) :
  forall (c : categories) (hw ig st : list nat),
    categories_list d c hw ig st ->
    categories_list d
      (fold_left
         (fun c pluginIndex =>
            let testEntry :=
              JsonValue.set [K NVVS_TEST_NAME]
                (JStr (HelperGetPluginName d pluginIndex)) JNull in
            let '(testEntry, pluginRan) :=
              fold_left
                (fun '(testEntry, pluginRan) '(i, gpuIndex) =>
                   let '(added, testEntry) :=
                     HelperJsonAddResult (perGpuResponses r gpuIndex)
                       testEntry gpuIndex pluginIndex i in
                   (testEntry, if added then true else pluginRan))
                (indexed l) (testEntry, false) in
            if pluginRan then file_plugin pluginIndex testEntry c else c)
         ps c)
      (hw ++ filter (fun p => ran_somewhere r l p && hardware_test p) ps)
      (ig ++ filter (fun p => ran_somewhere r l p && integration_test p) ps)
      (st ++ filter (fun p => ran_somewhere r l p && stress_test p) ps).
Proof.
  induction ps as [|p ps IH]; intros c hw ig st Hc.
  - cbn [fold_left filter]. now rewrite !app_nil_r.
  - cbn [fold_left]. rewrite !app_filter_cons. apply IH. cbv zeta.
    pose proof (@results_fold r p (indexed l)
                  (JsonValue.set [K NVVS_TEST_NAME] (JStr (HelperGetPluginName d p)) JNull)
                  false) as H.
    cbv zeta in H. destruct H as [Hran Hname].
    rewrite (existsb_indexed
               (fun g => negb (dcgmDiagResult_eqb
                                 (status (results (perGpuResponses r g) p))
                                 DCGM_DIAG_RESULT_NOT_RUN)) l) in Hran.
    cbn [orb] in Hran. fold (ran_somewhere r l p) in Hran.
    assert (Hfresh : forall x,
               JsonValue.get [K NVVS_TEST_NAME]
                 (JsonValue.set [K NVVS_TEST_NAME] x JNull) = x).
    { intros x. apply (@JsonFacts.get_set_prefix [K NVVS_TEST_NAME] [] x JNull). }
    rewrite Hfresh in Hname.
    destruct (fold_left _ (indexed l) _) as [testEntry pluginRan].
    cbn [fst snd] in Hran, Hname. subst pluginRan.
    destruct (ran_somewhere r l p); cbn [andb].
    + now apply file_plugin_lists.
    + now rewrite !app_nil_r.
Qed.

(** X19.  The categories of the structured report come in the order
    Deployment, Integration, Hardware, Stress.  The Deployment category is
    always there.  Each of the other three is there exactly when one of
    its tests ran on one of the GPUs of the list; it then carries its
    header and lists exactly those tests, by ascending index, each under
    its display name.  The tests of Hardware are memory, diagnostic, pulse
    and EUD, the test of Integration is PCIe, those of Stress are SM
    stress, targeted stress, targeted power, memory bandwidth and memtest;
    a test outside the three categories is listed nowhere.  When none of
    the tests of the per-GPU matrix ran on the GPUs of the list (in
    particular when the list is empty), Deployment is the only
    category. *)
Theorem HelperJsonBuildOutput_categories (d : Diag) (r : dcgmDiagResponse_t)
    (l : list nat) :
  exists deployment integration hardware stress,
    JsonValue.get [K NVVS_NAME; K NVVS_HEADERS] (HelperJsonBuildOutput d JNull r l)
    = JArr (deployment
            :: listed_if_any integration (tests_filed integration_test r l)
            ++ listed_if_any hardware (tests_filed hardware_test r l)
            ++ listed_if_any stress (tests_filed stress_test r l))
    /\ JsonValue.get [K NVVS_HEADER] deployment = JStr DISPLAY_DEPLOYMENT
    /\ category_lists d DISPLAY_INTEGRATION integration (tests_filed integration_test r l)
    /\ category_lists d DISPLAY_HARDWARE hardware (tests_filed hardware_test r l)
    /\ category_lists d DISPLAY_STRESS stress (tests_filed stress_test r l)
    /\ (nothing_ran r l ->
        JsonValue.get [K NVVS_NAME; K NVVS_HEADERS] (HelperJsonBuildOutput d JNull r l)
        = JArr [deployment]).
Proof.
  unfold HelperJsonBuildOutput. cbv zeta.
  match goal with
  | |- context [HelperJsonAddBasicTests ?o 0 r] => set (output4 := o)
  end.
  assert (Hfresh : JsonValue.get [K NVVS_NAME; K NVVS_HEADERS] output4 = JNull).
  { subst output4.
    rewrite (@fold_left_get_other _ NVVS_NAME [K NVVS_HEADERS])
      by (intros i v; apply JsonFacts.get_set_other; cbn; lia).
    rewrite (@fold_left_get_other _ NVVS_NAME [K NVVS_HEADERS])
      by (intros i v; destruct (negb _);
          [apply JsonFacts.get_set_other; cbn; lia | reflexivity]).
    rewrite JsonFacts.get_set_other by (cbn; lia).
    rewrite JsonFacts.get_set_other by (cbn; lia). reflexivity. }
  assert (Hbasic : exists deployment,
             JsonValue.get [K NVVS_NAME; K NVVS_HEADERS]
               (fst (HelperJsonAddBasicTests output4 0 r)) = JArr [deployment]
             /\ snd (HelperJsonAddBasicTests output4 0 r) = 1
             /\ JsonValue.get [K NVVS_HEADER] deployment = JStr DISPLAY_DEPLOYMENT).
  { unfold HelperJsonAddBasicTests. cbv zeta.
    set (category0 := JsonValue.set [K NVVS_HEADER] (JStr DISPLAY_DEPLOYMENT) JNull).
    assert (Hheader : forall ts acc,
               JsonValue.get [K NVVS_HEADER]
                 (fst (fold_left (HelperJsonAddBasicTests_turn r) ts acc))
               = JsonValue.get [K NVVS_HEADER] (fst acc)).
    { induction ts as [|t ts IH]; intros [category adjustment]; [reflexivity|].
      cbn [fold_left]. rewrite IH. unfold HelperJsonAddBasicTests_turn.
      destruct (_ && _); [reflexivity|]. cbn [fst].
      rewrite JsonFacts.get_set_other by (cbn; lia).
      apply JsonFacts.get_set_other. cbn. lia. }
    specialize (Hheader (seq 0 (levelOneTestCount r)) (category0, 0)).
    destruct (fold_left _ (seq 0 (levelOneTestCount r)) (category0, 0)) as [category adj].
    cbn [fst snd] in Hheader |- *.
    exists category. split; [|split; [reflexivity | exact Hheader]].
    cbn [JsonValue.get JsonValue.set] in Hfresh |- *.
    cbn [JsonValue.members_of]. rewrite JsonFacts.member_put_same.
    cbn [JsonValue.members_of]. rewrite JsonFacts.member_put_same.
    rewrite Hfresh. reflexivity. }
  destruct Hbasic as (deployment & Hdep & Hidx & Hheader).
  destruct (HelperJsonAddBasicTests output4 0 r) as [output5 ci].
  cbn [fst snd] in Hdep, Hidx. subst ci.
  match goal with
  | |- context [fold_left ?F (seq 0 DCGM_PER_GPU_TEST_COUNT_V8) ?start] =>
      pose proof (@plugins_fold_lists d r l (seq 0 DCGM_PER_GPU_TEST_COUNT_V8)
                    start [] [] []) as Hc;
      set (c := fold_left F (seq 0 DCGM_PER_GPU_TEST_COUNT_V8) start) in *
  end.
  cbn [app] in Hc.
  fold (tests_filed hardware_test r l) in Hc.
  fold (tests_filed integration_test r l) in Hc.
  fold (tests_filed stress_test r l) in Hc.
  destruct Hc as ([Hh Hhn] & [Hi Hin] & [Hs Hsn]).
  { repeat split; reflexivity. }
  assert (Hused : forall category tests,
             category_if_used category (List.length tests)
             = listed_if_any category tests).
  { intros category [|t tests]; reflexivity. }
  assert (Harr : JsonValue.get [K NVVS_NAME; K NVVS_HEADERS]
                   (let '(output, categoryIndex) :=
                      HelperJsonAddCategory output5 1 (integration c)
                        (integrationPluginCount c) in
                    let '(output, categoryIndex) :=
                      HelperJsonAddCategory output categoryIndex (hardware c)
                        (hardwarePluginCount c) in
                    let '(output, _) :=
                      HelperJsonAddCategory output categoryIndex (stress c)
                        (stressPluginCount c) in
                    output)
                 = JArr (deployment
                         :: listed_if_any (integration c) (tests_filed integration_test r l)
                         ++ listed_if_any (hardware c) (tests_filed hardware_test r l)
                         ++ listed_if_any (stress c) (tests_filed stress_test r l))).
  { pose proof (@HelperJsonAddCategory_snoc output5 [deployment]
                  (integration c) (integrationPluginCount c) Hdep) as [H1 I1].
    cbn [List.length] in H1, I1.
    destruct (HelperJsonAddCategory output5 1 (integration c) (integrationPluginCount c))
      as [output6 ci1].
    cbn [fst snd] in H1, I1. subst ci1.
    pose proof (@HelperJsonAddCategory_snoc output6 _
                  (hardware c) (hardwarePluginCount c) H1) as [H2 I2].
    destruct (HelperJsonAddCategory output6 _ (hardware c) (hardwarePluginCount c))
      as [output7 ci2].
    cbn [fst snd] in H2, I2. subst ci2.
    pose proof (@HelperJsonAddCategory_snoc output7 _
                  (stress c) (stressPluginCount c) H2) as [H3 _].
    destruct (HelperJsonAddCategory output7 _ (stress c) (stressPluginCount c))
      as [output8 ci3].
    cbn [fst] in H3. rewrite H3, Hhn, Hin, Hsn, !Hused. cbn [app].
    now rewrite <- !app_assoc. }
  exists deployment, (integration c), (hardware c), (stress c).
  split; [exact Harr|]. split; [exact Hheader|].
  split; [exact Hi|]. split; [exact Hh|]. split; [exact Hs|].
  intros Hnr. rewrite Harr.
  assert (Hnone : forall in_category, tests_filed in_category r l = []).
  { intros in_category. apply filter_none. intros p Hp. apply in_seq in Hp.
    replace (ran_somewhere r l p) with false; [reflexivity|].
    symmetry. unfold ran_somewhere.
    destruct (existsb _ l) eqn:E; [|reflexivity].
    apply existsb_exists in E. destruct E as (g & Hg & Hst).
    rewrite (Hnr g p Hg) in Hst by lia. discriminate. }
  now rewrite !Hnone.
Qed.

End Structured.

Lemma HelperJsonAddBasicTests_contiguous_witness :
  JsonValue.get
    [K NVVS_NAME; K NVVS_HEADERS; At 0; K NVVS_TESTS; At 3; K NVVS_TEST_NAME]
    (fst (HelperJsonAddBasicTests (headers := sample_headers) JNull 0 deployment_only))
  = JStr (lit "Permissions and OS Blocks").
Proof.
  apply (@HelperJsonAddBasicTests_contiguous sample_headers JNull 0 deployment_only 3).
  vm_compute. lia.
Defined.

Lemma levelOne_not_run_in_both_formats_witness :
  HelperDisplayDeploymentResult (headers := sample_headers) (lit "NVML Library")
    (levelOneResults deployment_only 1) = Ok []
  /\ exists idx,
       JsonValue.get
         [K NVVS_NAME; K NVVS_HEADERS; At 0; K NVVS_TESTS; At idx; K NVVS_TEST_NAME]
         (fst (HelperJsonAddBasicTests (headers := sample_headers) JNull 0 deployment_only))
       = JStr (lit "NVML Library")
       /\ JsonValue.get
            [K NVVS_NAME; K NVVS_HEADERS; At 0; K NVVS_TESTS; At idx;
             K NVVS_RESULTS; At 0; K NVVS_STATUS]
            (fst (HelperJsonAddBasicTests (headers := sample_headers) JNull 0 deployment_only))
          = JStr (lit "Fail").
Proof.
  apply (@levelOne_not_run_in_both_formats sample_headers JNull 0 deployment_only 1).
  - vm_compute. lia.
  - reflexivity.
  - vm_compute. discriminate.
Defined.

Lemma HelperJsonBuildOutput_categories_witness :
  exists deployment integration hardware stress,
    JsonValue.get [K NVVS_NAME; K NVVS_HEADERS]
      (HelperJsonBuildOutput (headers := sample_headers) (sample_Diag true 1) JNull
         all_pass [0; 1])
    = JArr [deployment; integration; hardware; stress]
    /\ category_lists (headers := sample_headers) (sample_Diag true 1)
         DISPLAY_INTEGRATION integration [2]
    /\ category_lists (headers := sample_headers) (sample_Diag true 1)
         DISPLAY_HARDWARE hardware [0; 1; 8; 9]
    /\ category_lists (headers := sample_headers) (sample_Diag true 1)
         DISPLAY_STRESS stress [3; 4; 5; 6; 7].
Proof.
  destruct (@HelperJsonBuildOutput_categories sample_headers (sample_Diag true 1)
              all_pass [0; 1])
    as (deployment & integration & hardware & stress & Harr & _ & Hi & Hh & Hs & _).
  exists deployment, integration, hardware, stress.
  split; [exact Harr | split; [exact Hi | split; [exact Hh | exact Hs]]].
Defined.

(** ** The sections of the text report *)

Lemma emit_all_app_ok (a b : list (res (list out_item))) (x y : list out_item) :
  emit_all a = Ok x -> emit_all b = Ok y -> emit_all (a ++ b) = Ok (x ++ y).
Proof.
  revert x; induction a as [|p a IH]; intros x Ha Hb; cbn [app emit_all] in *.
  - injection Ha as <-. exact Hb.
  - unfold emit_then in *. destruct p as [rows| | |]; cbn [rbind] in *; try discriminate.
    destruct (emit_all a) as [rest| | |]; cbn [rbind] in *; try discriminate.
    injection Ha as <-. rewrite (IH rest eq_refl Hb). cbn [rbind].
    now rewrite app_assoc.
Qed.

(** What is emitted is what the parts emit, and nothing else. *)
Lemma emit_all_parts (parts : list (res (list out_item))) (rows : list out_item) :
  emit_all parts = Ok rows ->
  (forall part, In part parts ->
                exists p, part = Ok p /\ forall x, In x p -> In x rows)
  /\ (forall x, In x rows -> exists p, In (Ok p) parts /\ In x p).
Proof.
  revert rows; induction parts as [|q parts IH]; intros rows H; cbn [emit_all] in H.
  - injection H as <-. split; [intros part [] | intros x []].
  - unfold emit_then in H. destruct q as [a| | |]; cbn [rbind] in H; try discriminate.
    destruct (emit_all parts) as [rest| | |]; cbn [rbind] in H; try discriminate.
    injection H as <-. destruct (IH rest eq_refl) as [IH1 IH2]. split.
    + intros part [<- | Hin].
      * exists a. split; [reflexivity|]. intros x Hx. apply in_or_app. now left.
      * destruct (IH1 part Hin) as (p & -> & Hp). exists p. split; [reflexivity|].
        intros x Hx. apply in_or_app. right. now apply Hp.
    + intros x Hx. apply in_app_or in Hx. destruct Hx as [Hx | Hx].
      * exists a. split; [now left | exact Hx].
      * destruct (IH2 x Hx) as (p & Hp & Hxp). exists p. split; [now right | exact Hxp].
Qed.

(** A message displayed as it is, unless it is empty. *)
Lemma raw_display_eq (name m : str) :
  (if negb (str_eqb m []) then DisplayVerboseInfo name m else Ok [])
  = Ok (message_rows name m).
Proof.
  destruct m as [|c m]; [reflexivity|].
  rewrite str_eqb_nil_false by discriminate. apply DisplayVerboseInfo_eq.
Qed.

Lemma message_rows_are_rows (name text : str) : Forall is_Row (message_rows name text).
Proof.
  unfold message_rows. apply Forall_forall. intros x Hx.
  apply in_map_iff in Hx as (k & <- & _). exact I.
Qed.

Section Sections.

Context {headers : DcgmHeaders}.

(** X20.  The Metadata section: after its banner, the DCGM version, the
    driver version, and the device ids of the first [gpuCount] entries of
    the response (whichever GPUs the run selected), with a comma between
    neighbours and none before the first or after the last. *)
Theorem HelperDisplayVersionAndDevIds_rows (r : dcgmDiagResponse_t) :
  HelperDisplayVersionAndDevIds r
  = [ Text DIAG_INFO;
      Row (lit "DCGM Version") (dcgmVersion r);
      Row (lit "Driver Version Detected") (driverVersion r);
      Row (lit "GPU Device IDs Detected")
        (comma_separated (map (devIds r) (seq 0 (gpuCount r)))) ].
Proof.
  unfold HelperDisplayVersionAndDevIds. do 4 f_equal.
  assert (Hrest : forall n a acc,
             0 < a ->
             fold_left (fun ss i =>
                          if i =? 0 then ss ++ devIds r i
                          else ss ++ lit "," ++ devIds r i)
               (seq a n) acc
             = acc ++ flat_map (fun s => lit "," ++ s) (map (devIds r) (seq a n))).
  { induction n as [|n IH]; intros a acc Ha; cbn [seq fold_left map flat_map].
    - now rewrite app_nil_r.
    - replace (a =? 0) with false by (symmetry; apply Nat.eqb_neq; lia).
      rewrite IH by lia. now rewrite <- !app_assoc. }
  destruct (gpuCount r) as [|n]; [reflexivity|].
  cbn [seq fold_left map comma_separated Nat.eqb app].
  now rewrite Hrest by lia.
Qed.

Lemma HelperDisplayDeploymentResult_eq (nameTag : str) (cell : dcgmDiagTestResult_v3) :
  HelperDisplayDeploymentResult nameTag cell = Ok (deployment_rows nameTag cell).
Proof.
  unfold HelperDisplayDeploymentResult, deployment_rows.
  assert (Hshown :
            emit_all
              ([Ok [Row nameTag (HelperDisplayDiagResult (status cell))]]
               ++ map (fun i =>
                         if negb (str_eqb (msg (error cell i)) [])
                         then DisplayVerboseInfo (lit "Error") (msg (error cell i))
                         else Ok [])
                    (seq 0 DCGM_MAX_ERRORS)
               ++ [if negb (str_eqb (info cell) [])
                   then DisplayVerboseInfo (lit "Info") (info cell)
                   else Ok []])
            = Ok ([Row nameTag (HelperDisplayDiagResult (status cell))]
                  ++ flat_map (fun j => message_rows (lit "Error") (msg (error cell j)))
                       (seq 0 DCGM_MAX_ERRORS)
                  ++ message_rows (lit "Info") (info cell))).
  { apply emit_all_app_ok; [reflexivity|].
    apply emit_all_app_ok.
    - apply emit_all_map. intros j _. apply raw_display_eq.
    - cbn [emit_all]. rewrite raw_display_eq. unfold emit_then. cbn [rbind].
      now rewrite app_nil_r. }
  destruct (status cell); cbn [dcgmDiagResult_eqb negb]; try exact Hshown.
  reflexivity.
Qed.

Lemma deployment_rows_are_rows (nameTag : str) (cell : dcgmDiagTestResult_v3) :
  Forall is_Row (deployment_rows nameTag cell).
Proof.
  assert (H : Forall is_Row
                (flat_map (fun j => message_rows (lit "Error") (msg (error cell j)))
                   (seq 0 DCGM_MAX_ERRORS)
                 ++ message_rows (lit "Info") (info cell))).
  { apply Forall_app. split; [|apply message_rows_are_rows].
    apply Forall_forall. intros x Hx. apply in_flat_map in Hx as (j & _ & Hx).
    pose proof (message_rows_are_rows (lit "Error") (msg (error cell j))) as Hr.
    rewrite Forall_forall in Hr. now apply Hr. }
  unfold deployment_rows. destruct (status cell); try (constructor; [exact I | exact H]).
  constructor.
Qed.

Lemma HelperDisplayDeployment_eq (r : dcgmDiagResponse_t) :
  HelperDisplayDeployment r
  = Ok (Text DIAG_DEPLOYMENT
        :: flat_map (fun i => deployment_rows (levelOneTests i) (levelOneResults r i))
             (seq 0 (levelOneTestCount r))).
Proof.
  unfold HelperDisplayDeployment.
  apply (@emit_all_cons_ok [Text DIAG_DEPLOYMENT]).
  apply emit_all_map. intros i _. apply HelperDisplayDeploymentResult_eq.
Qed.

(** X21.  The Deployment section of the text report: after its banner,
    for every level-one test that ran, in order, one row with the name of
    the test and its status, then its error messages under "Error" and
    its note under "Info", laid out as they are (they do not go through
    [Sanitize]); a test that did not run takes no row.  The report always
    has this section, and it has the Integration, Hardware and Stress
    banners exactly when the GPU working set is not empty. *)
Theorem text_report_sections (d : Diag) (r : dcgmDiagResponse_t) :
  HelperDisplayDeployment r
  = Ok (Text DIAG_DEPLOYMENT
        :: flat_map (fun i => deployment_rows (levelOneTests i) (levelOneResults r i))
             (seq 0 (levelOneTestCount r)))
  /\ (forall nameTag cell,
        deployment_rows nameTag cell
        = match status cell with
          | DCGM_DIAG_RESULT_NOT_RUN => []
          | st =>
              Row nameTag (HelperDisplayDiagResult st)
              :: flat_map (fun j => message_rows (lit "Error") (msg (error cell j)))
                   (seq 0 DCGM_MAX_ERRORS)
              ++ message_rows (lit "Info") (info cell)
          end)
  /\ forall gpuVec,
       exists rows,
         text_report d r gpuVec = Ok rows /\
         In (Text DIAG_DEPLOYMENT) rows /\
         forall banner, In banner [DIAG_INTEGRATION; DIAG_HARDWARE; DIAG_STRESS] ->
                        (In (Text banner) rows <-> gpuVec <> []).
Proof.
  split; [apply HelperDisplayDeployment_eq|]. split; [reflexivity|].
  intros gpuVec.
  destruct (text_report_total d r gpuVec) as [rows Hrows]. exists rows.
  split; [exact Hrows|].
  unfold text_report in Hrows. rewrite HelperDisplayDeployment_eq in Hrows.
  apply emit_all_parts in Hrows. destruct Hrows as [Hparts Hrows].
  split.
  { destruct (Hparts _ (or_intror (or_intror (or_intror (or_introl eq_refl)))))
      as (p & Hp & Hin).
    injection Hp as <-. apply Hin. now left. }
  intros banner Hb. destruct gpuVec as [|g l].
  - split; [|intros C; now elim C]. intros Hin. exfalso.
    destruct (Hrows _ Hin) as (p & Hp & Hx). clear Hparts Hrows Hin.
    cbn [List.length Nat.ltb Nat.leb] in Hp.
    destruct Hp as [Hp | [Hp | [Hp | [Hp | [Hp | [Hp | []]]]]]];
      injection Hp as <-.
    + destruct Hx as [Hx | [Hx | []]]; injection Hx as Hx; revert Hx;
        destruct Hb as [<- | [<- | [<- | []]]]; vm_compute; discriminate.
    + destruct Hx as [Hx | []]; injection Hx as Hx; revert Hx;
        destruct Hb as [<- | [<- | [<- | []]]]; vm_compute; discriminate.
    + destruct Hx as [Hx | [Hx | [Hx | [Hx | []]]]]; try discriminate Hx.
      injection Hx as Hx; revert Hx;
        destruct Hb as [<- | [<- | [<- | []]]]; vm_compute; discriminate.
    + destruct Hx as [Hx | Hx].
      * injection Hx as Hx; revert Hx;
          destruct Hb as [<- | [<- | [<- | []]]]; vm_compute; discriminate.
      * apply in_flat_map in Hx as (i & _ & Hx).
        pose proof (deployment_rows_are_rows (levelOneTests i) (levelOneResults r i)) as Hr.
        rewrite Forall_forall in Hr. exact (Hr _ Hx).
    + destruct Hx.
    + destruct Hx as [Hx | []]; injection Hx as Hx; revert Hx;
        destruct Hb as [<- | [<- | [<- | []]]]; vm_compute; discriminate.
  - split; [discriminate|]. intros _.
    destruct (Hparts _ (or_intror (or_intror (or_intror (or_intror (or_introl eq_refl))))))
      as (p & Hp & Hin).
    apply Hin. clear Hin Hparts Hrows.
    cbn [List.length] in Hp. replace (0 <? S (List.length l)) with true in Hp by reflexivity.
    apply emit_all_parts in Hp. destruct Hp as [Hp _].
    destruct Hb as [<- | [<- | [<- | []]]].
    + destruct (Hp _ (or_introl eq_refl)) as (q & Hq & Hin). apply Hin.
      unfold HelperDisplayIntegration in Hq. apply emit_all_parts in Hq.
      destruct Hq as [Hq _].
      destruct (Hq _ (or_introl eq_refl)) as (q' & Hq' & Hin').
      injection Hq' as <-. apply Hin'. now left.
    + destruct (Hp _ (or_intror (or_introl eq_refl))) as (q & Hq & Hin). apply Hin.
      unfold HelperDisplayHardware in Hq. apply emit_all_parts in Hq.
      destruct Hq as [Hq _].
      destruct (Hq _ (or_introl eq_refl)) as (q' & Hq' & Hin').
      injection Hq' as <-. apply Hin'. now left.
    + destruct (Hp _ (or_intror (or_intror (or_introl eq_refl)))) as (q & Hq & Hin).
      apply Hin.
      unfold HelperDisplayPerformance in Hq. apply emit_all_parts in Hq.
      destruct Hq as [Hq _].
      destruct (Hq _ (or_introl eq_refl)) as (q' & Hq' & Hin').
      injection Hq' as <-. apply Hin'. now left.
Qed.

End Sections.
